(** * Regression harness of the USD file-format plugins: a shallow embedding

    The development follows [test/test.py]: the image comparator
    ([compare_images_with_similarity_threshold]), the schema-check runner
    ([run_usdchecker]), the conversion pipeline ([process_file]), the
    baseline comparison ([test_usd_checker]), the rendering test
    ([test_asset_rendering]) and the loops over the assets
    ([generate_baseline_function], [pytest_generate_tests], [cleanup]).

    Conventions of the embedding.
    - A Python [str] is a [string]; a character stands for the code point
      of the same number, so the texts of the model are the Python texts
      over the code points 0..255.
    - Python integers are [Z]; [str.find] keeps its [-1] for "absent".
    - The similarity ratio and its threshold are exact fractions ([Q]),
      where Python has floats.
    - An exception is a value of [exn]; a function that can raise returns
      a [result]. The records of [logging] and the calls of tools are
      returned as lists, in the order they happen.
    - What an external tool or the file system answers (the decoded
      output of [usdchecker], the array [cv2.imread] returns, the files
      [usdrecord] writes) is an argument of the embedded function or a
      variable of its section. Text files are a finite map from paths to
      the text Python reads from them; what [os.walk] yields for a folder
      is the list of its directories, each with its files.
    - [json.dump] and [json.loads] are embedded as an encoder and a
      decoder of their own ([Json.dumps], [Json.loads]); paths follow the
      POSIX flavour of [os.path] and [pathlib].
    - The numbers of the JSON texts are integers. A text with a fraction,
      an exponent, [NaN] or [Infinity] is outside the embedding: the
      decoder of the model rejects it where Python builds a float. What is
      stated of a text that does not decode is stated of texts that Python
      rejects as well.
    - The tools are taken to answer and the folders to exist: opening a
      document for writing does not fail, and [Usd.Stage.Open] returns a
      stage or nothing, where pxr raises for a layer it cannot open and
      Python raises [FileNotFoundError] for a missing folder. What is
      stated of the generation, and of a write into a folder that nothing
      creates, is stated of the runs that return. *)

From Stdlib Require Import ZArith QArith Lia Ascii String List.
From Stdlib Require Import Decimal DecimalString DecimalZ DecimalPos DecimalFacts.
From stdpp Require Import base list gmap strings.

Local Open Scope Z_scope.

(** ** Exceptions and results *)

Inductive exn : Type :=
  | ValueError (msg : string)
  | ZeroDivisionError
  | KeyError (key : string)
  | TypeError
  | AttributeError
  | AssertionError (msg : string)
  | FileNotFoundError (path : string)
  | JSONDecodeError.

Inductive result (A : Type) : Type :=
  | Return (a : A)
  | Raise (e : exn).
Arguments Return {A} a.
Arguments Raise {A} e.

(** Records of the [logging] module, in the order they are emitted. A
    message is a text, or a text followed by a number that the source
    formats into it. *)
Inductive log_level : Type := LInfo | LWarning | LError.

Inductive log_msg : Type :=
  | Msg (text : string)
  | MsgRatio (text : string) (ratio : Q).

Definition log_entry : Type := (log_level * log_msg)%type.

(** ** Python strings *)

Module PyStr.

Definition LF : ascii := "010"%char.
Definition CR : ascii := "013"%char.
Definition nl : string := String LF EmptyString.

(** [s.startswith(p)] *)
Fixpoint startswith (s p : string) {struct p} : bool :=
  match p, s with
  | EmptyString, _ => true
  | String a p', String b s' => if Ascii.eqb a b then startswith s' p' else false
  | String _ _, EmptyString => false
  end.

(** The first index of an occurrence of [sub] in [s], the indices of [s]
    starting at [i]; [-1] when there is none. *)
Fixpoint find_at (sub s : string) (i : Z) : Z :=
  if startswith s sub then i
  else match s with
       | EmptyString => -1
       | String _ r => find_at sub r (i + 1)
       end.

Fixpoint drop (n : nat) (s : string) : string :=
  match n, s with
  | O, _ => s
  | S k, String _ r => drop k r
  | S _, EmptyString => EmptyString
  end.

Definition len (s : string) : Z := Z.of_nat (String.length s).

(** A slice bound as Python normalises it: a negative one counts from
    the end, and is clipped at 0. *)
Definition norm_index (s : string) (k : Z) : Z :=
  if k <? 0 then Z.max 0 (k + len s) else k.

(** [s.find(sub, start)] *)
Definition find (s sub : string) (start : Z) : Z :=
  let st := norm_index s start in
  if st >? len s then -1 else find_at sub (drop (Z.to_nat st) s) st.

(** [s[k:]] *)
Definition slice_from (s : string) (k : Z) : string :=
  drop (Z.to_nat (norm_index s k)) s.

(** [sub in s] *)
Definition contains (sub s : string) : bool := negb (find s sub 0 =? -1).

(** [s.split(sep)] for a separator of one character. *)
Fixpoint split (s : string) (sep : ascii) : list string :=
  match s with
  | EmptyString => [EmptyString]
  | String c r =>
      if Ascii.eqb c sep then EmptyString :: split r sep
      else match split r sep with
           | h :: t => String c h :: t
           | [] => [String c EmptyString]
           end
  end.

(** [x in l] for a list of strings. *)
Definition elem (x : string) (l : list string) : bool :=
  existsb (String.eqb x) l.

(** [sep.join(l)] *)
Fixpoint join (sep : string) (l : list string) : string :=
  match l with
  | [] => EmptyString
  | [x] => x
  | x :: t => x +:+ sep +:+ join sep t
  end.

(** The characters [str.strip()] removes, among the code points below
    256: the ASCII white space, the separators 28..31, NEL and the
    no-break space. *)
Definition isspace (c : ascii) : bool :=
  let n := nat_of_ascii c in
  ((9 <=? n) && (n <=? 13) || (28 <=? n) && (n <=? 32)
   || (n =? 133) || (n =? 160))%nat.

Fixpoint lstrip (s : string) : string :=
  match s with
  | String c r => if isspace c then lstrip r else s
  | EmptyString => EmptyString
  end.

Fixpoint rstrip (s : string) : string :=
  match s with
  | EmptyString => EmptyString
  | String c r =>
      match rstrip r with
      | EmptyString => if isspace c then EmptyString else String c EmptyString
      | r' => String c r'
      end
  end.

(** [s.strip()] *)
Definition strip (s : string) : string := rstrip (lstrip s).

End PyStr.

(** ** [pathlib.Path], POSIX flavour *)

Module PathLib.

(** A parsed path: its root ([/], [//] or none) and its segments. *)
Record Path : Type := MkPath { root : string; segments : list string }.

Definition keep_segment (seg : string) : bool :=
  negb (String.eqb seg EmptyString) && negb (String.eqb seg ".").

Definition parse_root (file : string) : string :=
  if PyStr.startswith file "///" then "/"
  else if PyStr.startswith file "//" then "//"
  else if PyStr.startswith file "/" then "/"
  else EmptyString.

(** [Path(file)]: empty segments and [.] segments are dropped. *)
Definition of_string (file : string) : Path :=
  MkPath (parse_root file) (filter (fun seg => keep_segment seg = true)
                              (PyStr.split file "/"%char)).

(** [path.name]: the last segment, or the empty string. *)
Definition name (p : Path) : string := List.last (segments p) EmptyString.

(** [path.parent]: the path without its last segment; a path with no
    segment is its own parent. *)
Definition parent (p : Path) : Path :=
  MkPath (root p) (List.removelast (segments p)).

End PathLib.

(** ** The schema-check runner: [run_usdchecker] up to the results document *)

Record DiagnosticResult : Type := MkResult {
  r_filename : string;
  r_pass : bool;
  r_warnings : list string;
  r_errors : list string
}.

Definition marker_total_time : string := "Total time:".
Definition marker_write_layer : string := "Write layer via Sdf API:".

(** Lines 93-104: where the diagnostic part of the standard output starts. *)
Definition truncate_stdout (stdout_str : string) : string :=
  let total_time_index := PyStr.find stdout_str marker_total_time 0 in
  if negb (total_time_index =? -1) then
    let newline_after_total_time := PyStr.find stdout_str PyStr.nl total_time_index in
    if negb (newline_after_total_time =? -1)
    then PyStr.slice_from stdout_str (newline_after_total_time + 1)
    else stdout_str
  else
    let write_layer_index := PyStr.find stdout_str marker_write_layer 0 in
    if negb (write_layer_index =? -1) then
      let newline_after_write_layer := PyStr.find stdout_str PyStr.nl write_layer_index in
      if negb (newline_after_write_layer =? -1)
      then PyStr.slice_from stdout_str (newline_after_write_layer + 1)
      else stdout_str
    else stdout_str.

Definition ignorable_errors : list string :=
  [ "Stage does not specify an upAxis.";
    "Stage does not specify its linear scale in metersPerUnit." ].

Definition success_cr : string := "Success!" +:+ String PyStr.CR EmptyString.
Definition failed_cr : string := "Failed!" +:+ String PyStr.CR EmptyString.

Definition filter_out_strings : list string :=
  [ EmptyString; success_cr; failed_cr; "Success!"; "Failed!" ].

(** Line 114: [errors]. *)
Definition collect_errors (stdout_str stderr_str : string) : list string :=
  filter (fun err => PyStr.elem err filter_out_strings = false)
         (PyStr.split (stdout_str +:+ stderr_str) PyStr.LF).

(** The condition of line 117: no ignorable message occurs in [err]. *)
Definition is_non_ignorable (err : string) : bool :=
  forallb (fun ignorable => negb (PyStr.contains ignorable err)) ignorable_errors.

(** Line 117: [non_ignorable_errors]. *)
Definition filter_non_ignorable (errors : list string) : list string :=
  filter (fun err => is_non_ignorable err = true) errors.

(** Lines 120-126: [truncated_filename]. *)
Definition filename_step (st : PathLib.Path * list string)
  : PathLib.Path * list string :=
  let path := PathLib.parent (fst st) in
  if negb (String.eqb (PathLib.name path) EmptyString)
  then (path, PathLib.name path :: snd st)
  else (path, snd st).

Definition truncated_filename (file : string) : string :=
  let path := PathLib.of_string file in
  let filename_parts := [PathLib.name path] in
  PyStr.join "/" (snd (filename_step (filename_step (path, filename_parts)))).

(** Lines 93-132: the record built from the decoded output of the
    validator. *)
Definition diagnose (file stdout_str stderr_str : string) : DiagnosticResult :=
  let stdout_str := truncate_stdout stdout_str in
  let errors := collect_errors stdout_str stderr_str in
  let non_ignorable_errors := filter_non_ignorable errors in
  {| r_filename := truncated_filename file;
     r_pass := forallb (fun err => String.eqb err success_cr || String.eqb err EmptyString)
                       non_ignorable_errors;
     r_warnings := filter (fun err => (negb (PyStr.elem err non_ignorable_errors)
                                       && negb (String.eqb err EmptyString)) = true)
                          errors;
     r_errors := non_ignorable_errors |}.

(** ** The image comparator *)

Module Cv2.

(** The array [cv2.imread] returns: [shape] is (rows, columns, channels)
    and [data] holds the 8-bit values in row-major order, the channels
    of a pixel next to each other. *)
Record ndarray : Type := MkArray {
  rows : nat;
  cols : nat;
  chans : nat;
  data : list Z
}.

Definition shape (a : ndarray) : nat * nat * nat := (rows a, cols a, chans a).

Definition shape_eqb (s t : nat * nat * nat) : bool :=
  match s, t with
  | (r1, c1, k1), (r2, c2, k2) =>
      Nat.eqb r1 r2 && Nat.eqb c1 c2 && Nat.eqb k1 k2
  end.

(** An array has one value per position of its shape, each one a byte. *)
Definition wf (a : ndarray) : Prop :=
  length (data a) = (rows a * cols a * chans a)%nat
  /\ Forall (fun v => 0 <= v < 256) (data a).

Definition saturate_u8 (v : Z) : Z := Z.max 0 (Z.min 255 v).

(** [cv2.absdiff] on the values of two arrays. *)
Fixpoint absdiff (a b : list Z) : list Z :=
  match a, b with
  | x :: a', y :: b' => saturate_u8 (Z.abs (x - y)) :: absdiff a' b'
  | _, _ => []
  end.

(** [cv2.threshold(src, thresh, maxval, cv2.THRESH_BINARY)] *)
Definition threshold_binary (src : list Z) (thresh maxval : Z) : list Z :=
  map (fun v => if v >? thresh then saturate_u8 maxval else 0) src.

End Cv2.

Module Np.

(** [arr == k], element by element. *)
Definition eq_scalar (arr : list Z) (k : Z) : list bool :=
  map (fun v => v =? k) arr.

(** [np.count_nonzero] of a Boolean array. *)
Fixpoint count_nonzero (arr : list bool) : Z :=
  match arr with
  | [] => 0
  | b :: t => (if b then 1 else 0) + count_nonzero t
  end.

End Np.

(** The default of [similarity_threshold]. *)
Definition default_similarity_threshold : Q := 95 # 100.

(** Lines 53-59: [similar_pixels] and [total_pixels]. *)
Definition similar_pixels (img1 img2 : Cv2.ndarray) : Z :=
  let difference := Cv2.absdiff (Cv2.data img1) (Cv2.data img2) in
  let binary_difference := Cv2.threshold_binary difference 0 255 in
  Np.count_nonzero (Np.eq_scalar binary_difference 0).

Definition total_pixels (img1 : Cv2.ndarray) : Z :=
  Z.of_nat (Cv2.rows img1) * Z.of_nat (Cv2.cols img1) * Z.of_nat (Cv2.chans img1).

(** The quotient of line 59, as an exact fraction (used for a positive
    [total_pixels] only). *)
Definition similarity_ratio (img1 img2 : Cv2.ndarray) : Q :=
  similar_pixels img1 img2 # Z.to_pos (total_pixels img1).

(** Lines 48-62: the comparison of two decoded images. The threshold and
    the ratio are exact fractions. *)
Definition compare_arrays (img1 img2 : Cv2.ndarray) (similarity_threshold : Q)
  : result bool * list log_entry :=
  if negb (Cv2.shape_eqb (Cv2.shape img1) (Cv2.shape img2)) then (Return false, [])
  else if total_pixels img1 =? 0 then (Raise ZeroDivisionError, [])
  else
    let ratio := similarity_ratio img1 img2 in
    (Return (Qle_bool similarity_threshold ratio),
     if Qle_bool similarity_threshold ratio then []
     else [(LError, MsgRatio "Images are not similar enough: " ratio)]).

Definition msg_not_loaded : string := "One or both images could not be loaded.".

Section Comparator.

(** What [cv2.imread] answers for a path: the decoded array, or [None]. *)
Variable imread : string -> option Cv2.ndarray.

(** Lines 29-62. *)
Definition compare_images_with_similarity_threshold
    (img1_path img2_path : string) (similarity_threshold : Q)
  : result bool * list log_entry :=
  match imread img1_path, imread img2_path with
  | Some img1, Some img2 => compare_arrays img1 img2 similarity_threshold
  | _, _ => (Raise (ValueError msg_not_loaded), [])
  end.

End Comparator.

(** The ratio as the specification words it: the pixels all of whose
    channels agree, over the number of pixels. [pixel_chunks] cuts the
    values into pixels of [k] channels. *)
Fixpoint pixel_chunks (k npix : nat) (l : list Z) : list (list Z) :=
  match npix with
  | O => []
  | S n => take k l :: pixel_chunks k n (drop k l)
  end.

Definition pixel_eqb (p q : list Z) : bool :=
  bool_decide (p = q).

Fixpoint count_matching_pixels (ps qs : list (list Z)) : Z :=
  match ps, qs with
  | p :: ps', q :: qs' => (if pixel_eqb p q then 1 else 0) + count_matching_pixels ps' qs'
  | _, _ => 0
  end.

Definition spec_similarity_ratio (img1 img2 : Cv2.ndarray) : Q :=
  let npix := (Cv2.rows img1 * Cv2.cols img1)%nat in
  count_matching_pixels (pixel_chunks (Cv2.chans img1) npix (Cv2.data img1))
                        (pixel_chunks (Cv2.chans img1) npix (Cv2.data img2))
  # Pos.of_nat npix.

(** The number of positions at which two lists of values agree. *)
Fixpoint agreeing (a b : list Z) : Z :=
  match a, b with
  | x :: a', y :: b' => (if x =? y then 1 else 0) + agreeing a' b'
  | _, _ => 0
  end.

(** Two lists of the same length that differ at position [i] and nowhere
    else. *)
Definition differ_only_at (i : nat) (a b : list Z) : Prop :=
  length a = length b
  /\ (exists x y, a !! i = Some x /\ b !! i = Some y /\ x <> y)
  /\ forall j, j <> i -> a !! j = b !! j.

(** The scenario of two 100x100x3 images that differ in one channel of
    one pixel: a black image, and the same with the first value set to 1. *)
Definition img_black : Cv2.ndarray :=
  Cv2.MkArray 100 100 3 (0 :: replicate (100 * 100 * 3 - 1) 0).

Definition img_one_off : Cv2.ndarray :=
  Cv2.MkArray 100 100 3 (1 :: replicate (100 * 100 * 3 - 1) 0).

Definition scenario_imread (path : string) : option Cv2.ndarray :=
  if String.eqb path "baseline.jpg" then Some img_black
  else if String.eqb path "output.jpg" then Some img_one_off
  else None.

(** [sub] occurs in [s] at index [n] and at no smaller index. *)
Definition first_occurrence (sub s : string) (n : nat) : Prop :=
  PyStr.startswith (PyStr.drop n s) sub = true
  /\ forall k, (k < n)%nat -> PyStr.startswith (PyStr.drop k s) sub = false.

(** ** [os.path], POSIX flavour *)

Module OsPath.

Fixpoint take (n : nat) (s : string) : string :=
  match n, s with
  | O, _ => EmptyString
  | S k, String c r => String c (take k r)
  | S _, EmptyString => EmptyString
  end.

(** The last index of the character [c] in [s], the indices of [s] starting
    at [i]; [-1] when there is none. *)
Fixpoint rfind_at (s : string) (c : ascii) (i : Z) : Z :=
  match s with
  | EmptyString => -1
  | String a r =>
      let j := rfind_at r c (i + 1) in
      if j =? -1 then (if Ascii.eqb a c then i else -1) else j
  end.

(** [s.rfind(c)] for a single character. *)
Definition rfind (s : string) (c : ascii) : Z := rfind_at s c 0.

Fixpoint endswith_char (s : string) (c : ascii) : bool :=
  match s with
  | EmptyString => false
  | String a EmptyString => Ascii.eqb a c
  | String _ r => endswith_char r c
  end.

(** [s.rstrip(c)] for a single character. *)
Fixpoint rstrip_char (s : string) (c : ascii) : string :=
  match s with
  | EmptyString => EmptyString
  | String a r =>
      match rstrip_char r c with
      | EmptyString => if Ascii.eqb a c then EmptyString else String a EmptyString
      | r' => String a r'
      end
  end.

Fixpoint all_char (s : string) (c : ascii) : bool :=
  match s with
  | EmptyString => true
  | String a r => Ascii.eqb a c && all_char r c
  end.

(** One step of the loop of [os.path.join]. *)
Definition join2 (path b : string) : string :=
  if PyStr.startswith b "/" then b
  else if String.eqb path EmptyString || endswith_char path "/" then path +:+ b
  else path +:+ "/" +:+ b.

(** [os.path.join(a, *p)] *)
Definition join (a : string) (p : list string) : string := fold_left join2 p a.

(** [os.path.basename(p)] *)
Definition basename (p : string) : string :=
  PyStr.drop (Z.to_nat (rfind p "/" + 1)) p.

(** [os.path.dirname(p)] *)
Definition dirname (p : string) : string :=
  let head := take (Z.to_nat (rfind p "/" + 1)) p in
  if negb (String.eqb head EmptyString) && negb (all_char head "/")
  then rstrip_char head "/" else head.

(** [os.path.splitext(p)]: the extension starts at the last dot of the
    last component, unless only dots come before it in that component. *)
Definition splitext (p : string) : string * string :=
  let sepIndex := rfind p "/" in
  let dotIndex := rfind p "." in
  if dotIndex >? sepIndex then
    let leading := take (Z.to_nat (dotIndex - (sepIndex + 1)))
                        (PyStr.drop (Z.to_nat (sepIndex + 1)) p) in
    if all_char leading "." then (p, EmptyString)
    else (take (Z.to_nat dotIndex) p, PyStr.drop (Z.to_nat dotIndex) p)
  else (p, EmptyString).

End OsPath.

(** ** The conversion pipeline: [process_file] *)

Definition RENDER_OUTPUT_FORMAT : string := ".jpg".
Definition BASELINE_FOLDERNAME : string := "baseline".
Definition OUTPUT_FOLDERNAME : string := "output".
Definition CONVERTED_SUFFIX : string := "_roundtrip".

(** What a run does to the world outside, in order. *)
Inductive event : Type :=
  | EvMakedirs (path : string)
  | EvSystem (command_file command_output : string)
  | EvStageOpen (path : string)
  | EvStageExport (path : string)
  | EvImread (path : string)
  | EvLog (entry : log_entry).

Section Pipeline.

(** The state of the file system and the tools that act on it. *)
Variable World : Type.
(** [os.makedirs(path, exist_ok=True)] *)
Variable makedirs : string -> World -> World.
(** [os.system] on the [usdrecord] command line for a file and an output. *)
Variable usdrecord : string -> string -> World -> World.
(** [Usd.Stage.Open]: whether a stage is returned. *)
Variable stage_open : string -> World -> bool.
(** [stage.GetRootLayer().Export] of the stage opened from the first path. *)
Variable stage_export : string -> string -> World -> World.
(** [cv2.imread] *)
Variable imread : World -> string -> option Cv2.ndarray.
(** [os.path.relpath], which depends on the working directory. *)
Variable relpath : string -> string -> string.
(** [platform.system()] and the directory of the test module. *)
Variable platform_system : string.
Variable DIRECTORY : string.

Definition ASSET_PATH : string := OsPath.join DIRECTORY ["assets"].

(** Lines 65-74. *)
Definition render (file outputfile : string) (w : World) : World * list event :=
  (usdrecord file outputfile w,
   [EvLog (LInfo, Msg ("Rendering: " +:+ file +:+ " To: " +:+ outputfile));
    EvSystem file outputfile]).

(** Lines 146-159, for an [Usd.Stage.Open] that returns: [stage_open]
    tells whether it returns a stage. *)
Definition convert (input_path converted_path : string) (w : World)
  : bool * World * list event :=
  if stage_open input_path w
  then (true, stage_export input_path converted_path w,
        [EvStageOpen input_path; EvStageExport converted_path])
  else (false, w, [EvStageOpen input_path]).

(** The comparator reading its two images from the world. *)
Definition compare_in (w : World) (img1_path img2_path : string)
  : result bool * list event :=
  let '(res, logs) :=
    compare_images_with_similarity_threshold (imread w) img1_path img2_path
      default_similarity_threshold in
  (res, [EvImread img1_path; EvImread img2_path] ++ map EvLog logs).

(** Lines 162-208. *)
Definition process_file (plugin_name test_file : string) (generate_baseline : bool)
    (test_type : string) (w : World) : result string * World * list event :=
  let input_folder := OsPath.join ASSET_PATH [plugin_name] in
  let baseline_folder :=
    OsPath.join DIRECTORY [BASELINE_FOLDERNAME; platform_system; plugin_name] in
  let output_folder :=
    if generate_baseline
    then OsPath.join DIRECTORY [OUTPUT_FOLDERNAME; BASELINE_FOLDERNAME; platform_system; plugin_name]
    else OsPath.join DIRECTORY [OUTPUT_FOLDERNAME; platform_system; plugin_name] in
  let relative_root := relpath (OsPath.dirname test_file) input_folder in
  let output_path_folder := OsPath.join output_folder [relative_root] in
  let w := makedirs output_path_folder w in
  let ev0 := [EvMakedirs output_path_folder] in
  let output_path :=
    OsPath.join output_path_folder
      [fst (OsPath.splitext (OsPath.basename test_file)) +:+ RENDER_OUTPUT_FORMAT] in
  let converted := (Return ("Converted: " +:+ test_file)) in
  if String.eqb test_type "basic" then
    let '(w, ev1) := render test_file output_path w in
    if negb generate_baseline then
      let baseline_path :=
        OsPath.join baseline_folder
          [relative_root;
           fst (OsPath.splitext (OsPath.basename test_file)) +:+ RENDER_OUTPUT_FORMAT] in
      match compare_in w baseline_path output_path with
      | (Raise e, ev2) => (Raise e, w, ev0 ++ ev1 ++ ev2)
      | (Return false, ev2) =>
          (Return ("Error with basic converted file: " +:+ test_file), w, ev0 ++ ev1 ++ ev2)
      | (Return true, ev2) => (converted, w, ev0 ++ ev1 ++ ev2)
      end
    else (converted, w, ev0 ++ ev1)
  else if String.eqb test_type "roundtrip" then
    if String.eqb plugin_name "sbsar"
    then (Return "Skipped: SBSAR rountrip is not supported.", w, ev0)
    else
      let '(file_name, file_extension) := OsPath.splitext (OsPath.basename test_file) in
      let converted_path :=
        OsPath.join output_path_folder [file_name +:+ CONVERTED_SUFFIX +:+ file_extension] in
      let converted_output_path :=
        OsPath.join output_path_folder [file_name +:+ CONVERTED_SUFFIX +:+ RENDER_OUTPUT_FORMAT] in
      let '(_, w, ev1) := convert test_file converted_path w in
      let '(w, ev2) := render converted_path converted_output_path w in
      if negb generate_baseline then
        let converted_baseline_output_path :=
          OsPath.join output_path_folder
            [file_name +:+ CONVERTED_SUFFIX +:+ RENDER_OUTPUT_FORMAT] in
        match compare_in w converted_baseline_output_path converted_output_path with
        | (Raise e, ev3) => (Raise e, w, ev0 ++ ev1 ++ ev2 ++ ev3)
        | (Return false, ev3) =>
            (Return ("Error with roundtrip converted file: " +:+ test_file), w,
             ev0 ++ ev1 ++ ev2 ++ ev3)
        | (Return true, ev3) => (converted, w, ev0 ++ ev1 ++ ev2 ++ ev3)
        end
      else (converted, w, ev0 ++ ev1 ++ ev2)
  else (converted, w, ev0).

(** The path of the rendering of the round trip of [test_file]. *)
Definition roundtrip_output_path (plugin_name test_file : string) : string :=
  let output_folder :=
    OsPath.join DIRECTORY [OUTPUT_FOLDERNAME; platform_system; plugin_name] in
  let relative_root :=
    relpath (OsPath.dirname test_file) (OsPath.join ASSET_PATH [plugin_name]) in
  OsPath.join (OsPath.join output_folder [relative_root])
    [fst (OsPath.splitext (OsPath.basename test_file))
     +:+ CONVERTED_SUFFIX +:+ RENDER_OUTPUT_FORMAT].

End Pipeline.

(** The image reads of a trace, in order. *)
Definition imreads (trace : list event) : list string :=
  omap (fun ev => match ev with EvImread p => Some p | _ => None end) trace.

(** The outputs of the render commands of a trace, in order. *)
Definition render_outputs (trace : list event) : list string :=
  omap (fun ev => match ev with EvSystem _ out => Some out | _ => None end) trace.

(** A world for examples: the images on disk; every stage opens, and
    [usdrecord] writes an image of one black pixel. *)
Definition img_pixel : Cv2.ndarray := Cv2.MkArray 1 1 3 [0; 0; 0].

Definition disk_usdrecord (file outputfile : string)
    (w : gmap string Cv2.ndarray) : gmap string Cv2.ndarray :=
  <[outputfile := img_pixel]> w.

Definition disk_imread (w : gmap string Cv2.ndarray) (path : string)
  : option Cv2.ndarray := w !! path.

Definition disk_process_file :=
  process_file (gmap string Cv2.ndarray) (fun _ w => w) disk_usdrecord
    (fun _ _ => true) (fun _ _ w => w) disk_imread (fun _ _ => ".")
    "Linux" "/repo/test".

(** ** The [json] module

    The values are those [json.load] builds, with two restrictions: the
    numbers are the integers (the decoder of the model rejects a literal
    with a fraction or an exponent, [NaN] and [Infinity], which Python
    reads as floats), and the texts are over the code points 0..255 (it
    rejects an escape [\uXXXX] above 255). A [dict] is the list of its
    items in insertion order. *)

Module Json.

#[local] Unset Elimination Schemes.

Inductive value : Type :=
  | JNull
  | JBool (b : bool)
  | JInt (n : Z)
  | JStr (s : string)
  | JArr (items : list value)
  | JObj (members : list (string * value)).

#[local] Set Elimination Schemes.

Definition quote : ascii := "034"%char.
Definition backslash : ascii := "092"%char.

(** *** Encoding: [json.dump(obj, f, indent=4)] *)

Definition hex_digit (n : nat) : ascii :=
  match n with
  | 0 => "0" | 1 => "1" | 2 => "2" | 3 => "3" | 4 => "4" | 5 => "5" | 6 => "6"
  | 7 => "7" | 8 => "8" | 9 => "9" | 10 => "a" | 11 => "b" | 12 => "c"
  | 13 => "d" | 14 => "e" | _ => "f"
  end%nat%char.

(** The replacement [encode_basestring_ascii] makes for one character. *)
Definition escape_char (c : ascii) : string :=
  let n := nat_of_ascii c in
  if Ascii.eqb c quote then String backslash (String quote EmptyString)
  else if Ascii.eqb c backslash then String backslash (String backslash EmptyString)
  else if Ascii.eqb c "010" then String backslash "n"
  else if Ascii.eqb c "013" then String backslash "r"
  else if Ascii.eqb c "009" then String backslash "t"
  else if Ascii.eqb c "008" then String backslash "b"
  else if Ascii.eqb c "012" then String backslash "f"
  else if ((n <? 32) || (126 <? n))%nat
  then String backslash
         (String "u" (String "0" (String "0"
            (String (hex_digit (n / 16)) (String (hex_digit (n mod 16)) EmptyString)))))
  else String c EmptyString.

Fixpoint escape (s : string) : string :=
  match s with
  | EmptyString => EmptyString
  | String c r => escape_char c +:+ escape r
  end.

Definition encode_string (s : string) : string :=
  String quote (escape s +:+ String quote EmptyString).

(** [int.__repr__] *)
Definition encode_int (n : Z) : string :=
  DecimalString.NilZero.string_of_int (Z.to_int n).

Fixpoint spaces (n : nat) : string :=
  match n with
  | O => EmptyString
  | S k => String " " (spaces k)
  end.

(** The line feed and the indentation in front of an item of depth
    [level]. *)
Definition newline_indent (level : nat) : string :=
  String PyStr.LF (spaces (4 * level)).

Definition item_separator (level : nat) : string :=
  String "," (newline_indent level).

Fixpoint dump (level : nat) (v : value) {struct v} : string :=
  match v with
  | JNull => "null"
  | JBool true => "true"
  | JBool false => "false"
  | JInt n => encode_int n
  | JStr s => encode_string s
  | JArr [] => "[]"
  | JArr items =>
      "[" +:+ newline_indent (S level)
      +:+ PyStr.join (item_separator (S level)) (List.map (dump (S level)) items)
      +:+ newline_indent level +:+ "]"
  | JObj [] => "{}"
  | JObj members =>
      "{" +:+ newline_indent (S level)
      +:+ PyStr.join (item_separator (S level))
            (List.map (fun kv => let '(k, x) := kv in
                                 encode_string k +:+ ": " +:+ dump (S level) x)
                      members)
      +:+ newline_indent level +:+ "}"
  end.

(** [json.dumps(obj, indent=4)] *)
Definition dumps (v : value) : string := dump 0 v.

(** *** Decoding: [json.loads] *)

Definition is_ws (c : ascii) : bool :=
  Ascii.eqb c " " || Ascii.eqb c "009" || Ascii.eqb c "010" || Ascii.eqb c "013".

Fixpoint skip_ws (s : string) : string :=
  match s with
  | String c r => if is_ws c then skip_ws r else s
  | EmptyString => EmptyString
  end.

Definition is_digit (c : ascii) : bool :=
  let n := nat_of_ascii c in ((48 <=? n) && (n <=? 57))%nat.

Definition hex_value (c : ascii) : option nat :=
  let n := nat_of_ascii c in
  if ((48 <=? n) && (n <=? 57))%nat then Some (n - 48)%nat
  else if ((97 <=? n) && (n <=? 102))%nat then Some (n - 87)%nat
  else if ((65 <=? n) && (n <=? 70))%nat then Some (n - 55)%nat
  else None.

(** The code point of the four hexadecimal digits of a [\u] escape. *)
Definition hex4 (a b c d : ascii) : option nat :=
  match hex_value a, hex_value b, hex_value c, hex_value d with
  | Some x, Some y, Some z, Some w => Some (((x * 16 + y) * 16 + z) * 16 + w)%nat
  | _, _, _, _ => None
  end.

(** The character an escape letter stands for. *)
Definition unescape (e : ascii) : option ascii :=
  if Ascii.eqb e quote then Some quote
  else if Ascii.eqb e backslash then Some backslash
  else if Ascii.eqb e "/" then Some "/"%char
  else if Ascii.eqb e "b" then Some "008"%char
  else if Ascii.eqb e "f" then Some "012"%char
  else if Ascii.eqb e "n" then Some "010"%char
  else if Ascii.eqb e "r" then Some "013"%char
  else if Ascii.eqb e "t" then Some "009"%char
  else None.

(** [scanstring], from the character after the opening quote: the decoded
    text and what follows the closing quote. *)
Fixpoint scanstring (s : string) : option (string * string) :=
  match s with
  | EmptyString => None
  | String c r =>
      if Ascii.eqb c quote then Some (EmptyString, r)
      else if Ascii.eqb c backslash then
        match r with
        | EmptyString => None
        | String e r1 =>
            if Ascii.eqb e "u" then
              match r1 with
              | String h1 (String h2 (String h3 (String h4 r2))) =>
                  match hex4 h1 h2 h3 h4 with
                  | Some n =>
                      if (n <? 256)%nat then
                        match scanstring r2 with
                        | Some (t, rest) => Some (String (ascii_of_nat n) t, rest)
                        | None => None
                        end
                      else None
                  | None => None
                  end
              | _ => None
              end
            else
              match unescape e with
              | Some ch =>
                  match scanstring r1 with
                  | Some (t, rest) => Some (String ch t, rest)
                  | None => None
                  end
              | None => None
              end
        end
      else if (nat_of_ascii c <? 32)%nat then None
      else
        match scanstring r with
        | Some (t, rest) => Some (String c t, rest)
        | None => None
        end
  end.

(** The longest prefix of digits and what follows it. *)
Fixpoint span_digits (s : string) : string * string :=
  match s with
  | String c r =>
      if is_digit c then let '(ds, rest) := span_digits r in (String c ds, rest)
      else (EmptyString, s)
  | EmptyString => (EmptyString, EmptyString)
  end.

(** Whether a fraction or an exponent follows the integer part. *)
Definition starts_fraction (s : string) : bool :=
  match s with
  | String c (String d _) => Ascii.eqb c "." && is_digit d
  | _ => false
  end.

Definition starts_exponent (s : string) : bool :=
  match s with
  | String c (String d r) =>
      (Ascii.eqb c "e" || Ascii.eqb c "E")
      && (is_digit d
          || ((Ascii.eqb d "+" || Ascii.eqb d "-")
              && match r with String d' _ => is_digit d' | EmptyString => false end))
  | _ => false
  end.

(** The integer part at the head of [s]: a single 0, or digits that
    start with a digit other than 0. *)
Definition scan_natural (s : string) : option (Z * string) :=
  match s with
  | String c r =>
      if Ascii.eqb c "0" then Some (0, r)
      else if is_digit c then
        let '(ds, rest) := span_digits s in
        match DecimalString.NilEmpty.uint_of_string ds with
        | Some d => Some (Z.of_uint d, rest)
        | None => None
        end
      else None
  | EmptyString => None
  end.

(** A number literal at the head of [s]. *)
Definition scan_number (s : string) : option (value * string) :=
  let '(negative, body) :=
    match s with
    | String c r => if Ascii.eqb c "-" then (true, r) else (false, s)
    | EmptyString => (false, s)
    end in
  match scan_natural body with
  | Some (n, rest) =>
      if starts_fraction rest || starts_exponent rest then None
      else Some (JInt (if negative then - n else n), rest)
  | None => None
  end.

(** [d[k] = v] on the items of a [dict]. *)
Fixpoint dict_set (k : string) (v : value) (d : list (string * value))
  : list (string * value) :=
  match d with
  | [] => [(k, v)]
  | (k', v') :: d' =>
      if String.eqb k' k then (k', v) :: d' else (k', v') :: dict_set k v d'
  end.

(** [dict(pairs)] *)
Definition dict_of_pairs (pairs : list (string * value)) : list (string * value) :=
  fold_left (fun d kv => dict_set (fst kv) (snd kv) d) pairs [].

(** [d.get(k)] *)
Fixpoint dict_get (d : list (string * value)) (k : string) : option value :=
  match d with
  | [] => None
  | (k', v) :: d' => if String.eqb k' k then Some v else dict_get d' k
  end.

(** [scan_once]: the value at the head of [s] and what follows it.
    [scan_elements] reads the items of an array up to its bracket, and
    [scan_members], entered after the quote that opens a key, the items of
    an object up to its brace. [fuel] bounds the nesting of the calls. *)
Fixpoint scan_once (fuel : nat) (s : string) {struct fuel} : option (value * string) :=
  match fuel with
  | O => None
  | S f =>
      match s with
      | EmptyString => None
      | String c r =>
          if Ascii.eqb c quote then
            match scanstring r with
            | Some (t, rest) => Some (JStr t, rest)
            | None => None
            end
          else if Ascii.eqb c "{" then
            match skip_ws r with
            | String c1 r1 =>
                if Ascii.eqb c1 "}" then Some (JObj [], r1)
                else if Ascii.eqb c1 quote then
                  match scan_members f r1 with
                  | Some (pairs, rest) => Some (JObj (dict_of_pairs pairs), rest)
                  | None => None
                  end
                else None
            | EmptyString => None
            end
          else if Ascii.eqb c "[" then
            match skip_ws r with
            | String c1 r1 =>
                if Ascii.eqb c1 "]" then Some (JArr [], r1)
                else
                  match scan_elements f (String c1 r1) with
                  | Some (items, rest) => Some (JArr items, rest)
                  | None => None
                  end
            | EmptyString => None
            end
          else if PyStr.startswith s "null" then Some (JNull, PyStr.drop 4 s)
          else if PyStr.startswith s "true" then Some (JBool true, PyStr.drop 4 s)
          else if PyStr.startswith s "false" then Some (JBool false, PyStr.drop 5 s)
          else scan_number s
      end
  end
with scan_elements (fuel : nat) (s : string) {struct fuel}
  : option (list value * string) :=
  match fuel with
  | O => None
  | S f =>
      match scan_once f s with
      | Some (v, r) =>
          match skip_ws r with
          | String c r1 =>
              if Ascii.eqb c "]" then Some ([v], r1)
              else if Ascii.eqb c "," then
                match scan_elements f (skip_ws r1) with
                | Some (items, rest) => Some (v :: items, rest)
                | None => None
                end
              else None
          | EmptyString => None
          end
      | None => None
      end
  end
with scan_members (fuel : nat) (s : string) {struct fuel}
  : option (list (string * value) * string) :=
  match fuel with
  | O => None
  | S f =>
      match scanstring s with
      | Some (key, r) =>
          match skip_ws r with
          | String c r1 =>
              if Ascii.eqb c ":" then
                match scan_once f (skip_ws r1) with
                | Some (v, r2) =>
                    match skip_ws r2 with
                    | String c2 r3 =>
                        if Ascii.eqb c2 "}" then Some ([(key, v)], r3)
                        else if Ascii.eqb c2 "," then
                          match skip_ws r3 with
                          | String c3 r4 =>
                              if Ascii.eqb c3 quote then
                                match scan_members f r4 with
                                | Some (pairs, rest) => Some ((key, v) :: pairs, rest)
                                | None => None
                                end
                              else None
                          | EmptyString => None
                          end
                        else None
                    | EmptyString => None
                    end
                | None => None
                end
              else None
          | EmptyString => None
          end
      | None => None
      end
  end.

(** Enough fuel for a text: a call either starts a value or an item, and
    both begin at a character of their own ([loads_fuel_enough]). *)
Definition fuel_for (s : string) : nat := (2 * String.length s + 2)%nat.

(** [json.loads(s)] on the texts whose numbers are integers; [None]
    stands for [JSONDecodeError]. *)
Definition loads (s : string) : option value :=
  match scan_once (fuel_for s) (skip_ws s) with
  | Some (v, rest) =>
      match skip_ws rest with
      | EmptyString => Some v
      | String _ _ => None
      end
  | None => None
  end.

(** The values [json.load] can build: the keys of a [dict] are distinct. *)
Fixpoint distinct (keys : list string) : bool :=
  match keys with
  | [] => true
  | k :: t => negb (PyStr.elem k t) && distinct t
  end.

Fixpoint wf (v : value) : bool :=
  match v with
  | JArr items => forallb wf items
  | JObj members =>
      distinct (List.map fst members)
      && forallb (fun kv => let '(_, x) := kv in wf x) members
  | _ => true
  end.

(** What can follow a number literal without changing how it reads. *)
Definition value_end (rest : string) : bool :=
  match rest with
  | EmptyString => true
  | String c _ =>
      negb (is_digit c || Ascii.eqb c "." || Ascii.eqb c "e" || Ascii.eqb c "E")
  end.

(** An encoded value starts with a character of its own: no white space,
    no closing bracket. *)
Definition opens_value (c : ascii) : Prop :=
  is_ws c = false /\ Ascii.eqb c "]" = false /\ Ascii.eqb c "}" = false.

(** A value is read back from its encoding, in front of any text that
    ends it, at any depth, with a fuel of the length of the encoding. *)
Definition reads_back (v : value) : Prop :=
  forall fuel level rest,
    (String.length (dump level v) <= fuel)%nat -> value_end rest = true ->
    scan_once fuel (dump level v +:+ rest) = Some (v, rest).

(** [len(x)]; [None] stands for [TypeError]. *)
Definition py_len (v : value) : option Z :=
  match v with
  | JArr items => Some (Z.of_nat (length items))
  | JObj members => Some (Z.of_nat (length members))
  | JStr s => Some (PyStr.len s)
  | _ => None
  end.

End Json.

(** ** The results document: the end of [run_usdchecker] *)

(** The [dict] of lines 127-132. *)
Definition result_to_json (r : DiagnosticResult) : Json.value :=
  Json.JObj [ ("filename", Json.JStr (r_filename r));
              ("pass", Json.JBool (r_pass r));
              ("warnings", Json.JArr (map Json.JStr (r_warnings r)));
              ("errors", Json.JArr (map Json.JStr (r_errors r))) ].

(** Lines 135-139: the existing results; a missing file and a text that
    does not decode both start a fresh list. *)
Definition existing_results (results_file : string) (fs : gmap string string)
  : Json.value :=
  match fs !! results_file with
  | Some text =>
      match Json.loads text with
      | Some v => v
      | None => Json.JArr []
      end
  | None => Json.JArr []
  end.

(** Lines 77-143, on the decoded output of the validator. The file system
    maps a path to the text Python reads from it, and the folder of
    [results_file] is taken to exist, so that the document can be written.
    Only a list has [append]. *)
Definition run_usdchecker (stdout_str stderr_str file results_file : string)
    (fs : gmap string string) : result DiagnosticResult * gmap string string :=
  let r := diagnose file stdout_str stderr_str in
  match existing_results results_file fs with
  | Json.JArr records =>
      (Return r,
       <[results_file := Json.dumps (Json.JArr (records ++ [result_to_json r]))]> fs)
  | _ => (Raise AttributeError, fs)
  end.

(** ** The baseline comparison: [test_usd_checker] *)

(** The lines of a text file as iterating over it yields them, each with
    its line feed. *)
Fixpoint read_lines (text : string) : list string :=
  match text with
  | EmptyString => []
  | String c r =>
      if Ascii.eqb c PyStr.LF then String c EmptyString :: read_lines r
      else match read_lines r with
           | [] => [String c EmptyString]
           | h :: t => String c h :: t
           end
  end.

(** [[json.loads(line.strip()) for line in f]]; [None] stands for
    [JSONDecodeError]. *)
Fixpoint loads_lines (lines : list string) : option (list Json.value) :=
  match lines with
  | [] => Some []
  | line :: rest =>
      match Json.loads (PyStr.strip line) with
      | Some v =>
          match loads_lines rest with
          | Some vs => Some (v :: vs)
          | None => None
          end
      | None => None
      end
  end.

Definition load_baseline (text : string) : option (list Json.value) :=
  loads_lines (read_lines text).

(** [res['filename']] *)
Definition subscript_filename (res : Json.value) : result Json.value :=
  match res with
  | Json.JObj members =>
      match Json.dict_get members "filename" with
      | Some v => Return v
      | None => Raise (KeyError "filename")
      end
  | _ => Raise TypeError
  end.

(** Line 344: the first entry whose ['filename'] equals [key]. *)
Fixpoint find_baseline (baseline_results : list Json.value) (key : string)
  : result (option Json.value) :=
  match baseline_results with
  | [] => Return None
  | res :: rest =>
      match subscript_filename res with
      | Raise e => Raise e
      | Return (Json.JStr s) =>
          if String.eqb s key then Return (Some res) else find_baseline rest key
      | Return _ => find_baseline rest key
      end
  end.

(** [len(d.get(k, []))] *)
Definition count_of (res : Json.value) (k : string) : result Z :=
  match res with
  | Json.JObj members =>
      match Json.dict_get members k with
      | Some v =>
          match Json.py_len v with
          | Some n => Return n
          | None => Raise TypeError
          end
      | None => Return 0
      end
  | _ => Raise AttributeError
  end.

Definition decimal (n : Z) : string := Json.encode_int n.

Definition msg_errors_increased : string := "USD Checker errors have increased".

(** Lines 349-358: the comparison of the counts. *)
Definition regression_gate (results : DiagnosticResult) (baseline_result : Json.value)
  : result unit * list log_entry :=
  let current_warnings_count := Z.of_nat (length (r_warnings results)) in
  match count_of baseline_result "warnings" with
  | Raise e => (Raise e, [])
  | Return baseline_warnings_count =>
      let log1 :=
        if negb (current_warnings_count =? baseline_warnings_count)
        then [(LInfo, Msg ("Warning count changed: " +:+ decimal baseline_warnings_count
                           +:+ " -> " +:+ decimal current_warnings_count))]
        else [] in
      let current_error_count := Z.of_nat (length (r_errors results)) in
      match count_of baseline_result "errors" with
      | Raise e => (Raise e, log1)
      | Return baseline_error_count =>
          let log2 :=
            if current_error_count >? 0
            then [(LError, Msg ("Errors still exist: " +:+ decimal current_error_count))]
            else [] in
          if current_error_count <=? baseline_error_count
          then (Return tt, log1 ++ log2)
          else (Raise (AssertionError msg_errors_increased), log1 ++ log2)
      end
  end.

(** Lines 344-358. *)
Definition compare_to_baseline (results : DiagnosticResult)
    (baseline_results : list Json.value) (input_path : string)
  : result unit * list log_entry :=
  match find_baseline baseline_results input_path with
  | Raise e => (Raise e, [])
  | Return None =>
      (Return tt, [(LWarning, Msg ("No baseline found for " +:+ input_path +:+ "."))])
  | Return (Some baseline_result) => regression_gate results baseline_result
  end.

Definition results_file_name : string := "usd_checker_results.json".

Section Checker.

(** [Usd.Stage.Open] on the path to convert, and the decoded standard
    output and standard error of [usdchecker] on a file. *)
Variable stage_open : string -> bool.
Variable usdchecker : string -> string * string.
Variable platform_system : string.
Variable DIRECTORY : string.

(** Lines 310-358. *)
Definition test_usd_checker (plugin_name filename : string) (fs : gmap string string)
  : result unit * gmap string string * list log_entry :=
  if String.eqb plugin_name "sbsar"
  then (Return tt, fs, [(LWarning, Msg "Skipping USD Checker test for SBSAR files.")])
  else
    let input_folder := OsPath.join (ASSET_PATH DIRECTORY) [plugin_name] in
    let input_path := OsPath.join input_folder [filename] in
    let output_folder :=
      OsPath.join DIRECTORY [OUTPUT_FOLDERNAME; platform_system; plugin_name] in
    let results_file :=
      OsPath.join DIRECTORY
        [OUTPUT_FOLDERNAME; platform_system; plugin_name; results_file_name] in
    let baseline_file :=
      OsPath.join DIRECTORY
        [BASELINE_FOLDERNAME; platform_system; plugin_name; results_file_name] in
    let converted_path :=
      OsPath.join output_folder [fst (OsPath.splitext filename) +:+ "_usdchecked.usd"] in
    if stage_open input_path then
      let '(stdout_str, stderr_str) := usdchecker converted_path in
      match run_usdchecker stdout_str stderr_str converted_path results_file fs with
      | (Raise e, fs) => (Raise e, fs, [])
      | (Return results, fs) =>
          match fs !! baseline_file with
          | None => (Raise (FileNotFoundError baseline_file), fs, [])
          | Some text =>
              match load_baseline text with
              | None => (Return tt, fs, [(LError, Msg "Invalid JSON in baseline file.")])
              | Some baseline_results =>
                  let '(res, logs) :=
                    compare_to_baseline results baseline_results input_path in
                  (res, fs, logs)
              end
          end
      end
    else (Return tt, fs, []).

End Checker.

(** ** A run of [test_usd_checker] on one asset

    The asset [/repo/test/assets/fbx/cube.fbx] on Linux; the stage opens,
    the validator reports one error after its timing line, and the
    baseline document holds one record per line: a record without errors
    whose ['filename'] is the one [run_usdchecker] gives the converted
    file. *)

Definition cube_path : string := "/repo/test/assets/fbx/cube.fbx".
Definition cube_converted_path : string := "/repo/test/assets/fbx/cube_usdchecked.usd".
Definition cube_baseline_file : string :=
  "/repo/test/baseline/Linux/fbx/usd_checker_results.json".

Definition cube_usdchecker (file : string) : string * string :=
  ("Total time: 1s" +:+ PyStr.nl +:+ "Error: invalid prim" +:+ PyStr.nl, EmptyString).

Definition cube_baseline_entry : Json.value :=
  Json.JObj [ ("filename", Json.JStr "assets/fbx/cube_usdchecked.usd");
              ("pass", Json.JBool true);
              ("warnings", Json.JArr []);
              ("errors", Json.JArr []) ].

Definition cube_baseline_text : string :=
  "{" +:+ Json.encode_string "filename" +:+ ": "
  +:+ Json.encode_string "assets/fbx/cube_usdchecked.usd" +:+ ", "
  +:+ Json.encode_string "pass" +:+ ": true, "
  +:+ Json.encode_string "warnings" +:+ ": [], "
  +:+ Json.encode_string "errors" +:+ ": []}" +:+ PyStr.nl.

Definition cube_fs : gmap string string :=
  {[ cube_baseline_file := cube_baseline_text ]}.

Definition cube_run : result unit * gmap string string * list log_entry :=
  test_usd_checker (fun _ => true) cube_usdchecker "Linux" "/repo/test"
    "fbx" cube_path cube_fs.

(** ** Loops over the assets: generation, collection, clean-up *)

(** [s.endswith(suffix)] *)
Definition endswith (s suffix : string) : bool :=
  (String.length suffix <=? String.length s)%nat
  && String.eqb (PyStr.drop (String.length s - String.length suffix) s) suffix.

(** [any(file.endswith(ext) for ext in extensions)] *)
Definition has_extension (file : string) (extensions : list string) : bool :=
  existsb (endswith file) extensions.

(** The table [file_formats] of lines 217-224 and 262-269, in the order
    of the [dict]. *)
Definition file_formats : list (string * list string) :=
  [ ("fbx", [".fbx"]); ("gltf", [".gltf"; ".glb"]); ("obj", [".obj"]);
    ("ply", [".ply"]); ("sbsar", [".usd"]); ("stl", [".stl"]) ].

(** A [for] loop whose body can raise: the loop stops at the first
    exception. *)
Fixpoint for_each {A S : Type} (body : A -> S -> result unit * S * list event)
    (items : list A) (s : S) : result unit * S * list event :=
  match items with
  | [] => (Return tt, s, [])
  | x :: rest =>
      match body x s with
      | (Raise e, s1, ev) => (Raise e, s1, ev)
      | (Return _, s1, ev) =>
          let '(r, s2, ev') := for_each body rest s1 in (r, s2, ev ++ ev')
      end
  end.

(** The two nested loops over what [os.walk] yields (the root and the
    files of each directory) that lines 234-236, 251-253 and 281-283
    share. *)
Definition for_each_file {S : Type}
    (body : string -> string -> S -> result unit * S * list event)
    (walked : list (string * list string)) (s : S) : result unit * S * list event :=
  for_each (fun entry => for_each (body (fst entry)) (snd entry)) walked s.

(** The paths of the files that the loops of lines 234-237 and 281-285
    select, in the order of the walk. *)
Definition selected_paths (walked : list (string * list string))
    (extensions : list string) : list string :=
  flat_map (fun entry =>
              map (fun file => OsPath.join (fst entry) [file])
                  (filter (fun file => has_extension file extensions = true) (snd entry)))
           walked.

(** Lines 227-228: an override that is [None] or empty leaves the
    extensions of the table. *)
Definition overridden (override_file_filter : option (list string))
    (extensions : list string) : list string :=
  match override_file_filter with
  | Some (ext :: exts) => ext :: exts
  | _ => extensions
  end.

(** The text files once [results_file] is removed, and then written with
    the list [records] when there is a record. *)
Definition with_document (results_file : string) (records : list Json.value)
    (fs : gmap string string) : gmap string string :=
  match records with
  | [] => delete results_file fs
  | _ => <[results_file := Json.dumps (Json.JArr records)]> fs
  end.

Section Rendering.

Variable World : Type.
Variable makedirs : string -> World -> World.
Variable usdrecord : string -> string -> World -> World.
Variable stage_open : string -> World -> bool.
Variable stage_export : string -> string -> World -> World.
Variable imread : World -> string -> option Cv2.ndarray.
Variable relpath : string -> string -> string.
Variable platform_system : string.
Variable DIRECTORY : string.

(** The message of the assertion of line 307. *)
Definition mismatch_message (test_type filename ret : string) : string :=
  "File mismatch in " +:+ test_type +:+ " test for " +:+ filename +:+ ": " +:+ ret.

(** One round of the loop of lines 305-307. *)
Definition check_rendering (test_type plugin_name filename : string) (w : World)
  : result unit * World * list event :=
  match process_file World makedirs usdrecord stage_open stage_export imread relpath
          platform_system DIRECTORY plugin_name filename false test_type w with
  | (Raise e, w1, ev) => (Raise e, w1, ev)
  | (Return ret, w1, ev) =>
      if negb (String.eqb ret EmptyString) && PyStr.startswith ret "Error"
      then (Raise (AssertionError (mismatch_message test_type filename ret)), w1, ev)
      else (Return tt, w1, ev)
  end.

(** Lines 293-307. *)
Definition test_asset_rendering (plugin_name filename : string) (w : World)
  : result unit * World * list event :=
  for_each (fun test_type => check_rendering test_type plugin_name filename)
           ["basic"; "roundtrip"] w.

(** The two paths the basic comparison reads. *)
Definition basic_output_path (plugin_name test_file : string) : string :=
  let output_folder :=
    OsPath.join DIRECTORY [OUTPUT_FOLDERNAME; platform_system; plugin_name] in
  let relative_root :=
    relpath (OsPath.dirname test_file) (OsPath.join (ASSET_PATH DIRECTORY) [plugin_name]) in
  OsPath.join (OsPath.join output_folder [relative_root])
    [fst (OsPath.splitext (OsPath.basename test_file)) +:+ RENDER_OUTPUT_FORMAT].

Definition basic_baseline_path (plugin_name test_file : string) : string :=
  let baseline_folder :=
    OsPath.join DIRECTORY [BASELINE_FOLDERNAME; platform_system; plugin_name] in
  let relative_root :=
    relpath (OsPath.dirname test_file) (OsPath.join (ASSET_PATH DIRECTORY) [plugin_name]) in
  OsPath.join baseline_folder
    [relative_root;
     fst (OsPath.splitext (OsPath.basename test_file)) +:+ RENDER_OUTPUT_FORMAT].

(** The decoded output of [usdchecker] on a file, and what [os.walk]
    yields for a folder: the root and the files of each directory. *)
Variable usdchecker : string -> string * string.
Variable walk : string -> list (string * list string).

(** Lines 237-241: one asset of the generation; the state is the world of
    the renderings and the text files. *)
Definition generate_asset (plugin_name results_file full_file_path : string)
    (st : World * gmap string string)
  : result unit * (World * gmap string string) * list event :=
  let '(w, fs) := st in
  match process_file World makedirs usdrecord stage_open stage_export imread relpath
          platform_system DIRECTORY plugin_name full_file_path true "basic" w with
  | (Raise e, w1, ev1) => (Raise e, (w1, fs), ev1)
  | (Return _, w1, ev1) =>
      match process_file World makedirs usdrecord stage_open stage_export imread relpath
              platform_system DIRECTORY plugin_name full_file_path true "roundtrip" w1 with
      | (Raise e, w2, ev2) => (Raise e, (w2, fs), ev1 ++ ev2)
      | (Return _, w2, ev2) =>
          if negb (String.eqb plugin_name "sbsar") then
            let '(stdout_str, stderr_str) := usdchecker full_file_path in
            match run_usdchecker stdout_str stderr_str full_file_path results_file fs with
            | (Raise e, fs1) => (Raise e, (w2, fs1), ev1 ++ ev2)
            | (Return _, fs1) => (Return tt, (w2, fs1), ev1 ++ ev2)
            end
          else (Return tt, (w2, fs), ev1 ++ ev2)
      end
  end.

(** [if os.path.exists(path): os.remove(path)] *)
Definition remove_if_exists {A : Type} (path : string) (fs : gmap string A)
  : gmap string A :=
  match fs !! path with
  | Some _ => delete path fs
  | None => fs
  end.

Definition baseline_results_file (plugin_name : string) : string :=
  OsPath.join DIRECTORY
    [BASELINE_FOLDERNAME; platform_system; plugin_name; results_file_name].

Definition output_results_file (plugin_name : string) : string :=
  OsPath.join DIRECTORY
    [OUTPUT_FOLDERNAME; platform_system; plugin_name; results_file_name].

(** The records the generation of a family adds to its document: one for
    each path, but none for sbsar. *)
Definition generated_records (plugin_name : string) (paths : list string)
  : list Json.value :=
  if String.eqb plugin_name "sbsar" then []
  else map (fun path => result_to_json (diagnose path (fst (usdchecker path))
                                          (snd (usdchecker path)))) paths.

(** Lines 226-241: one family of the generation. *)
Definition generate_plugin (override_file_filter : option (list string))
    (entry : string * list string) (st : World * gmap string string)
  : result unit * (World * gmap string string) * list event :=
  let '(plugin_name, extensions) := entry in
  let extensions := overridden override_file_filter extensions in
  let input_folder := OsPath.join (ASSET_PATH DIRECTORY) [plugin_name] in
  let results_file := baseline_results_file plugin_name in
  let st := (fst st, remove_if_exists results_file (snd st)) in
  for_each_file
    (fun root file st =>
       if has_extension file extensions
       then generate_asset plugin_name results_file (OsPath.join root [file]) st
       else (Return tt, st, []))
    (walk input_folder) st.

(** Lines 211-241. *)
Definition generate_baseline_function (override_file_filter : option (list string))
    (st : World * gmap string string)
  : result unit * (World * gmap string string) * list event :=
  for_each (generate_plugin override_file_filter) file_formats st.

(** Lines 275-276: the extensions of a family under the option
    [--extensions], a text: an extension is kept when it occurs in it. *)
Definition select_extensions (file_filter : option string) (extensions : list string)
  : list string :=
  match file_filter with
  | Some text =>
      if String.eqb text EmptyString then extensions
      else filter (fun ext => PyStr.contains ext text = true) extensions
  | None => extensions
  end.

(** The files of a family that the loop of lines 281-285 appends. *)
Definition plugin_tests (plugin_name : string) (extensions : list string)
  : list (string * string) :=
  map (fun full_file_path => (plugin_name, full_file_path))
      (selected_paths (walk (OsPath.join (ASSET_PATH DIRECTORY) [plugin_name])) extensions).

(** Lines 258-290: the test cases, and the text files once the results
    documents of the former run are removed. *)
Definition pytest_generate_tests (file_filter : option string) (fs : gmap string string)
  : list (string * string) * gmap string string :=
  fold_left
    (fun acc entry =>
       let '(plugin_name, extensions) := entry in
       let extensions := select_extensions file_filter extensions in
       (fst acc ++ plugin_tests plugin_name extensions,
        remove_if_exists (output_results_file plugin_name) (snd acc)))
    file_formats ([], fs).

End Rendering.

(** [os.remove(path)] *)
Definition os_remove {A : Type} (path : string) (fs : gmap string A)
  : result unit * gmap string A * list event :=
  match fs !! path with
  | Some _ => (Return tt, delete path fs, [])
  | None => (Raise (FileNotFoundError path), fs, [])
  end.

(** Lines 244-255, on what [os.walk(path)] yields. *)
Definition cleanup {A : Type} (walked : list (string * list string))
    (extensions : list string) (fs : gmap string A)
  : result unit * gmap string A * list event :=
  for_each_file
    (fun root file fs =>
       if negb (has_extension file extensions)
       then os_remove (OsPath.join root [file]) fs
       else (Return tt, fs, []))
    walked fs.

(** The paths [cleanup] removes. *)
Definition removed_paths (walked : list (string * list string))
    (extensions : list string) : list string :=
  flat_map (fun entry =>
              map (fun file => OsPath.join (fst entry) [file])
                  (filter (fun file => has_extension file extensions = false) (snd entry)))
           walked.

(** A path component that [pathlib] keeps as it is: not empty, not a
    dot, without a slash. *)
Definition proper_segment (x : string) : Prop :=
  x <> EmptyString /\ x <> "." /\ PyStr.contains "/" x = false.

(** A baseline of one record per line whose entry is named by the path of
    the asset [cube_path] and holds no error, and the same entry in a
    document written as [run_usdchecker] writes it. *)
Definition cube_named_entry : Json.value :=
  Json.JObj [ ("filename", Json.JStr cube_path);
              ("pass", Json.JBool true);
              ("warnings", Json.JArr []);
              ("errors", Json.JArr []) ].

Definition cube_named_text : string :=
  "{" +:+ Json.encode_string "filename" +:+ ": "
  +:+ Json.encode_string cube_path +:+ ", "
  +:+ Json.encode_string "pass" +:+ ": true, "
  +:+ Json.encode_string "warnings" +:+ ": [], "
  +:+ Json.encode_string "errors" +:+ ": []}" +:+ PyStr.nl.

Definition cube_named_fs : gmap string string :=
  {[ cube_baseline_file := cube_named_text ]}.

Definition cube_written_fs : gmap string string :=
  {[ cube_baseline_file := Json.dumps (Json.JArr [cube_named_entry]) ]}.

(** The rendering test in the world of the images on disk, and a disk
    whose baseline image of [cube_path] has two pixels. *)
Definition disk_test_asset_rendering :=
  test_asset_rendering (gmap string Cv2.ndarray) (fun _ w => w) disk_usdrecord
    (fun _ _ => true) (fun _ _ w => w) disk_imread (fun _ _ => ".")
    "Linux" "/repo/test".

Definition img_two_pixels : Cv2.ndarray := Cv2.MkArray 1 2 3 [0; 0; 0; 0; 0; 0].

Definition disk_other_baseline : gmap string Cv2.ndarray :=
  {[ "/repo/test/baseline/Linux/fbx/./cube.jpg" := img_two_pixels ]}.

(** A baseline folder for examples: one directory with an image, an asset
    and a document, all three on disk. *)
Definition baseline_walked : list (string * list string) :=
  [ ("/repo/test/baseline", ["cube.jpg"; "cube_roundtrip.usd"; "usd_checker_results.json"]) ].

Definition baseline_disk : gmap string string :=
  {[ "/repo/test/baseline/cube.jpg" := "image";
     "/repo/test/baseline/cube_roundtrip.usd" := "stage";
     "/repo/test/baseline/usd_checker_results.json" := "[]" ]}.

(** The generation in the world of the images on disk: the folder of the
    family fbx holds the asset [cube.fbx] and a text of notes; the text
    files hold a baseline document of a former run that does not decode. *)
Definition cube_walk (folder : string) : list (string * list string) :=
  if String.eqb folder "/repo/test/assets/fbx"
  then [("/repo/test/assets/fbx", ["cube.fbx"; "notes.txt"])]
  else [].

Definition disk_generate_plugin :=
  generate_plugin (gmap string Cv2.ndarray) (fun _ w => w) disk_usdrecord
    (fun _ _ => true) (fun _ _ w => w) disk_imread (fun _ _ => ".")
    "Linux" "/repo/test" cube_usdchecker cube_walk.

Definition disk_generate_baseline_function :=
  generate_baseline_function (gmap string Cv2.ndarray) (fun _ w => w) disk_usdrecord
    (fun _ _ => true) (fun _ _ w => w) disk_imread (fun _ _ => ".")
    "Linux" "/repo/test" cube_usdchecker cube_walk.

Definition stale_fs : gmap string string := {[ cube_baseline_file := "stale" ]}.

(** * Properties *)

(** ** Python strings *)

Lemma app_nil_l s : EmptyString +:+ s = s.
Proof. reflexivity. Qed.

Lemma app_cons c s t : String c s +:+ t = String c (s +:+ t).
Proof. reflexivity. Qed.

Lemma app_nil_r s : s +:+ EmptyString = s.
Proof. induction s as [|c s IH]; [reflexivity|]. rewrite app_cons, IH. reflexivity. Qed.

Lemma app_assoc s t u : (s +:+ t) +:+ u = s +:+ (t +:+ u).
Proof. induction s as [|c s IH]; [reflexivity|]. rewrite !app_cons, IH. reflexivity. Qed.

Lemma length_app s t :
  String.length (s +:+ t) = (String.length s + String.length t)%nat.
Proof. induction s as [|c s IH]; [reflexivity|]. rewrite app_cons. cbn. rewrite IH. reflexivity. Qed.

Lemma startswith_app p r : PyStr.startswith (p +:+ r) p = true.
Proof.
  induction p as [|c p IH]; [destruct r; reflexivity|].
  rewrite app_cons. cbn. rewrite Ascii.eqb_refl. exact IH.
Qed.

Lemma startswith_nil s : PyStr.startswith s EmptyString = true.
Proof. destruct s; reflexivity. Qed.

Lemma startswith_cons a p b s :
  PyStr.startswith (String b s) (String a p)
  = if Ascii.eqb a b then PyStr.startswith s p else false.
Proof. reflexivity. Qed.

Lemma drop_app_length p s : PyStr.drop (String.length p) (p +:+ s) = s.
Proof. induction p as [|c p IH]; [reflexivity|]. rewrite app_cons. exact IH. Qed.

Lemma find_at_unfold sub s i :
  PyStr.find_at sub s i
  = if PyStr.startswith s sub then i
    else match s with
         | EmptyString => -1
         | String _ r => PyStr.find_at sub r (i + 1)
         end.
Proof. destruct s; reflexivity. Qed.

Lemma find_at_first sub s n i :
  first_occurrence sub s n -> PyStr.find_at sub s i = i + Z.of_nat n.
Proof.
  revert s i. induction n as [|n IH]; intros s i [Hat Hbefore].
  - rewrite find_at_unfold. cbn in Hat. rewrite Hat. lia.
  - rewrite find_at_unfold.
    pose proof (Hbefore O ltac:(lia)) as H0. cbn [PyStr.drop] in H0. rewrite H0.
    destruct s as [|c r].
    + cbn [PyStr.drop] in Hat. rewrite H0 in Hat. discriminate.
    + rewrite IH; [lia|]. split; [exact Hat|].
      intros k Hk. apply (Hbefore (S k)). lia.
Qed.

Lemma find_at_offset sub s i :
  (PyStr.find_at sub s 0 = -1 /\ PyStr.find_at sub s i = -1)
  \/ (0 <= PyStr.find_at sub s 0 /\ PyStr.find_at sub s i = i + PyStr.find_at sub s 0).
Proof.
  revert i. induction s as [|c r IH]; intros i.
  - rewrite !(find_at_unfold sub EmptyString). destruct (PyStr.startswith EmptyString sub).
    + right. lia.
    + left. auto.
  - rewrite !(find_at_unfold sub (String c r)). destruct (PyStr.startswith (String c r) sub).
    + right. lia.
    + destruct (IH (0 + 1)) as [[H0 H1]|[H0 H1]], (IH (i + 1)) as [[G0 G1]|[G0 G1]]; lia.
Qed.

Lemma find_at_absent sub s i k :
  PyStr.find_at sub s i = -1 -> 0 <= i -> PyStr.startswith (PyStr.drop k s) sub = false.
Proof.
  revert s i. induction k as [|k IH]; intros s i H Hi.
  - cbn. rewrite find_at_unfold in H. destruct (PyStr.startswith s sub); [lia|reflexivity].
  - rewrite find_at_unfold in H. destruct (PyStr.startswith s sub) eqn:E; [lia|].
    destruct s as [|c r]; [exact E|]. cbn. apply (IH r (i + 1)); [exact H|lia].
Qed.

Lemma find_zero s sub : PyStr.find s sub 0 = PyStr.find_at sub s 0.
Proof.
  unfold PyStr.find, PyStr.norm_index, PyStr.len. cbn [Z.ltb Z.compare].
  destruct (Z.gtb_spec 0 (Z.of_nat (String.length s))); [lia|reflexivity].
Qed.

Lemma find_from s sub n :
  (n <= String.length s)%nat ->
  PyStr.find s sub (Z.of_nat n) = PyStr.find_at sub (PyStr.drop n s) (Z.of_nat n).
Proof.
  intros Hn. unfold PyStr.find, PyStr.norm_index, PyStr.len.
  destruct (Z.ltb_spec (Z.of_nat n) 0); [lia|].
  destruct (Z.gtb_spec (Z.of_nat n) (Z.of_nat (String.length s))); [lia|].
  rewrite Nat2Z.id. reflexivity.
Qed.

Lemma slice_from_nat s n : PyStr.slice_from s (Z.of_nat n) = PyStr.drop n s.
Proof.
  unfold PyStr.slice_from, PyStr.norm_index.
  destruct (Z.ltb_spec (Z.of_nat n) 0); [lia|]. rewrite Nat2Z.id. reflexivity.
Qed.

Lemma contains_find_at sub s :
  PyStr.contains sub s = negb (PyStr.find_at sub s 0 =? -1).
Proof. unfold PyStr.contains. rewrite find_zero. reflexivity. Qed.

(** A text without a line feed, followed by a line feed: the first line
    feed is the one that follows. *)
Lemma first_line_feed line rest :
  PyStr.contains PyStr.nl line = false ->
  first_occurrence PyStr.nl (line +:+ PyStr.nl +:+ rest) (String.length line).
Proof.
  rewrite contains_find_at. intros H.
  assert (Hnone : PyStr.find_at PyStr.nl line 0 = -1).
  { destruct (Z.eqb_spec (PyStr.find_at PyStr.nl line 0) (-1)); [assumption|discriminate]. }
  clear H. induction line as [|c l IH].
  - split; [exact (startswith_app PyStr.nl rest)|]. intros k Hk. cbn in Hk. lia.
  - rewrite find_at_unfold in Hnone.
    destruct (PyStr.startswith (String c l) PyStr.nl) eqn:E; [lia|].
    assert (Hl : PyStr.find_at PyStr.nl l 0 = -1).
    { destruct (find_at_offset PyStr.nl l (0 + 1)) as [[H0 _]|[H0 H1]]; [exact H0|lia]. }
    destruct (IH Hl) as [Hat Hbefore]. rewrite app_cons. split.
    + exact Hat.
    + intros [|k] Hk.
      * cbn [PyStr.drop]. unfold PyStr.nl in *.
        rewrite startswith_cons, startswith_nil in E.
        rewrite startswith_cons, startswith_nil. exact E.
      * cbn [PyStr.drop]. apply Hbefore. cbn in Hk. lia.
Qed.

Example scenario_total_time :
  diagnose "/t/output/Linux/fbx/cube_usdchecked.usd"
    ("Total time: 1s" +:+ PyStr.nl +:+ "Success!" +:+ String PyStr.CR PyStr.nl)
    EmptyString
  = MkResult "Linux/fbx/cube_usdchecked.usd" true [] [].
Proof. vm_compute. reflexivity. Qed.

(** ** The image comparator *)

Lemma similar_pixels_agreeing img1 img2 :
  similar_pixels img1 img2 = agreeing (Cv2.data img1) (Cv2.data img2).
Proof.
  unfold similar_pixels.
  generalize (Cv2.data img2). induction (Cv2.data img1) as [|x a IH]; intros [|y b];
    try reflexivity.
  cbn [Cv2.absdiff Cv2.threshold_binary Np.eq_scalar Np.count_nonzero map agreeing].
  fold (Cv2.threshold_binary (Cv2.absdiff a b) 0 255).
  fold (Np.eq_scalar (Cv2.threshold_binary (Cv2.absdiff a b) 0 255) 0).
  rewrite IH. f_equal.
  unfold Cv2.saturate_u8.
  destruct (Z.eqb_spec x y) as [->|Hne].
  - rewrite Z.sub_diag. reflexivity.
  - destruct (Z.gtb_spec (Z.max 0 (Z.min 255 (Z.abs (x - y)))) 0) as [Hgt|Hle].
    + reflexivity.
    + exfalso. lia.
Qed.

Lemma agreeing_refl a : agreeing a a = Z.of_nat (length a).
Proof.
  induction a as [|x a IH]; [reflexivity|].
  cbn [agreeing length]. rewrite Z.eqb_refl, IH. lia.
Qed.

Lemma agreeing_same a b :
  length a = length b -> (forall j, a !! j = b !! j) -> agreeing a b = Z.of_nat (length a).
Proof.
  intros _ H. assert (a = b) as -> by (apply list_eq; exact H). apply agreeing_refl.
Qed.

Lemma agreeing_differ_only_at i a b :
  differ_only_at i a b -> agreeing a b = Z.of_nat (length a) - 1.
Proof.
  revert a b. induction i as [|i IH]; intros [|x a] [|y b] (Hlen & (u & v & Hu & Hv & Huv) & Hrest);
    try discriminate.
  - cbn in Hu, Hv. injection Hu as ->. injection Hv as ->.
    cbn [agreeing length]. destruct (Z.eqb_spec u v) as [?|_]; [contradiction|].
    rewrite agreeing_same.
    + lia.
    + cbn in Hlen. congruence.
    + intros j. apply (Hrest (S j)). discriminate.
  - cbn [agreeing length].
    assert (x = y) as ->.
    { specialize (Hrest O). cbn in Hrest. assert (Some x = Some y) as E by (apply Hrest; discriminate).
      congruence. }
    rewrite Z.eqb_refl, (IH a b).
    + lia.
    + repeat split.
      * cbn in Hlen. congruence.
      * exists u, v. auto.
      * intros j Hj. apply (Hrest (S j)). congruence.
Qed.

Lemma differ_only_at_head x y l : x <> y -> differ_only_at 0 (x :: l) (y :: l).
Proof.
  intros Hxy. split; [reflexivity|]. split.
  - exists x, y. auto.
  - intros [|j] Hj; [contradiction|]. reflexivity.
Qed.

Lemma scenario_differ_only_at :
  differ_only_at 0 (Cv2.data img_black) (Cv2.data img_one_off).
Proof.
  apply differ_only_at_head. discriminate.
Qed.

(** C1, as the specification states it, fails on the scenario it names:
    the two 100x100x3 images differ in one channel of one pixel, the
    pixel-wise ratio of the specification is 9999/10000, but the ratio the
    comparator computes is not, and the comparison passes at the threshold
    0.99991. *)
Lemma C1_counterexample :
  Cv2.shape img_black = (100, 100, 3)%nat
  /\ Cv2.shape img_one_off = (100, 100, 3)%nat
  /\ differ_only_at 0 (Cv2.data img_black) (Cv2.data img_one_off)
  /\ spec_similarity_ratio img_black img_one_off == 9999 # 10000
  /\ ~ similarity_ratio img_black img_one_off == 9999 # 10000
  /\ fst (compare_images_with_similarity_threshold scenario_imread
            "baseline.jpg" "output.jpg" (99991 # 100000)) = Return true.
Proof.
  split; [reflexivity|]. split; [reflexivity|].
  split; [exact scenario_differ_only_at|].
  split; [vm_compute; reflexivity|]. split.
  - vm_compute. discriminate.
  - vm_compute. reflexivity.
Qed.

(** C1, amended: for decodable images of one shape the ratio is the number
    of channel values that agree over the number of channel values
    (rows x columns x channels), so a pixel that agrees in some channels
    counts for those; two 100x100x3 images that differ in one channel of
    one pixel have the ratio 29999/30000, and the comparison passes at the
    thresholds 0.95 and 0.99991. *)
Theorem C1_ratio_counts_channel_values
    (imread : string -> option Cv2.ndarray) (p1 p2 : string)
    (img1 img2 : Cv2.ndarray) (thr : Q) :
  imread p1 = Some img1 -> imread p2 = Some img2 ->
  Cv2.wf img1 -> Cv2.wf img2 ->
  Cv2.shape img1 = Cv2.shape img2 ->
  0 < total_pixels img1 ->
  similarity_ratio img1 img2
    = (agreeing (Cv2.data img1) (Cv2.data img2) # Z.to_pos (total_pixels img1))
  /\ fst (compare_images_with_similarity_threshold imread p1 p2 thr)
     = Return (Qle_bool thr (similarity_ratio img1 img2))
  /\ (forall i, Cv2.shape img1 = (100, 100, 3)%nat ->
        differ_only_at i (Cv2.data img1) (Cv2.data img2) ->
        similarity_ratio img1 img2 = (29999 # 30000)
        /\ fst (compare_images_with_similarity_threshold imread p1 p2
                  default_similarity_threshold) = Return true
        /\ fst (compare_images_with_similarity_threshold imread p1 p2
                  (99991 # 100000)) = Return true).
Proof.
  intros H1 H2 [Hlen1 _] _ Hshape Htot.
  assert (Hcmp : forall t, fst (compare_images_with_similarity_threshold imread p1 p2 t)
                           = Return (Qle_bool t (similarity_ratio img1 img2))).
  { intros t. unfold compare_images_with_similarity_threshold, compare_arrays.
    rewrite H1, H2, Hshape.
    assert (Cv2.shape_eqb (Cv2.shape img2) (Cv2.shape img2) = true) as ->.
    { destruct (Cv2.shape img2) as [[r c] k]. cbn. rewrite !Nat.eqb_refl. reflexivity. }
    cbn [negb]. destruct (Z.eqb_spec (total_pixels img1) 0) as [E|_]; [lia|]. reflexivity. }
  assert (Hratio : similarity_ratio img1 img2
            = (agreeing (Cv2.data img1) (Cv2.data img2) # Z.to_pos (total_pixels img1))).
  { unfold similarity_ratio. rewrite similar_pixels_agreeing. reflexivity. }
  split; [exact Hratio|]. split; [apply Hcmp|].
  intros i Hs Hd.
  assert (Hr : similarity_ratio img1 img2 = (29999 # 30000)).
  { rewrite Hratio, (agreeing_differ_only_at i _ _ Hd), Hlen1.
    unfold total_pixels. unfold Cv2.shape in Hs. injection Hs as -> -> ->. reflexivity. }
  split; [exact Hr|]. rewrite !Hcmp, Hr. split; reflexivity.
Qed.

Lemma C1_ratio_counts_channel_values_witness :
  similarity_ratio img_black img_one_off = (29999 # 30000)
  /\ fst (compare_images_with_similarity_threshold scenario_imread
            "baseline.jpg" "output.jpg" (99991 # 100000)) = Return true.
Proof.
  assert (Hw : forall v, 0 <= v < 256 ->
                 Cv2.wf (Cv2.MkArray 100 100 3 (v :: replicate (100 * 100 * 3 - 1) 0))).
  { intros v Hv. split.
    - cbn [Cv2.data Cv2.rows Cv2.cols Cv2.chans length]. rewrite length_replicate. lia.
    - apply Forall_cons. split; [exact Hv|].
      apply Forall_forall. intros w Hw. apply elem_of_replicate in Hw. lia. }
  pose proof (Hw 0 ltac:(lia)) as Hw1. pose proof (Hw 1 ltac:(lia)) as Hw2.
  pose proof scenario_differ_only_at as Hd.
  destruct (C1_ratio_counts_channel_values scenario_imread "baseline.jpg" "output.jpg"
              img_black img_one_off default_similarity_threshold
              eq_refl eq_refl Hw1 Hw2 eq_refl eq_refl) as (_ & _ & H).
  destruct (H 0%nat eq_refl Hd) as (Hr & _ & Hp).
  split; [exact Hr | exact Hp].
Defined.

(** C7: when [cv2.imread] decodes neither or only one of the two paths, the
    comparison raises the error of an unreadable image at once; no ratio is
    computed and nothing is logged. *)
Theorem C7_unreadable_image_raises
    (imread : string -> option Cv2.ndarray) (p1 p2 : string) (thr : Q) :
  imread p1 = None \/ imread p2 = None ->
  compare_images_with_similarity_threshold imread p1 p2 thr
  = (Raise (ValueError msg_not_loaded), []).
Proof.
  unfold compare_images_with_similarity_threshold.
  intros [H|H]; rewrite H; [reflexivity|].
  destruct (imread p1); reflexivity.
Qed.

Lemma C7_unreadable_image_raises_witness :
  compare_images_with_similarity_threshold scenario_imread
    "baseline.jpg" "missing.jpg" default_similarity_threshold
  = (Raise (ValueError msg_not_loaded), []).
Proof.
  apply (C7_unreadable_image_raises scenario_imread "baseline.jpg" "missing.jpg").
  right. reflexivity.
Defined.

(** ** The schema-check runner *)

Lemma drop_add n m s : PyStr.drop (n + m) s = PyStr.drop m (PyStr.drop n s).
Proof.
  revert s. induction n as [|n IH]; intros s; [reflexivity|].
  destruct s as [|c r]; [destruct m; reflexivity|]. apply IH.
Qed.

(** Where the two searches of lines 94-98 (or 100-104) land when [marker]
    first occurs at the end of [pre] and [line] runs up to the next line
    feed. *)
Lemma cut_after_marker_line marker pre line rest :
  let s := pre +:+ line +:+ PyStr.nl +:+ rest in
  first_occurrence marker s (String.length pre) ->
  PyStr.contains PyStr.nl line = false ->
  PyStr.find s marker 0 = Z.of_nat (String.length pre)
  /\ PyStr.find s PyStr.nl (Z.of_nat (String.length pre))
     = Z.of_nat (String.length pre + String.length line)
  /\ PyStr.slice_from s (Z.of_nat (String.length pre + String.length line) + 1) = rest.
Proof.
  intros s Hfirst Hline. split; [|split].
  - rewrite find_zero, (find_at_first _ _ _ _ Hfirst). lia.
  - rewrite find_from by (unfold s; rewrite length_app; lia).
    unfold s. rewrite drop_app_length.
    rewrite (find_at_first _ _ _ _ (first_line_feed line rest Hline)). lia.
  - replace (Z.of_nat (String.length pre + String.length line) + 1)
      with (Z.of_nat (String.length pre + (String.length line + 1))) by lia.
    rewrite slice_from_nat, drop_add. unfold s. rewrite drop_app_length.
    rewrite drop_add, drop_app_length. reflexivity.
Qed.

Lemma truncate_stdout_total_time pre line rest :
  first_occurrence marker_total_time (pre +:+ line +:+ PyStr.nl +:+ rest)
                   (String.length pre) ->
  PyStr.contains PyStr.nl line = false ->
  truncate_stdout (pre +:+ line +:+ PyStr.nl +:+ rest) = rest.
Proof.
  intros Hfirst Hline.
  destruct (cut_after_marker_line _ pre line rest Hfirst Hline) as (Hm & Hn & Hs).
  unfold truncate_stdout. rewrite Hm.
  destruct (Z.eqb_spec (Z.of_nat (String.length pre)) (-1)) as [E|_]; [lia|]. cbn [negb].
  rewrite Hn.
  destruct (Z.eqb_spec (Z.of_nat (String.length pre + String.length line)) (-1)) as [E|_];
    [lia|]. cbn [negb]. exact Hs.
Qed.

Lemma truncate_stdout_write_layer pre line rest :
  PyStr.contains marker_total_time (pre +:+ line +:+ PyStr.nl +:+ rest) = false ->
  first_occurrence marker_write_layer (pre +:+ line +:+ PyStr.nl +:+ rest)
                   (String.length pre) ->
  PyStr.contains PyStr.nl line = false ->
  truncate_stdout (pre +:+ line +:+ PyStr.nl +:+ rest) = rest.
Proof.
  intros Habs Hfirst Hline.
  destruct (cut_after_marker_line _ pre line rest Hfirst Hline) as (Hm & Hn & Hs).
  unfold truncate_stdout. unfold PyStr.contains in Habs.
  destruct (PyStr.find _ marker_total_time 0 =? -1); [|discriminate]. cbn [negb].
  rewrite Hm.
  destruct (Z.eqb_spec (Z.of_nat (String.length pre)) (-1)) as [E|_]; [lia|]. cbn [negb].
  rewrite Hn.
  destruct (Z.eqb_spec (Z.of_nat (String.length pre + String.length line)) (-1)) as [E|_];
    [lia|]. cbn [negb]. exact Hs.
Qed.

(** The standard output of the scenario: the timing line, then the success
    marker with a carriage return and a line feed. *)
Lemma diagnose_scenario file :
  diagnose file
    ("Total time: 1s" +:+ PyStr.nl +:+ "Success!" +:+ String PyStr.CR PyStr.nl)
    EmptyString
  = MkResult (truncated_filename file) true [] [].
Proof. reflexivity. Qed.

(** C6: the standard output is cut after the line feed that ends the line
    of the first "Total time:"; the line of "Write layer via Sdf API:" is
    used when "Total time:" does not occur; and the output
    "Total time: 1s\nSuccess!\r\n" with an empty standard error gives a
    passing record without warnings and errors. *)
Theorem C6_truncation_marker :
  (forall pre line rest,
      first_occurrence marker_total_time (pre +:+ line +:+ PyStr.nl +:+ rest)
                       (String.length pre) ->
      PyStr.contains PyStr.nl line = false ->
      truncate_stdout (pre +:+ line +:+ PyStr.nl +:+ rest) = rest)
  /\ (forall pre line rest,
      PyStr.contains marker_total_time (pre +:+ line +:+ PyStr.nl +:+ rest) = false ->
      first_occurrence marker_write_layer (pre +:+ line +:+ PyStr.nl +:+ rest)
                       (String.length pre) ->
      PyStr.contains PyStr.nl line = false ->
      truncate_stdout (pre +:+ line +:+ PyStr.nl +:+ rest) = rest)
  /\ (forall file,
      let r := diagnose file
                 ("Total time: 1s" +:+ PyStr.nl +:+ "Success!" +:+ String PyStr.CR PyStr.nl)
                 EmptyString in
      r_pass r = true /\ r_warnings r = [] /\ r_errors r = []).
Proof.
  split; [exact truncate_stdout_total_time|].
  split; [exact truncate_stdout_write_layer|].
  intros file. rewrite diagnose_scenario. auto.
Qed.

(** Both markers present, the fallback one first: the cut is still made
    after the line of "Total time:". *)
Lemma C6_truncation_marker_witness :
  truncate_stdout ("Write layer via Sdf API: 2s" +:+ PyStr.nl +:+ "Total time: 1s"
                   +:+ PyStr.nl +:+ "Success!" +:+ String PyStr.CR PyStr.nl)
  = "Success!" +:+ String PyStr.CR PyStr.nl.
Proof.
  apply (proj1 C6_truncation_marker
           ("Write layer via Sdf API: 2s" +:+ PyStr.nl) "Total time: 1s"
           ("Success!" +:+ String PyStr.CR PyStr.nl)).
  - split; [reflexivity|]. intros k Hk.
    do 28 (destruct k as [|k]; [reflexivity|]). vm_compute in Hk. lia.
  - reflexivity.
Defined.

Lemma elem_spec x l : PyStr.elem x l = true <-> In x l.
Proof.
  unfold PyStr.elem. rewrite existsb_exists. split.
  - intros (y & Hy & E). apply String.eqb_eq in E. subst. exact Hy.
  - intros H. exists x. split; [exact H|apply String.eqb_refl].
Qed.

Lemma is_non_ignorable_spec err :
  is_non_ignorable err = true
  <-> forall ign, In ign ignorable_errors -> PyStr.contains ign err = false.
Proof.
  unfold is_non_ignorable. rewrite forallb_forall. split; intros H ign Hin.
  - apply negb_true_iff, H, Hin.
  - apply negb_true_iff, H, Hin.
Qed.

Lemma is_ignorable_spec err :
  is_non_ignorable err = false
  <-> exists ign, In ign ignorable_errors /\ PyStr.contains ign err = true.
Proof.
  split.
  - intros H. unfold is_non_ignorable, ignorable_errors in *. cbn [forallb] in H.
    destruct (PyStr.contains _ err) eqn:E1 in H.
    + eexists. split; [left; reflexivity|exact E1].
    + destruct (PyStr.contains _ err) eqn:E2 in H; [|discriminate].
      eexists. split; [right; left; reflexivity|exact E2].
  - intros (ign & Hin & Hc). destruct (is_non_ignorable err) eqn:E; [|reflexivity].
    rewrite (proj1 (is_non_ignorable_spec err) E ign Hin) in Hc. discriminate.
Qed.

Lemma collect_errors_not_empty stdout_str stderr_str err :
  In err (collect_errors stdout_str stderr_str) -> err <> EmptyString.
Proof.
  unfold collect_errors. intros H. apply list_elem_of_In, list_elem_of_filter in H.
  destruct H as [H _]. intros ->. discriminate.
Qed.

(** The lines of [warnings] are the collected lines that are not in
    [non_ignorable_errors]: those in which an ignorable message occurs. *)
Lemma warnings_spec file stdout_str stderr_str err :
  In err (r_warnings (diagnose file stdout_str stderr_str))
  <-> In err (collect_errors (truncate_stdout stdout_str) stderr_str)
      /\ is_non_ignorable err = false.
Proof.
  unfold diagnose. cbn [r_warnings].
  set (errors := collect_errors (truncate_stdout stdout_str) stderr_str).
  rewrite <- !list_elem_of_In, list_elem_of_filter. split.
  - intros [Hc Hin]. split; [exact Hin|].
    apply andb_true_iff in Hc as [Hc _]. apply negb_true_iff in Hc.
    destruct (is_non_ignorable err) eqn:E; [|reflexivity].
    assert (PyStr.elem err (filter_non_ignorable errors) = true) as Hel.
    { apply elem_spec, list_elem_of_In, list_elem_of_filter. split; assumption. }
    rewrite Hel in Hc. discriminate.
  - intros [Hin Hign]. split; [|exact Hin]. apply andb_true_iff. split.
    + apply negb_true_iff. destruct (PyStr.elem err (filter_non_ignorable errors)) eqn:E;
        [|reflexivity].
      apply elem_spec, list_elem_of_In, list_elem_of_filter in E as [E _].
      rewrite E in Hign. discriminate.
    + apply negb_true_iff, String.eqb_neq.
      apply (collect_errors_not_empty (truncate_stdout stdout_str) stderr_str).
      apply list_elem_of_In. exact Hin.
Qed.

(** C5, as the specification states it, fails: a line equal to the
    allowlisted up-axis message is listed in [warnings]. *)
Lemma C5_counterexample :
  In "Stage does not specify an upAxis." ignorable_errors
  /\ In "Stage does not specify an upAxis."
        (r_warnings (diagnose "assets/fbx/cube.fbx"
                       ("Stage does not specify an upAxis." +:+ PyStr.nl) EmptyString)).
Proof. split; left; reflexivity. Qed.

(** C5, amended: a line in which an allowlisted message occurs is never in
    the [errors] list; such lines are what the [warnings] list holds (each
    collected line with an allowlisted message is a warning, and nothing
    else is). *)
Theorem C5_ignorable_lines_are_warnings (file stdout_str stderr_str : string) :
  let r := diagnose file stdout_str stderr_str in
  (forall err ign, In err (r_errors r) -> In ign ignorable_errors ->
                   PyStr.contains ign err = false)
  /\ (forall err, In err (r_warnings r)
                  <-> In err (collect_errors (truncate_stdout stdout_str) stderr_str)
                      /\ exists ign, In ign ignorable_errors
                                     /\ PyStr.contains ign err = true).
Proof.
  split.
  - intros err ign Herr Hign. unfold diagnose in Herr. cbn [r_errors] in Herr.
    apply list_elem_of_In, list_elem_of_filter in Herr as [Herr _].
    apply (proj1 (is_non_ignorable_spec err) Herr ign Hign).
  - intros err. rewrite warnings_spec, is_ignorable_spec. reflexivity.
Qed.

Lemma C5_ignorable_lines_are_warnings_witness :
  let r := diagnose "assets/fbx/cube.fbx"
             ("Stage does not specify an upAxis." +:+ PyStr.nl
              +:+ "Error: invalid prim" +:+ PyStr.nl) EmptyString in
  r_errors r = ["Error: invalid prim"]
  /\ PyStr.contains "Stage does not specify an upAxis." "Error: invalid prim" = false
  /\ In "Stage does not specify an upAxis." (r_warnings r).
Proof.
  intros r. split; [reflexivity|].
  destruct (C5_ignorable_lines_are_warnings "assets/fbx/cube.fbx"
              ("Stage does not specify an upAxis." +:+ PyStr.nl
               +:+ "Error: invalid prim" +:+ PyStr.nl) EmptyString) as [Herrors Hwarnings].
  split.
  - apply (Herrors "Error: invalid prim" "Stage does not specify an upAxis.");
      left; reflexivity.
  - apply Hwarnings. split; [left; reflexivity|].
    exists "Stage does not specify an upAxis.". split; [left; reflexivity|reflexivity].
Defined.

(** ** The conversion pipeline *)

Lemma shape_eqb_refl s : Cv2.shape_eqb s s = true.
Proof. destruct s as [[r c] k]. cbn. rewrite !Nat.eqb_refl. reflexivity. Qed.

(** An image compared with itself passes at the default threshold. *)
Lemma compare_arrays_same img :
  Cv2.wf img -> 0 < total_pixels img ->
  compare_arrays img img default_similarity_threshold = (Return true, []).
Proof.
  intros [Hlen _] Htot. unfold compare_arrays. rewrite shape_eqb_refl. cbn [negb].
  destruct (Z.eqb_spec (total_pixels img) 0) as [E|_]; [lia|].
  assert (Hr : Qle_bool default_similarity_threshold (similarity_ratio img img) = true).
  { apply Qle_bool_iff. unfold similarity_ratio, default_similarity_threshold, Qle.
    rewrite similar_pixels_agreeing, agreeing_refl, Hlen. cbn [Qnum Qden].
    rewrite Z2Pos.id by exact Htot. unfold total_pixels in *. lia. }
  rewrite Hr. reflexivity.
Qed.

Lemma imreads_logs logs : imreads (map EvLog logs) = [].
Proof. induction logs as [|l logs IH]; [reflexivity|exact IH]. Qed.

Lemma render_outputs_logs logs : render_outputs (map EvLog logs) = [].
Proof. induction logs as [|l logs IH]; [reflexivity|exact IH]. Qed.

Section PipelineFacts.

Variable World : Type.
Variable makedirs : string -> World -> World.
Variable usdrecord : string -> string -> World -> World.
Variable stage_open : string -> World -> bool.
Variable stage_export : string -> string -> World -> World.
Variable imread : World -> string -> option Cv2.ndarray.
Variable relpath : string -> string -> string.
Variable platform_system : string.
Variable DIRECTORY : string.

Let run := process_file World makedirs usdrecord stage_open stage_export imread
             relpath platform_system DIRECTORY.
Let target := roundtrip_output_path relpath platform_system DIRECTORY.

(** The comparator called with one path for both images. *)
Lemma compare_in_same w p res ev :
  compare_in World imread w p p = (res, ev) ->
  imreads ev = [p; p]
  /\ render_outputs ev = []
  /\ (forall img, imread w p = Some img -> Cv2.wf img -> 0 < total_pixels img ->
                  res = Return true).
Proof.
  unfold compare_in, compare_images_with_similarity_threshold.
  destruct (imread w p) as [img|].
  - destruct (compare_arrays img img default_similarity_threshold) as [r logs] eqn:Hcmp.
    intros H. injection H as <- <-. split; [|split].
    + cbn. rewrite imreads_logs. reflexivity.
    + cbn. rewrite render_outputs_logs. reflexivity.
    + intros img' Him Hwf Htot. injection Him as <-.
      rewrite compare_arrays_same in Hcmp by assumption. congruence.
  - intros H. injection H as <- <-. split; [reflexivity|]. split; [reflexivity|].
    discriminate.
Qed.

(** C9: in verify mode the round trip of a family other than sbsar reads
    one path twice, the path the rendering of the round trip was just
    written to; when that file decodes, the comparison passes and the file
    is reported as converted, whatever the baseline folder holds. *)
Theorem C9_roundtrip_compares_output_with_itself
    (plugin_name test_file : string) (w w' : World)
    (res : result string) (trace : list event) :
  plugin_name <> "sbsar" ->
  run plugin_name test_file false "roundtrip" w = (res, w', trace) ->
  imreads trace = [target plugin_name test_file; target plugin_name test_file]
  /\ render_outputs trace = [target plugin_name test_file]
  /\ (forall img, imread w' (target plugin_name test_file) = Some img ->
                  Cv2.wf img -> 0 < total_pixels img ->
                  res = Return ("Converted: " +:+ test_file)).
Proof.
  intros Hplugin. apply String.eqb_neq in Hplugin.
  unfold run, target, process_file, roundtrip_output_path.
  cbn [String.eqb Ascii.eqb Bool.eqb negb]. rewrite Hplugin.
  destruct (OsPath.splitext (OsPath.basename test_file)) as [file_name file_extension].
  cbn [fst]. unfold render.
  set (folder := OsPath.join _ [relpath _ _]).
  set (out := OsPath.join folder [file_name +:+ CONVERTED_SUFFIX +:+ RENDER_OUTPUT_FORMAT]).
  set (conv := OsPath.join folder [file_name +:+ CONVERTED_SUFFIX +:+ file_extension]).
  destruct (convert World stage_open stage_export test_file conv (makedirs folder w))
    as [[ok w0] ev1] eqn:Hconv.
  assert (Hev1 : imreads ev1 = [] /\ render_outputs ev1 = []).
  { unfold convert in Hconv. destruct (stage_open test_file (makedirs folder w));
      injection Hconv as <- <- <-; split; reflexivity. }
  destruct Hev1 as [Hr1 Ho1].
  destruct (compare_in World imread (usdrecord conv out w0) out out) as [r ev3] eqn:Hcmp.
  destruct (compare_in_same _ _ _ _ Hcmp) as (Hr3 & Ho3 & Hsame).
  assert (Htrace : forall ev3', imreads ev3' = imreads ev3 -> render_outputs ev3' = [] ->
    imreads ([EvMakedirs folder] ++ ev1
             ++ [EvLog (LInfo, Msg ("Rendering: " +:+ conv +:+ " To: " +:+ out));
                 EvSystem conv out] ++ ev3') = [out; out]
    /\ render_outputs ([EvMakedirs folder] ++ ev1
             ++ [EvLog (LInfo, Msg ("Rendering: " +:+ conv +:+ " To: " +:+ out));
                 EvSystem conv out] ++ ev3') = [out]).
  { intros ev3' Hi Ho. unfold imreads, render_outputs in *.
    rewrite !omap_app, Hr1, Ho1, Hi, Hr3, Ho. split; reflexivity. }
  destruct r as [[]|e]; intros H; injection H as <- <- <-.
  - destruct (Htrace ev3 eq_refl Ho3) as [Ha Hb]. split; [exact Ha|]. split; [exact Hb|].
    reflexivity.
  - destruct (Htrace ev3 eq_refl Ho3) as [Ha Hb]. split; [exact Ha|]. split; [exact Hb|].
    intros img Him Hwf Htot. specialize (Hsame img Him Hwf Htot). discriminate.
  - destruct (Htrace ev3 eq_refl Ho3) as [Ha Hb]. split; [exact Ha|]. split; [exact Hb|].
    intros img Him Hwf Htot. specialize (Hsame img Him Hwf Htot). discriminate.
Qed.

End PipelineFacts.

Lemma img_pixel_wf : Cv2.wf img_pixel.
Proof. split; [reflexivity|]. repeat constructor; lia. Qed.

Lemma triple_eta {A B C : Type} (x : A * B * C) : x = (fst (fst x), snd (fst x), snd x).
Proof. destruct x as [[a b] c]. reflexivity. Qed.

Lemma C9_roundtrip_compares_output_with_itself_witness :
  let run := disk_process_file "fbx" "/repo/test/assets/fbx/cube.fbx" false "roundtrip" ∅ in
  imreads (snd run) = ["/repo/test/output/Linux/fbx/./cube_roundtrip.jpg";
                       "/repo/test/output/Linux/fbx/./cube_roundtrip.jpg"]
  /\ fst (fst run) = Return "Converted: /repo/test/assets/fbx/cube.fbx".
Proof.
  intros run.
  destruct (C9_roundtrip_compares_output_with_itself
              (gmap string Cv2.ndarray) (fun _ w => w) disk_usdrecord
              (fun _ _ => true) (fun _ _ w => w) disk_imread (fun _ _ => ".")
              "Linux" "/repo/test" "fbx" "/repo/test/assets/fbx/cube.fbx" ∅
              (snd (fst run)) (fst (fst run)) (snd run)
              ltac:(discriminate) (triple_eta run)) as (Hreads & _ & Hres).
  split.
  - vm_compute in Hreads. vm_compute. exact Hreads.
  - apply (Hres img_pixel); [vm_compute; reflexivity|exact img_pixel_wf|reflexivity].
Defined.

(** ** The [json] module: decoding what was encoded *)

Section JsonFacts.

Import Json.

Lemma scanstring_escape_char c r :
  scanstring (escape_char c +:+ r)
  = match scanstring r with
    | Some (t, rest) => Some (String c t, rest)
    | None => None
    end.
Proof.
  destruct c as [[|] [|] [|] [|] [|] [|] [|] [|]]; reflexivity.
Qed.

Lemma scanstring_escape s rest :
  scanstring (escape s +:+ String quote rest) = Some (s, rest).
Proof.
  induction s as [|c s IH]; [reflexivity|].
  cbn [escape]. rewrite app_assoc, scanstring_escape_char, IH. reflexivity.
Qed.

Lemma skip_ws_spaces n t : skip_ws (spaces n +:+ t) = skip_ws t.
Proof. induction n as [|n IH]; [reflexivity|exact IH]. Qed.

Lemma skip_ws_newline_indent level t : skip_ws (newline_indent level +:+ t) = skip_ws t.
Proof. unfold newline_indent. rewrite app_cons. cbn [skip_ws]. apply skip_ws_spaces. Qed.

Lemma skip_ws_head c t : is_ws c = false -> skip_ws (String c t) = String c t.
Proof. intros H. cbn [skip_ws]. rewrite H. reflexivity. Qed.

(** Digits only, for any decimal number. *)
Lemma span_digits_uint d rest :
  match rest with String c _ => is_digit c = false | EmptyString => True end ->
  span_digits (NilEmpty.string_of_uint d +:+ rest) = (NilEmpty.string_of_uint d, rest).
Proof.
  intros Hrest. induction d as [|d IH|d IH|d IH|d IH|d IH|d IH|d IH|d IH|d IH|d IH];
    cbn [NilEmpty.string_of_uint];
    try (rewrite app_cons; cbn [span_digits];
         change (is_digit _) with true; cbn iota; rewrite IH; reflexivity).
  rewrite app_nil_l. destruct rest as [|c r]; [reflexivity|].
  cbn [span_digits]. rewrite Hrest. reflexivity.
Qed.

(** The decimal writing of a positive number starts with a digit other
    than 0. *)
Lemma to_uint_head p :
  match Pos.to_uint p with
  | Nil | D0 _ => False
  | _ => True
  end.
Proof.
  pose proof (DecimalPos.Unsigned.to_of (Pos.to_uint p)) as H.
  rewrite DecimalPos.Unsigned.of_to in H. cbn [N.to_uint] in H.
  pose proof (DecimalPos.Unsigned.to_uint_nonzero p) as Hnz.
  pose proof (DecimalFacts.nzhead_nonzero (Pos.to_uint p)) as Hhd.
  unfold unorm in H.
  destruct (nzhead (Pos.to_uint p)) eqn:E.
  - exfalso. apply Hnz. exact H.
  - exfalso. apply (Hhd u). reflexivity.
  - rewrite H. exact I.
  - rewrite H. exact I.
  - rewrite H. exact I.
  - rewrite H. exact I.
  - rewrite H. exact I.
  - rewrite H. exact I.
  - rewrite H. exact I.
  - rewrite H. exact I.
  - rewrite H. exact I.
Qed.

Lemma of_uint_to_uint p : Z.of_uint (Pos.to_uint p) = Z.pos p.
Proof. unfold Z.of_uint. rewrite DecimalPos.Unsigned.of_to. reflexivity. Qed.

Lemma value_end_spec rest :
  value_end rest = true ->
  match rest with String c _ => is_digit c = false | EmptyString => True end
  /\ starts_fraction rest = false /\ starts_exponent rest = false.
Proof.
  destruct rest as [|c r]; [intros _; repeat split; reflexivity|].
  cbn [value_end]. intros H. apply negb_true_iff in H.
  apply orb_false_iff in H as [H HE]. apply orb_false_iff in H as [H He].
  apply orb_false_iff in H as [Hd Hdot].
  split; [exact Hd|]. split.
  - destruct r; cbn [starts_fraction]; [reflexivity|]. rewrite Hdot. reflexivity.
  - destruct r; cbn [starts_exponent]; [reflexivity|]. rewrite He, HE. reflexivity.
Qed.

Lemma scan_natural_pos p rest :
  match rest with String c _ => is_digit c = false | EmptyString => True end ->
  scan_natural (NilEmpty.string_of_uint (Pos.to_uint p) +:+ rest) = Some (Z.pos p, rest).
Proof.
  intros Hrest. pose proof (to_uint_head p) as Hhd.
  pose proof (span_digits_uint (Pos.to_uint p) rest Hrest) as Hspan.
  pose proof (NilEmpty.usu (Pos.to_uint p)) as Husu.
  pose proof (of_uint_to_uint p) as Hof.
  destruct (Pos.to_uint p) as [|d|d|d|d|d|d|d|d|d|d]; try contradiction;
    cbn [NilEmpty.string_of_uint] in *; rewrite app_cons in *;
    unfold scan_natural; change (Ascii.eqb _ "0") with false;
    change (is_digit _) with true; cbn iota; rewrite Hspan, Husu, Hof; reflexivity.
Qed.

Lemma scan_number_encode n rest :
  value_end rest = true -> scan_number (encode_int n +:+ rest) = Some (JInt n, rest).
Proof.
  intros Hend. apply value_end_spec in Hend as (Hd & Hf & He).
  unfold encode_int. destruct n as [|p|p].
  - change (scan_number (String "0" rest) = Some (JInt 0, rest)).
    unfold scan_number. change (Ascii.eqb "0" "-") with false. cbn iota.
    unfold scan_natural. change (Ascii.eqb "0" "0") with true. cbn beta iota.
    rewrite Hf, He. reflexivity.
  - cbn [Z.to_int NilZero.string_of_int]. pose proof (to_uint_head p) as Hhd.
    pose proof (scan_natural_pos p rest Hd) as Hnat.
    destruct (Pos.to_uint p) as [|d|d|d|d|d|d|d|d|d|d]; try contradiction;
      cbn [NilZero.string_of_uint NilEmpty.string_of_uint] in *; rewrite app_cons in *;
      unfold scan_number; change (Ascii.eqb _ "-") with false; cbn iota;
      rewrite Hnat; cbn beta iota; rewrite Hf, He; reflexivity.
  - cbn [Z.to_int NilZero.string_of_int]. pose proof (to_uint_head p) as Hhd.
    pose proof (scan_natural_pos p rest Hd) as Hnat.
    rewrite app_cons. unfold scan_number. change (Ascii.eqb "-" "-") with true. cbn iota.
    assert (NilZero.string_of_uint (Pos.to_uint p) = NilEmpty.string_of_uint (Pos.to_uint p))
      as -> by (destruct (Pos.to_uint p); [contradiction|reflexivity..]).
    rewrite Hnat. cbn beta iota. rewrite Hf, He. reflexivity.
Qed.

(** The first character of an encoded integer. *)
Lemma encode_int_head n :
  exists c t, encode_int n = String c t /\ (c = "-"%char \/ is_digit c = true).
Proof.
  unfold encode_int. destruct n as [|p|p].
  - exists "0"%char, EmptyString. split; [reflexivity|right; reflexivity].
  - cbn [Z.to_int NilZero.string_of_int]. pose proof (to_uint_head p) as Hhd.
    destruct (Pos.to_uint p); try contradiction;
      eexists _, _; (split; [reflexivity|right; reflexivity]).
  - eexists _, _. split; [reflexivity|left; reflexivity].
Qed.

(** Induction on a value, with the hypothesis for every item. *)
Lemma value_ind' (P : value -> Prop) :
  P JNull -> (forall b, P (JBool b)) -> (forall n, P (JInt n)) -> (forall s, P (JStr s)) ->
  (forall items, Forall P items -> P (JArr items)) ->
  (forall members, Forall (fun kv => P (snd kv)) members -> P (JObj members)) ->
  forall v, P v.
Proof.
  intros Hnull Hbool Hint Hstr Harr Hobj. fix IH 1. intros [|b|n|s|items|members].
  - exact Hnull.
  - apply Hbool.
  - apply Hint.
  - apply Hstr.
  - apply Harr. induction items as [|x items IHitems].
    + apply List.Forall_nil.
    + apply List.Forall_cons; [apply IH|exact IHitems].
  - apply Hobj. induction members as [|[k x] members IHmembers].
    + apply List.Forall_nil.
    + apply List.Forall_cons; [apply IH|exact IHmembers].
Qed.

Lemma digit_opens_value c : is_digit c = true -> opens_value c.
Proof.
  destruct c as [[|] [|] [|] [|] [|] [|] [|] [|]]; try discriminate;
    intros _; repeat split; reflexivity.
Qed.

Lemma dump_head level v : exists c t, dump level v = String c t /\ opens_value c.
Proof.
  destruct v as [|[|]|n|s|[|x xs]|[|m ms]];
    try (eexists _, _; split; [reflexivity|repeat split; reflexivity]).
  destruct (encode_int_head n) as (c & t & E & [->|Hd]).
  - exists "-"%char, t. split; [exact E|repeat split; reflexivity].
  - exists c, t. split; [exact E|apply digit_opens_value, Hd].
Qed.

Lemma skip_ws_dump level v r : skip_ws (dump level v +:+ r) = dump level v +:+ r.
Proof.
  destruct (dump_head level v) as (c & t & -> & Hws & _).
  rewrite app_cons. apply skip_ws_head, Hws.
Qed.

Lemma join_cons2 sep x y l :
  PyStr.join sep (x :: y :: l) = x +:+ sep +:+ PyStr.join sep (y :: l).
Proof. reflexivity. Qed.

Lemma value_end_newline_indent level t : value_end (newline_indent level +:+ t) = true.
Proof. reflexivity. Qed.

Lemma value_end_separator level t : value_end (item_separator level +:+ t) = true.
Proof. reflexivity. Qed.

Lemma scan_elements_unfold f s :
  scan_elements (S f) s
  = match scan_once f s with
    | Some (v, r) =>
        match skip_ws r with
        | String c r1 =>
            if Ascii.eqb c "]" then Some ([v], r1)
            else if Ascii.eqb c "," then
              match scan_elements f (skip_ws r1) with
              | Some (items, rest) => Some (v :: items, rest)
              | None => None
              end
            else None
        | EmptyString => None
        end
    | None => None
    end.
Proof. reflexivity. Qed.

Lemma scan_elements_items level closing rest items :
  items <> [] -> Forall reads_back items ->
  forall fuel,
    (String.length (PyStr.join (item_separator level) (List.map (dump level) items)) + 1
     <= fuel)%nat ->
    scan_elements fuel
      (PyStr.join (item_separator level) (List.map (dump level) items)
       +:+ newline_indent closing +:+ "]" +:+ rest)
    = Some (items, rest).
Proof.
  induction items as [|x items IH]; [contradiction|]. intros _ Hall fuel Hfuel.
  apply Forall_cons in Hall as [Hx Hitems].
  destruct fuel as [|f]; [lia|]. rewrite scan_elements_unfold.
  destruct items as [|y items].
  - cbn [List.map PyStr.join] in *.
    rewrite (Hx f level) by (try apply value_end_newline_indent; lia).
    rewrite skip_ws_newline_indent. reflexivity.
  - cbn [List.map] in *. rewrite join_cons2 in *. rewrite !length_app in Hfuel.
    rewrite !app_assoc.
    rewrite (Hx f level) by (try apply value_end_separator; lia).
    unfold item_separator at 1. rewrite app_cons.
    rewrite skip_ws_head by reflexivity.
    change (Ascii.eqb "," "]") with false. change (Ascii.eqb "," ",") with true. cbn iota.
    rewrite skip_ws_newline_indent.
    assert (Hskip : forall r, skip_ws (PyStr.join (item_separator level)
                                 (dump level y :: List.map (dump level) items) +:+ r)
                    = PyStr.join (item_separator level)
                        (dump level y :: List.map (dump level) items) +:+ r).
    { intros r. destruct items; cbn [List.map PyStr.join].
      - apply skip_ws_dump.
      - rewrite !app_assoc. apply skip_ws_dump. }
    rewrite Hskip.
    rewrite (IH ltac:(discriminate) Hitems f); [reflexivity|].
    cbn [List.map]. cbn [String.length item_separator] in Hfuel. lia.
Qed.

Lemma scan_members_unfold f s :
  scan_members (S f) s
  = match scanstring s with
    | Some (key, r) =>
        match skip_ws r with
        | String c r1 =>
            if Ascii.eqb c ":" then
              match scan_once f (skip_ws r1) with
              | Some (v, r2) =>
                  match skip_ws r2 with
                  | String c2 r3 =>
                      if Ascii.eqb c2 "}" then Some ([(key, v)], r3)
                      else if Ascii.eqb c2 "," then
                        match skip_ws r3 with
                        | String c3 r4 =>
                            if Ascii.eqb c3 quote then
                              match scan_members f r4 with
                              | Some (pairs, rest) => Some ((key, v) :: pairs, rest)
                              | None => None
                              end
                            else None
                        | EmptyString => None
                        end
                      else None
                  | EmptyString => None
                  end
              | None => None
              end
            else None
        | EmptyString => None
        end
    | None => None
    end.
Proof. reflexivity. Qed.

Lemma string_cons_inj c a b : String c a = String c b -> a = b.
Proof. intros H. injection H as H. exact H. Qed.

(** The text of a member, after the quote that opens its key. *)
Lemma member_text_tail level k x r :
  encode_string k +:+ ": " +:+ dump level x +:+ r
  = String quote (escape k +:+ String quote (String ":" (String " " (dump level x +:+ r)))).
Proof.
  unfold encode_string. rewrite !app_cons, !app_assoc. reflexivity.
Qed.

Lemma scan_members_items level closing rest members :
  members <> [] -> Forall (fun kv => reads_back (snd kv)) members ->
  forall fuel tail,
    String quote tail
    = PyStr.join (item_separator level)
        (List.map (fun kv => let '(k, x) := kv in
                             encode_string k +:+ ": " +:+ dump level x) members)
      +:+ newline_indent closing +:+ "}" +:+ rest ->
    (String.length
       (PyStr.join (item_separator level)
          (List.map (fun kv => let '(k, x) := kv in
                               encode_string k +:+ ": " +:+ dump level x) members))
     <= fuel)%nat ->
    scan_members fuel tail = Some (members, rest).
Proof.
  induction members as [|[k x] members IH]; [contradiction|].
  intros _ Hall fuel tail Htail Hfuel.
  apply Forall_cons in Hall as [Hx Hmembers]. cbn [snd] in Hx.
  destruct members as [|[k' x'] members].
  - cbn [List.map PyStr.join] in Htail, Hfuel.
    rewrite !app_assoc, member_text_tail in Htail.
    apply string_cons_inj in Htail. subst tail.
    rewrite !length_app in Hfuel. unfold encode_string in Hfuel.
    cbn [String.length] in Hfuel.
    destruct fuel as [|f]; [lia|].
    rewrite scan_members_unfold, scanstring_escape.
    rewrite skip_ws_head by reflexivity.
    change (Ascii.eqb ":" ":") with true. cbv match.
    change (skip_ws (String " " ?t)) with (skip_ws t).
    rewrite skip_ws_dump.
    rewrite (Hx f level) by (try apply value_end_newline_indent; lia).
    rewrite skip_ws_newline_indent. reflexivity.
  - cbn [List.map] in Htail, Hfuel. rewrite join_cons2 in Htail, Hfuel.
    rewrite !app_assoc, member_text_tail in Htail.
    apply string_cons_inj in Htail. subst tail.
    rewrite !length_app in Hfuel. unfold encode_string in Hfuel.
    cbn [String.length item_separator] in Hfuel.
    destruct fuel as [|f]; [lia|].
    rewrite scan_members_unfold, scanstring_escape.
    rewrite skip_ws_head by reflexivity.
    change (Ascii.eqb ":" ":") with true. cbv match.
    change (skip_ws (String " " ?t)) with (skip_ws t).
    rewrite skip_ws_dump.
    rewrite (Hx f level) by (try apply value_end_separator; lia).
    unfold item_separator at 1. rewrite app_cons.
    rewrite skip_ws_head by reflexivity.
    change (Ascii.eqb "," "}") with false. change (Ascii.eqb "," ",") with true. cbv match.
    rewrite skip_ws_newline_indent.
    set (J := PyStr.join _ _) in *.
    assert (HJ : exists t, J +:+ newline_indent closing +:+ "}" +:+ rest = String quote t).
    { subst J. cbn [List.map]. destruct members as [|m members].
      - cbn [List.map PyStr.join]. rewrite !app_assoc, member_text_tail. eauto.
      - cbn [List.map]. rewrite join_cons2, !app_assoc, member_text_tail. eauto. }
    destruct HJ as (t & Ht). rewrite Ht.
    rewrite skip_ws_head by reflexivity.
    change (Ascii.eqb quote quote) with true. cbv match.
    rewrite (IH ltac:(discriminate) Hmembers f t); [reflexivity|symmetry; exact Ht|].
    fold J. lia.
Qed.

Lemma distinct_spec keys : distinct keys = true <-> NoDup keys.
Proof.
  induction keys as [|k keys IH]; cbn [distinct].
  - split; [intros _; apply NoDup_nil; exact I|reflexivity].
  - rewrite andb_true_iff, negb_true_iff, NoDup_cons, IH.
    split; intros [Hk Hrest]; (split; [|exact Hrest]).
    + intros Hin. apply list_elem_of_In, elem_spec in Hin. congruence.
    + destruct (PyStr.elem k keys) eqn:E; [|reflexivity].
      exfalso. apply Hk, list_elem_of_In, elem_spec, E.
Qed.

Lemma dict_set_fresh k v d : k ∉ List.map fst d -> dict_set k v d = d ++ [(k, v)].
Proof.
  induction d as [|[k' v'] d IH]; intros Hk; [reflexivity|].
  cbn [List.map fst] in Hk. apply not_elem_of_cons in Hk as [Hne Hk].
  cbn [dict_set]. destruct (String.eqb_spec k' k) as [->|_]; [contradiction|].
  rewrite (IH Hk). reflexivity.
Qed.

Lemma dict_of_pairs_from acc pairs :
  NoDup (List.map fst (acc ++ pairs)) ->
  fold_left (fun d kv => dict_set (fst kv) (snd kv) d) pairs acc = acc ++ pairs.
Proof.
  revert acc. induction pairs as [|[k v] pairs IH]; intros acc Hnd.
  - rewrite List.app_nil_r. reflexivity.
  - cbn [fold_left fst snd]. rewrite dict_set_fresh.
    + rewrite IH; rewrite <- List.app_assoc; [reflexivity|exact Hnd].
    + rewrite List.map_app in Hnd. apply NoDup_app in Hnd as (_ & Hdisj & _).
      intros Hin. apply (Hdisj k Hin). cbn [List.map fst]. apply elem_of_cons. left. reflexivity.
Qed.

Lemma dict_of_pairs_distinct pairs :
  distinct (List.map fst pairs) = true -> dict_of_pairs pairs = pairs.
Proof.
  intros H. apply distinct_spec in H. unfold dict_of_pairs.
  rewrite (dict_of_pairs_from [] pairs H). reflexivity.
Qed.

Lemma scan_once_number f c t :
  c = "-"%char \/ is_digit c = true ->
  scan_once (S f) (String c t) = scan_number (String c t).
Proof.
  destruct c as [[|] [|] [|] [|] [|] [|] [|] [|]]; intros [H|H]; try discriminate;
    reflexivity.
Qed.

Lemma scan_once_quote f r :
  scan_once (S f) (String quote r)
  = match scanstring r with
    | Some (t, rest) => Some (JStr t, rest)
    | None => None
    end.
Proof. reflexivity. Qed.

Lemma scan_once_bracket f r :
  scan_once (S f) (String "[" r)
  = match skip_ws r with
    | String c1 r1 =>
        if Ascii.eqb c1 "]" then Some (JArr [], r1)
        else
          match scan_elements f (String c1 r1) with
          | Some (items, rest) => Some (JArr items, rest)
          | None => None
          end
    | EmptyString => None
    end.
Proof. reflexivity. Qed.

Lemma scan_once_brace f r :
  scan_once (S f) (String "{" r)
  = match skip_ws r with
    | String c1 r1 =>
        if Ascii.eqb c1 "}" then Some (JObj [], r1)
        else if Ascii.eqb c1 quote then
          match scan_members f r1 with
          | Some (pairs, rest) => Some (JObj (dict_of_pairs pairs), rest)
          | None => None
          end
        else None
    | EmptyString => None
    end.
Proof. reflexivity. Qed.

Lemma dump_arr_cons level x xs :
  dump level (JArr (x :: xs))
  = String "[" (newline_indent (S level)
      +:+ PyStr.join (item_separator (S level)) (List.map (dump (S level)) (x :: xs))
      +:+ newline_indent level +:+ "]").
Proof. reflexivity. Qed.

Lemma dump_obj_cons level m ms :
  dump level (JObj (m :: ms))
  = String "{" (newline_indent (S level)
      +:+ PyStr.join (item_separator (S level))
            (List.map (fun kv => let '(k, x) := kv in
                                 encode_string k +:+ ": " +:+ dump (S level) x)
                      (m :: ms))
      +:+ newline_indent level +:+ "}").
Proof. reflexivity. Qed.

Lemma join_items_head level x xs r :
  exists c t,
    PyStr.join (item_separator level) (List.map (dump level) (x :: xs)) +:+ r = String c t
    /\ opens_value c.
Proof.
  destruct (dump_head level x) as (c & t & E & Hc).
  destruct xs as [|y xs]; cbn [List.map].
  - cbn [PyStr.join]. rewrite E, app_cons. eauto.
  - rewrite join_cons2, E, !app_cons. eauto.
Qed.

Lemma join_members_head level m ms r :
  exists t,
    PyStr.join (item_separator level)
      (List.map (fun kv => let '(k, x) := kv in
                           encode_string k +:+ ": " +:+ dump level x) (m :: ms)) +:+ r
    = String quote t.
Proof.
  destruct m as [k x]. destruct ms as [|m' ms]; cbn [List.map].
  - cbn [PyStr.join]. rewrite !app_assoc, member_text_tail. eauto.
  - rewrite join_cons2, !app_assoc, member_text_tail. eauto.
Qed.

(** Every value [json.load] can build is read back from its encoding. *)
Lemma scan_dump v : wf v = true -> reads_back v.
Proof.
  induction v as [|b|n|s|items IH|members IH] using value_ind';
    intros Hwf fuel level rest Hfuel Hend.
  - destruct fuel as [|f]; [cbn in Hfuel; lia|]. reflexivity.
  - destruct fuel as [|f]; [destruct b; cbn in Hfuel; lia|]. destruct b; reflexivity.
  - cbn [dump] in *. destruct (encode_int_head n) as (c & t & E & Hc).
    destruct fuel as [|f]; [rewrite E in Hfuel; cbn in Hfuel; lia|].
    rewrite <- (scan_number_encode n rest Hend). rewrite E, app_cons.
    apply scan_once_number, Hc.
  - cbn [dump] in *. destruct fuel as [|f]; [cbn in Hfuel; lia|].
    unfold encode_string. rewrite app_cons, app_assoc, scan_once_quote.
    rewrite app_cons, app_nil_l, scanstring_escape. reflexivity.
  - destruct items as [|x xs].
    + destruct fuel as [|f]; [cbn in Hfuel; lia|]. reflexivity.
    + rewrite dump_arr_cons in *. destruct fuel as [|f]; [cbn in Hfuel; lia|].
      cbn [String.length] in Hfuel. rewrite !length_app in Hfuel.
      rewrite app_cons, !app_assoc, scan_once_bracket, skip_ws_newline_indent.
      destruct (join_items_head (S level) x xs (newline_indent level +:+ "]" +:+ rest))
        as (c & t & E & Hws & Hb & _).
      rewrite E, (skip_ws_head _ _ Hws), Hb, <- E.
      rewrite (scan_elements_items (S level) level rest (x :: xs)); [reflexivity|discriminate| |].
      * change (forallb wf (x :: xs) = true) in Hwf.
        pose proof (proj1 (forallb_forall _ _) Hwf) as Hall.
        apply Forall_forall. intros y Hy. apply (proj1 (Forall_forall _ _) IH y Hy).
        apply Hall, list_elem_of_In, Hy.
      * cbn [String.length newline_indent] in Hfuel. lia.
  - destruct members as [|m ms].
    + destruct fuel as [|f]; [cbn in Hfuel; lia|]. reflexivity.
    + rewrite dump_obj_cons in *. destruct fuel as [|f]; [cbn in Hfuel; lia|].
      cbn [String.length] in Hfuel. rewrite !length_app in Hfuel.
      rewrite app_cons, !app_assoc, scan_once_brace, skip_ws_newline_indent.
      destruct (join_members_head (S level) m ms (newline_indent level +:+ "}" +:+ rest))
        as (t & E).
      rewrite E, skip_ws_head by reflexivity.
      change (Ascii.eqb quote "}") with false. change (Ascii.eqb quote quote) with true.
      cbv match.
      change (distinct (List.map fst (m :: ms))
              && forallb (fun kv => let '(_, y) := kv in wf y) (m :: ms) = true) in Hwf.
      apply andb_true_iff in Hwf as [Hkeys Hvals].
      rewrite (scan_members_items (S level) level rest (m :: ms)).
      * rewrite (dict_of_pairs_distinct _ Hkeys). reflexivity.
      * discriminate.
      * pose proof (proj1 (forallb_forall _ _) Hvals) as Hall.
        apply Forall_forall. intros [k y] Hy. cbn [snd].
        apply (proj1 (Forall_forall _ _) IH (k, y) Hy).
        apply (Hall (k, y)), list_elem_of_In, Hy.
      * symmetry. exact E.
      * lia.
Qed.

(** [json.loads] after [json.dumps]. *)
Lemma loads_dumps v : wf v = true -> loads (dumps v) = Some v.
Proof.
  intros Hwf. unfold loads, dumps.
  pose proof (skip_ws_dump 0 v EmptyString) as Hskip. rewrite app_nil_r in Hskip.
  rewrite Hskip.
  pose proof (scan_dump v Hwf (fuel_for (dump 0 v)) 0%nat EmptyString) as Hscan.
  rewrite app_nil_r in Hscan. rewrite Hscan; [reflexivity| |reflexivity].
  unfold fuel_for. lia.
Qed.

(** *** What the decoder builds is well formed *)

Lemma dict_set_keys k v d x :
  x ∈ List.map fst (dict_set k v d) <-> x = k \/ x ∈ List.map fst d.
Proof.
  induction d as [|[k' v'] d IH]; cbn [dict_set List.map fst].
  - rewrite list_elem_of_singleton. split; [auto|]. intros [H|H]; [exact H|].
    apply elem_of_nil in H. contradiction.
  - destruct (String.eqb_spec k' k) as [->|Hne]; cbn [List.map fst].
    + rewrite elem_of_cons. tauto.
    + rewrite !elem_of_cons, IH. tauto.
Qed.

Lemma dict_set_nodup k v d :
  NoDup (List.map fst d) -> NoDup (List.map fst (dict_set k v d)).
Proof.
  induction d as [|[k' v'] d IH]; cbn [dict_set List.map fst]; intros Hnd.
  - apply NoDup_singleton.
  - apply NoDup_cons in Hnd as [Hk' Hnd].
    destruct (String.eqb_spec k' k) as [->|Hne]; cbn [List.map fst].
    + apply NoDup_cons. split; assumption.
    + apply NoDup_cons. split; [|apply IH, Hnd].
      rewrite dict_set_keys. intros [->|H]; [apply Hne; reflexivity|contradiction].
Qed.

Lemma dict_set_values (P : value -> Prop) k v d :
  P v -> Forall (fun kv => P (snd kv)) d -> Forall (fun kv => P (snd kv)) (dict_set k v d).
Proof.
  intros Hv. induction d as [|[k' v'] d IH]; cbn [dict_set]; intros Hd.
  - apply Forall_cons. split; [exact Hv|apply Forall_nil; exact I].
  - apply Forall_cons in Hd as [Hv' Hd].
    destruct (String.eqb k' k); apply Forall_cons; split; auto.
Qed.

Lemma dict_of_pairs_wf pairs :
  Forall (fun kv => wf (snd kv) = true) pairs -> wf (JObj (dict_of_pairs pairs)) = true.
Proof.
  intros Hpairs.
  assert (Hinv : forall acc,
    NoDup (List.map fst acc) -> Forall (fun kv => wf (snd kv) = true) acc ->
    let d := fold_left (fun d kv => dict_set (fst kv) (snd kv) d) pairs acc in
    NoDup (List.map fst d) /\ Forall (fun kv => wf (snd kv) = true) d).
  { induction pairs as [|[k v] pairs IH]; intros acc Hnd Hacc; [split; assumption|].
    apply Forall_cons in Hpairs as [Hv Hpairs]. cbn [fold_left fst snd].
    apply (IH Hpairs).
    - apply dict_set_nodup, Hnd.
    - apply (dict_set_values (fun x => wf x = true)); assumption. }
  destruct (Hinv [] ltac:(apply NoDup_nil; exact I) ltac:(apply Forall_nil; exact I))
    as [Hnd Hvals].
  fold (dict_of_pairs pairs) in Hnd, Hvals.
  change (distinct (List.map fst (dict_of_pairs pairs))
          && forallb (fun kv => let '(_, y) := kv in wf y) (dict_of_pairs pairs) = true).
  apply andb_true_iff. split; [apply distinct_spec, Hnd|].
  apply forallb_forall. intros [k y] Hin.
  apply (proj1 (Forall_forall _ _) Hvals (k, y)), list_elem_of_In, Hin.
Qed.

Lemma scan_number_wf s v r : scan_number s = Some (v, r) -> wf v = true.
Proof.
  unfold scan_number.
  destruct (match s with
            | EmptyString => (false, s)
            | String c r0 => if Ascii.eqb c "-" then (true, r0) else (false, s)
            end) as [negative body].
  destruct (scan_natural body) as [[n rest]|]; [|discriminate].
  destruct (starts_fraction rest || starts_exponent rest); [discriminate|].
  intros H. injection H as <- _. reflexivity.
Qed.

Lemma scan_once_unfold f c r :
  scan_once (S f) (String c r)
  = if Ascii.eqb c quote then
      match scanstring r with
      | Some (t, rest) => Some (JStr t, rest)
      | None => None
      end
    else if Ascii.eqb c "{" then
      match skip_ws r with
      | String c1 r1 =>
          if Ascii.eqb c1 "}" then Some (JObj [], r1)
          else if Ascii.eqb c1 quote then
            match scan_members f r1 with
            | Some (pairs, rest) => Some (JObj (dict_of_pairs pairs), rest)
            | None => None
            end
          else None
      | EmptyString => None
      end
    else if Ascii.eqb c "[" then
      match skip_ws r with
      | String c1 r1 =>
          if Ascii.eqb c1 "]" then Some (JArr [], r1)
          else
            match scan_elements f (String c1 r1) with
            | Some (items, rest) => Some (JArr items, rest)
            | None => None
            end
      | EmptyString => None
      end
    else if PyStr.startswith (String c r) "null" then Some (JNull, PyStr.drop 4 (String c r))
    else if PyStr.startswith (String c r) "true"
         then Some (JBool true, PyStr.drop 4 (String c r))
    else if PyStr.startswith (String c r) "false"
         then Some (JBool false, PyStr.drop 5 (String c r))
    else scan_number (String c r).
Proof. reflexivity. Qed.

Lemma scan_wf fuel :
  (forall s v r, scan_once fuel s = Some (v, r) -> wf v = true)
  /\ (forall s items r, scan_elements fuel s = Some (items, r) ->
                         Forall (fun x => wf x = true) items)
  /\ (forall s pairs r, scan_members fuel s = Some (pairs, r) ->
                         Forall (fun kv => wf (snd kv) = true) pairs).
Proof.
  induction fuel as [|f (IHonce & IHelems & IHmembers)];
    [repeat split; intros; discriminate|].
  split; [|split].
  - intros [|c r0] v r; [discriminate|]. rewrite scan_once_unfold.
    destruct (Ascii.eqb c quote).
    { destruct (scanstring r0) as [[t rest]|]; [|discriminate].
      intros H. injection H as <- _. reflexivity. }
    destruct (Ascii.eqb c "{").
    { destruct (skip_ws r0) as [|c1 r1]; [discriminate|].
      destruct (Ascii.eqb c1 "}"); [intros H; injection H as <- _; reflexivity|].
      destruct (Ascii.eqb c1 quote); [|discriminate].
      destruct (scan_members f r1) as [[pairs rest]|] eqn:E; [|discriminate].
      intros H. injection H as <- _. apply dict_of_pairs_wf, (IHmembers _ _ _ E). }
    destruct (Ascii.eqb c "[").
    { destruct (skip_ws r0) as [|c1 r1]; [discriminate|].
      destruct (Ascii.eqb c1 "]"); [intros H; injection H as <- _; reflexivity|].
      destruct (scan_elements f (String c1 r1)) as [[items rest]|] eqn:E; [|discriminate].
      intros H. injection H as <- _.
      change (forallb wf items = true). apply forallb_forall. intros x Hx.
      apply (proj1 (Forall_forall _ _) (IHelems _ _ _ E) x), list_elem_of_In, Hx. }
    destruct (PyStr.startswith (String c r0) "null");
      [intros H; injection H as <- _; reflexivity|].
    destruct (PyStr.startswith (String c r0) "true");
      [intros H; injection H as <- _; reflexivity|].
    destruct (PyStr.startswith (String c r0) "false");
      [intros H; injection H as <- _; reflexivity|].
    apply scan_number_wf.
  - intros s items r. rewrite scan_elements_unfold.
    destruct (scan_once f s) as [[v r1]|] eqn:E; [|discriminate].
    destruct (skip_ws r1) as [|c r2]; [discriminate|].
    destruct (Ascii.eqb c "]").
    { intros H. injection H as <- _. apply Forall_cons. split; [apply (IHonce _ _ _ E)|].
      apply Forall_nil. exact I. }
    destruct (Ascii.eqb c ","); [|discriminate].
    destruct (scan_elements f (skip_ws r2)) as [[items' rest]|] eqn:E'; [|discriminate].
    intros H. injection H as <- _. apply Forall_cons.
    split; [apply (IHonce _ _ _ E)|apply (IHelems _ _ _ E')].
  - intros s pairs r. rewrite scan_members_unfold.
    destruct (scanstring s) as [[key r1]|]; [|discriminate].
    destruct (skip_ws r1) as [|c r2]; [discriminate|].
    destruct (Ascii.eqb c ":"); [|discriminate].
    destruct (scan_once f (skip_ws r2)) as [[v r3]|] eqn:E; [|discriminate].
    destruct (skip_ws r3) as [|c2 r4]; [discriminate|].
    destruct (Ascii.eqb c2 "}").
    { intros H. injection H as <- _. apply Forall_cons. split; [apply (IHonce _ _ _ E)|].
      apply Forall_nil. exact I. }
    destruct (Ascii.eqb c2 ","); [|discriminate].
    destruct (skip_ws r4) as [|c3 r5]; [discriminate|].
    destruct (Ascii.eqb c3 quote); [|discriminate].
    destruct (scan_members f r5) as [[pairs' rest]|] eqn:E'; [|discriminate].
    intros H. injection H as <- _. apply Forall_cons.
    split; [apply (IHonce _ _ _ E)|apply (IHmembers _ _ _ E')].
Qed.

Lemma loads_wf s v : loads s = Some v -> wf v = true.
Proof.
  unfold loads. destruct (scan_once (fuel_for s) (skip_ws s)) as [[v' rest]|] eqn:E;
    [|discriminate].
  destruct (skip_ws rest); [|discriminate]. intros H. injection H as <-.
  apply (proj1 (scan_wf _) _ _ _ E).
Qed.

(** *** The fuel of [loads] is enough

    Every call consumes a character before the next call of its kind, so
    a fuel of twice the length of the text is never exhausted: with more
    fuel the decoder returns the same. *)

Lemma skip_ws_length s : (String.length (skip_ws s) <= String.length s)%nat.
Proof.
  induction s as [|c r IH]; [reflexivity|].
  cbn [skip_ws]. destruct (is_ws c); cbn [String.length]; lia.
Qed.

Lemma scanstring_unfold c r :
  scanstring (String c r)
  = if Ascii.eqb c quote then Some (EmptyString, r)
    else if Ascii.eqb c backslash then
      match r with
      | EmptyString => None
      | String e r1 =>
          if Ascii.eqb e "u" then
            match r1 with
            | String h1 (String h2 (String h3 (String h4 r2))) =>
                match hex4 h1 h2 h3 h4 with
                | Some n =>
                    if (n <? 256)%nat then
                      match scanstring r2 with
                      | Some (t, rest) => Some (String (ascii_of_nat n) t, rest)
                      | None => None
                      end
                    else None
                | None => None
                end
            | _ => None
            end
          else
            match unescape e with
            | Some ch =>
                match scanstring r1 with
                | Some (t, rest) => Some (String ch t, rest)
                | None => None
                end
            | None => None
            end
      end
    else if (nat_of_ascii c <? 32)%nat then None
    else
      match scanstring r with
      | Some (t, rest) => Some (String c t, rest)
      | None => None
      end.
Proof. reflexivity. Qed.

Lemma scanstring_shorter n s t r :
  (String.length s <= n)%nat -> scanstring s = Some (t, r) ->
  (String.length r < String.length s)%nat.
Proof.
  revert s t r. induction n as [|n IH]; intros [|c r0] t r Hn; try discriminate.
  - cbn in Hn. lia.
  - cbn [String.length] in Hn. rewrite scanstring_unfold.
    destruct (Ascii.eqb c quote).
    { intros H. injection H as _ <-. cbn [String.length]. lia. }
    destruct (Ascii.eqb c backslash).
    { destruct r0 as [|e r1]; [discriminate|]. cbn [String.length] in *.
      destruct (Ascii.eqb e "u").
      - destruct r1 as [|h1 [|h2 [|h3 [|h4 r2]]]]; try discriminate.
        cbn [String.length] in *.
        destruct (hex4 h1 h2 h3 h4) as [k|]; [|discriminate].
        destruct (k <? 256)%nat; [|discriminate].
        destruct (scanstring r2) as [[t' rest]|] eqn:E; [|discriminate].
        intros H. injection H as _ <-. apply IH in E; lia.
      - destruct (unescape e); [|discriminate].
        destruct (scanstring r1) as [[t' rest]|] eqn:E; [|discriminate].
        intros H. injection H as _ <-. apply IH in E; lia. }
    destruct (nat_of_ascii c <? 32)%nat; [discriminate|].
    destruct (scanstring r0) as [[t' rest]|] eqn:E; [|discriminate].
    intros H. injection H as _ <-. apply IH in E; cbn [String.length]; lia.
Qed.

Lemma span_digits_length s :
  (String.length (snd (span_digits s)) <= String.length s)%nat.
Proof.
  induction s as [|c r IH]; [reflexivity|].
  cbn [span_digits]. destruct (is_digit c); [|reflexivity].
  destruct (span_digits r) as [ds rest]. cbn [snd String.length] in *. lia.
Qed.

Lemma scan_natural_shorter s n r :
  scan_natural s = Some (n, r) -> (String.length r < String.length s)%nat.
Proof.
  unfold scan_natural. destruct s as [|c r0]; [discriminate|].
  destruct (Ascii.eqb c "0").
  { intros H. injection H as _ <-. cbn [String.length]. lia. }
  destruct (is_digit c) eqn:Hd; [|discriminate].
  pose proof (span_digits_length r0) as Hlen.
  cbn [span_digits]. rewrite Hd. destruct (span_digits r0) as [ds rest].
  cbn [snd] in Hlen. destruct (NilEmpty.uint_of_string (String c ds)); [|discriminate].
  intros H. injection H as _ <-. cbn [String.length]. lia.
Qed.

Lemma scan_number_shorter s v r :
  scan_number s = Some (v, r) -> (String.length r < String.length s)%nat.
Proof.
  unfold scan_number.
  assert (Hbody : forall (negative : bool) (body : string),
    (String.length body <= String.length s)%nat ->
    match scan_natural body with
    | Some (n, rest) =>
        if starts_fraction rest || starts_exponent rest then None
        else Some (JInt (if negative then - n else n), rest)
    | None => None
    end = Some (v, r) -> (String.length r < String.length s)%nat).
  { intros negative body Hlen. destruct (scan_natural body) as [[n rest]|] eqn:E;
      [|discriminate].
    apply scan_natural_shorter in E.
    destruct (starts_fraction rest || starts_exponent rest); [discriminate|].
    intros H. injection H as _ <-. lia. }
  destruct s as [|c r0]; [exact (Hbody false EmptyString (Nat.le_refl _))|].
  destruct (Ascii.eqb c "-").
  - apply (Hbody true r0). cbn [String.length]. lia.
  - apply (Hbody false (String c r0)). lia.
Qed.

Lemma drop_length n s : (String.length (PyStr.drop n s) <= String.length s)%nat.
Proof.
  revert s. induction n as [|n IH]; intros [|c r]; cbn [PyStr.drop String.length]; try lia.
  specialize (IH r). lia.
Qed.

Lemma some_pair_snd {A B : Type} (a a' : A) (b b' : B) :
  Some (a, b) = Some (a', b') -> b = b'.
Proof. intros H. injection H as _ H. exact H. Qed.

(** What follows a scanned value is shorter than the text scanned. *)
Lemma scan_shorter fuel :
  (forall s v r, scan_once fuel s = Some (v, r) ->
                 (String.length r < String.length s)%nat)
  /\ (forall s items r, scan_elements fuel s = Some (items, r) ->
                         (String.length r < String.length s)%nat)
  /\ (forall s pairs r, scan_members fuel s = Some (pairs, r) ->
                         (String.length r < String.length s)%nat).
Proof.
  induction fuel as [|f (IHonce & IHelems & IHmembers)];
    [repeat split; intros; discriminate|].
  split; [|split].
  - intros [|c r0] v r; [discriminate|]. rewrite scan_once_unfold.
    cbn [String.length]. pose proof (skip_ws_length r0) as Hws.
    destruct (Ascii.eqb c quote).
    { destruct (scanstring r0) as [[t rest]|] eqn:E; [|discriminate].
      intros H. injection H as _ <-. apply (scanstring_shorter _ _ _ _ (Nat.le_refl _)) in E. lia. }
    destruct (Ascii.eqb c "{").
    { destruct (skip_ws r0) as [|c1 r1]; [discriminate|]. cbn [String.length] in Hws.
      destruct (Ascii.eqb c1 "}"); [intros H; injection H as _ <-; lia|].
      destruct (Ascii.eqb c1 quote); [|discriminate].
      destruct (scan_members f r1) as [[pairs rest]|] eqn:E; [|discriminate].
      intros H. injection H as _ <-. apply IHmembers in E. lia. }
    destruct (Ascii.eqb c "[").
    { destruct (skip_ws r0) as [|c1 r1]; [discriminate|]. cbn [String.length] in Hws.
      destruct (Ascii.eqb c1 "]"); [intros H; injection H as _ <-; lia|].
      destruct (scan_elements f (String c1 r1)) as [[items rest]|] eqn:E; [|discriminate].
      intros H. injection H as _ <-. apply IHelems in E. cbn [String.length] in E. lia. }
    pose proof (drop_length 3 r0) as Hd3. pose proof (drop_length 4 r0) as Hd4.
    change (PyStr.drop 4 (String c r0)) with (PyStr.drop 3 r0).
    change (PyStr.drop 5 (String c r0)) with (PyStr.drop 4 r0).
    destruct (PyStr.startswith (String c r0) "null");
      [intros H; apply some_pair_snd in H; subst r; lia|].
    destruct (PyStr.startswith (String c r0) "true");
      [intros H; apply some_pair_snd in H; subst r; lia|].
    destruct (PyStr.startswith (String c r0) "false");
      [intros H; apply some_pair_snd in H; subst r; lia|].
    intros H. apply scan_number_shorter in H. cbn [String.length] in H. lia.
  - intros s items r. rewrite scan_elements_unfold.
    destruct (scan_once f s) as [[v r1]|] eqn:E; [|discriminate]. apply IHonce in E.
    pose proof (skip_ws_length r1) as Hws.
    destruct (skip_ws r1) as [|c r2]; [discriminate|]. cbn [String.length] in Hws.
    destruct (Ascii.eqb c "]"); [intros H; injection H as _ <-; lia|].
    destruct (Ascii.eqb c ","); [|discriminate].
    pose proof (skip_ws_length r2) as Hws2.
    destruct (scan_elements f (skip_ws r2)) as [[items' rest]|] eqn:E'; [|discriminate].
    intros H. injection H as _ <-. apply IHelems in E'. lia.
  - intros s pairs r. rewrite scan_members_unfold.
    destruct (scanstring s) as [[key r1]|] eqn:Ek; [|discriminate].
    apply (scanstring_shorter _ _ _ _ (Nat.le_refl _)) in Ek.
    pose proof (skip_ws_length r1) as Hws1.
    destruct (skip_ws r1) as [|c r2]; [discriminate|]. cbn [String.length] in Hws1.
    destruct (Ascii.eqb c ":"); [|discriminate].
    pose proof (skip_ws_length r2) as Hws2.
    destruct (scan_once f (skip_ws r2)) as [[v r3]|] eqn:E; [|discriminate].
    apply IHonce in E. pose proof (skip_ws_length r3) as Hws3.
    destruct (skip_ws r3) as [|c2 r4]; [discriminate|]. cbn [String.length] in Hws3.
    destruct (Ascii.eqb c2 "}"); [intros H; injection H as _ <-; lia|].
    destruct (Ascii.eqb c2 ","); [|discriminate].
    pose proof (skip_ws_length r4) as Hws4.
    destruct (skip_ws r4) as [|c3 r5]; [discriminate|]. cbn [String.length] in Hws4.
    destruct (Ascii.eqb c3 quote); [|discriminate].
    destruct (scan_members f r5) as [[pairs' rest]|] eqn:E'; [|discriminate].
    intros H. injection H as _ <-. apply IHmembers in E'. lia.
Qed.

(** With a fuel of twice the length of the text, more fuel changes
    nothing. *)
Lemma scan_stable f1 :
  forall f2,
    (forall s, (2 * String.length s + 1 <= f1)%nat -> (2 * String.length s + 1 <= f2)%nat ->
               scan_once f1 s = scan_once f2 s)
    /\ (forall s, (2 * String.length s + 2 <= f1)%nat ->
                   (2 * String.length s + 2 <= f2)%nat ->
                   scan_elements f1 s = scan_elements f2 s)
    /\ (forall s, (2 * String.length s + 2 <= f1)%nat ->
                   (2 * String.length s + 2 <= f2)%nat ->
                   scan_members f1 s = scan_members f2 s).
Proof.
  induction f1 as [|f IH]; intros f2; [repeat split; intros; lia|].
  destruct f2 as [|g]; [repeat split; intros; lia|].
  destruct (IH g) as (IHonce & IHelems & IHmembers).
  destruct (scan_shorter g) as (Sonce & _ & _).
  split; [|split].
  - intros [|c r0] H1 H2; [reflexivity|]. rewrite !scan_once_unfold.
    cbn [String.length] in H1, H2. pose proof (skip_ws_length r0) as Hws.
    destruct (Ascii.eqb c quote); [reflexivity|].
    destruct (Ascii.eqb c "{").
    { destruct (skip_ws r0) as [|c1 r1]; [reflexivity|]. cbn [String.length] in Hws.
      destruct (Ascii.eqb c1 "}"); [reflexivity|].
      destruct (Ascii.eqb c1 quote); [|reflexivity].
      rewrite (IHmembers r1) by lia. reflexivity. }
    destruct (Ascii.eqb c "["); [|reflexivity].
    destruct (skip_ws r0) as [|c1 r1]; [reflexivity|].
    destruct (Ascii.eqb c1 "]"); [reflexivity|].
    rewrite (IHelems (String c1 r1)) by lia. reflexivity.
  - intros s H1 H2. rewrite !scan_elements_unfold.
    rewrite (IHonce s) by lia.
    destruct (scan_once g s) as [[v r1]|] eqn:E; [|reflexivity]. apply Sonce in E.
    pose proof (skip_ws_length r1) as Hws.
    destruct (skip_ws r1) as [|c r2]; [reflexivity|]. cbn [String.length] in Hws.
    destruct (Ascii.eqb c "]"); [reflexivity|].
    destruct (Ascii.eqb c ","); [|reflexivity].
    pose proof (skip_ws_length r2) as Hws2.
    rewrite (IHelems (skip_ws r2)) by lia. reflexivity.
  - intros s H1 H2. rewrite !scan_members_unfold.
    destruct (scanstring s) as [[key r1]|] eqn:Ek; [|reflexivity].
    apply (scanstring_shorter _ _ _ _ (Nat.le_refl _)) in Ek.
    pose proof (skip_ws_length r1) as Hws1.
    destruct (skip_ws r1) as [|c r2]; [reflexivity|]. cbn [String.length] in Hws1.
    destruct (Ascii.eqb c ":"); [|reflexivity].
    pose proof (skip_ws_length r2) as Hws2.
    rewrite (IHonce (skip_ws r2)) by lia.
    destruct (scan_once g (skip_ws r2)) as [[v r3]|] eqn:E; [|reflexivity].
    apply Sonce in E. pose proof (skip_ws_length r3) as Hws3.
    destruct (skip_ws r3) as [|c2 r4]; [reflexivity|]. cbn [String.length] in Hws3.
    destruct (Ascii.eqb c2 "}"); [reflexivity|].
    destruct (Ascii.eqb c2 ","); [|reflexivity].
    pose proof (skip_ws_length r4) as Hws4.
    destruct (skip_ws r4) as [|c3 r5]; [reflexivity|]. cbn [String.length] in Hws4.
    destruct (Ascii.eqb c3 quote); [|reflexivity].
    rewrite (IHmembers r5) by lia. reflexivity.
Qed.

(** The fuel [loads] takes is enough: any larger fuel gives the same
    value, or the same failure. *)
Lemma loads_fuel_enough s fuel :
  (fuel_for s <= fuel)%nat ->
  scan_once fuel (skip_ws s) = scan_once (fuel_for s) (skip_ws s).
Proof.
  intros Hfuel. pose proof (skip_ws_length s) as Hws. unfold fuel_for in *.
  apply (proj1 (scan_stable fuel _)); lia.
Qed.

End JsonFacts.

(** ** The results document *)

Lemma wf_strings l : Json.wf (Json.JArr (map Json.JStr l)) = true.
Proof. induction l as [|x l IH]; [reflexivity|exact IH]. Qed.

Lemma wf_result r : Json.wf (result_to_json r) = true.
Proof.
  unfold result_to_json.
  change (Json.wf (Json.JArr (map Json.JStr (r_warnings r)))
          && (Json.wf (Json.JArr (map Json.JStr (r_errors r))) && true) = true).
  rewrite !wf_strings. reflexivity.
Qed.

Lemma wf_append records x :
  Json.wf (Json.JArr records) = true -> Json.wf x = true ->
  Json.wf (Json.JArr (records ++ [x])) = true.
Proof.
  intros Hrecords Hx. change (forallb Json.wf (records ++ [x]) = true).
  rewrite forallb_app. change (forallb Json.wf records = true) in Hrecords.
  rewrite Hrecords. cbn [forallb]. rewrite Hx. reflexivity.
Qed.

(** What [existing_results] returns is well formed. *)
Lemma existing_results_wf results_file fs :
  Json.wf (existing_results results_file fs) = true.
Proof.
  unfold existing_results. destruct (fs !! results_file) as [text|]; [|reflexivity].
  destruct (Json.loads text) as [v|] eqn:E; [|reflexivity]. apply (loads_wf _ _ E).
Qed.

(** A successful call: the list that was extended and the text written. *)
Lemma run_usdchecker_returns stdout_str stderr_str file results_file fs r fs' :
  run_usdchecker stdout_str stderr_str file results_file fs = (Return r, fs') ->
  exists records,
    existing_results results_file fs = Json.JArr records
    /\ r = diagnose file stdout_str stderr_str
    /\ fs' = <[results_file := Json.dumps (Json.JArr (records ++ [result_to_json r]))]> fs.
Proof.
  unfold run_usdchecker.
  destruct (existing_results results_file fs) as [| | | |records|]; try discriminate.
  intros H. injection H as <- <-. exists records. auto.
Qed.

(** C10: when the results document decodes to an array, the call returns
    the new record and leaves a document that decodes to the former
    records, in their order, followed by the new record; no other file
    changes. *)
Theorem C10_results_document_appended
    (stdout_str stderr_str file results_file : string) (fs : gmap string string)
    (old : string) (records : list Json.value) :
  fs !! results_file = Some old ->
  Json.loads old = Some (Json.JArr records) ->
  let r := diagnose file stdout_str stderr_str in
  let out := run_usdchecker stdout_str stderr_str file results_file fs in
  fst out = Return r
  /\ (exists new, snd out !! results_file = Some new
                  /\ Json.loads new = Some (Json.JArr (records ++ [result_to_json r])))
  /\ (forall path, path <> results_file -> snd out !! path = fs !! path).
Proof.
  intros Hold Hloads r out. subst out. unfold run_usdchecker, existing_results.
  rewrite Hold, Hloads. cbn [fst snd]. split; [reflexivity|]. split.
  - eexists. split; [apply lookup_insert_eq|].
    apply loads_dumps, wf_append; [apply (loads_wf _ _ Hloads)|apply wf_result].
  - intros path Hpath. apply lookup_insert_ne. congruence.
Qed.

(** C3: the document a call writes is one JSON array, the records so far
    with the new one at the end; read one record per line, as the baseline
    comparison reads, it does not decode: its first line is the opening
    bracket alone. *)
Theorem C3_written_array_not_read_per_line
    (stdout_str stderr_str file results_file : string) (fs fs' : gmap string string)
    (r : DiagnosticResult) :
  run_usdchecker stdout_str stderr_str file results_file fs = (Return r, fs') ->
  exists text records,
    fs' !! results_file = Some text
    /\ Json.loads text = Some (Json.JArr (records ++ [result_to_json r]))
    /\ load_baseline text = None.
Proof.
  intros Hrun. destruct (run_usdchecker_returns _ _ _ _ _ _ _ Hrun) as (records & He & _ & ->).
  exists (Json.dumps (Json.JArr (records ++ [result_to_json r]))), records.
  split; [apply lookup_insert_eq|]. split.
  - apply loads_dumps, wf_append; [|apply wf_result].
    rewrite <- He. apply existing_results_wf.
  - unfold Json.dumps. destruct records as [|x records]; cbn [app]; rewrite dump_arr_cons;
      reflexivity.
Qed.

Lemma C3_written_array_not_read_per_line_witness :
  exists text,
    snd (run_usdchecker (fst (cube_usdchecker cube_converted_path)) EmptyString
           cube_converted_path "results.json" ∅) !! "results.json" = Some text
    /\ load_baseline text = None.
Proof.
  assert (Hrun : run_usdchecker (fst (cube_usdchecker cube_converted_path)) EmptyString
                   cube_converted_path "results.json" ∅
                 = (Return (diagnose cube_converted_path
                              (fst (cube_usdchecker cube_converted_path)) EmptyString),
                    snd (run_usdchecker (fst (cube_usdchecker cube_converted_path))
                           EmptyString cube_converted_path "results.json" ∅))).
  { unfold run_usdchecker, existing_results. rewrite lookup_empty. reflexivity. }
  destruct (C3_written_array_not_read_per_line _ _ _ _ _ _ _ Hrun)
    as (text & records & Hfile & _ & Hread).
  exists text. split; [exact Hfile|exact Hread].
Defined.

Lemma C10_results_document_appended_witness :
  let first := run_usdchecker "Success!" EmptyString "/a/b/c/one.usd" "results.json" ∅ in
  let second := run_usdchecker (fst (cube_usdchecker cube_converted_path)) EmptyString
                  cube_converted_path "results.json" (snd first) in
  exists new,
    snd second !! "results.json" = Some new
    /\ Json.loads new
       = Some (Json.JArr
                 [result_to_json (diagnose "/a/b/c/one.usd" "Success!" EmptyString);
                  result_to_json (diagnose cube_converted_path
                                    (fst (cube_usdchecker cube_converted_path))
                                    EmptyString)]).
Proof.
  intros first second.
  destruct (C10_results_document_appended
              (fst (cube_usdchecker cube_converted_path)) EmptyString
              cube_converted_path "results.json" (snd first)
              (Json.dumps (Json.JArr
                 [result_to_json (diagnose "/a/b/c/one.usd" "Success!" EmptyString)]))
              [result_to_json (diagnose "/a/b/c/one.usd" "Success!" EmptyString)])
    as (_ & Hnew & _).
  - apply lookup_insert_eq.
  - apply loads_dumps. vm_compute. reflexivity.
  - exact Hnew.
Defined.

(** ** The baseline comparison *)

(** The verdict of the gate depends on the two error counts only. *)
Lemma regression_gate_verdict results baseline_result bw be :
  count_of baseline_result "warnings" = Return bw ->
  count_of baseline_result "errors" = Return be ->
  fst (regression_gate results baseline_result)
  = if Z.of_nat (length (r_errors results)) <=? be then Return tt
    else Raise (AssertionError msg_errors_increased).
Proof.
  intros Hw He. unfold regression_gate. rewrite Hw, He.
  destruct (Z.of_nat (length (r_errors results)) <=? be); reflexivity.
Qed.

Lemma regression_gate_logs_warnings results baseline_result bw be :
  count_of baseline_result "warnings" = Return bw ->
  count_of baseline_result "errors" = Return be ->
  Z.of_nat (length (r_warnings results)) <> bw ->
  In (LInfo, Msg ("Warning count changed: " +:+ decimal bw +:+ " -> "
                  +:+ decimal (Z.of_nat (length (r_warnings results)))))
     (snd (regression_gate results baseline_result)).
Proof.
  intros Hw He Hne. unfold regression_gate. rewrite Hw, He.
  destruct (Z.eqb_spec (Z.of_nat (length (r_warnings results))) bw) as [E|_];
    [contradiction|].
  cbn [negb]. destruct (Z.of_nat (length (r_errors results)) <=? be);
    cbn [snd]; apply in_or_app; left; left; reflexivity.
Qed.

(** The count of a field of an entry that holds a list: its length. *)
Lemma count_of_list members k items :
  Json.dict_get members k = Some (Json.JArr items) ->
  count_of (Json.JObj members) k = Return (Z.of_nat (length items)).
Proof. intros Hget. unfold count_of. rewrite Hget. reflexivity. Qed.

(** C2: for a current result and the baseline entry the lookup matched it
    with, an entry whose ['warnings'] and ['errors'] are lists, the
    comparison fails, with the assertion on the error counts, exactly when
    the current record has more errors than the list of errors of the
    entry has elements, and it returns exactly when it has at most as
    many; a warning count that differs from the length of the list of
    warnings of the entry is logged and does not change the verdict. *)
Theorem C2_gate_fails_iff_errors_increase
    (results : DiagnosticResult) (baseline_results : list Json.value)
    (input_path : string) (members : list (string * Json.value))
    (baseline_warnings baseline_errors : list Json.value) :
  find_baseline baseline_results input_path = Return (Some (Json.JObj members)) ->
  Json.dict_get members "warnings" = Some (Json.JArr baseline_warnings) ->
  Json.dict_get members "errors" = Some (Json.JArr baseline_errors) ->
  let out := compare_to_baseline results baseline_results input_path in
  (fst out = Raise (AssertionError msg_errors_increased)
   <-> (length baseline_errors < length (r_errors results))%nat)
  /\ (fst out = Return tt
      <-> (length (r_errors results) <= length baseline_errors)%nat)
  /\ (length (r_warnings results) <> length baseline_warnings ->
      In (LInfo, Msg ("Warning count changed: "
                      +:+ decimal (Z.of_nat (length baseline_warnings)) +:+ " -> "
                      +:+ decimal (Z.of_nat (length (r_warnings results)))))
         (snd out)).
Proof.
  intros Hfind Hwarnings Herrors out. subst out. unfold compare_to_baseline. rewrite Hfind.
  pose proof (count_of_list _ _ _ Hwarnings) as Hw.
  pose proof (count_of_list _ _ _ Herrors) as He.
  rewrite (regression_gate_verdict _ _ _ _ Hw He).
  split; [|split].
  - destruct (Z.leb_spec (Z.of_nat (length (r_errors results)))
                (Z.of_nat (length baseline_errors)));
      split; intros G; try discriminate; try lia; reflexivity.
  - destruct (Z.leb_spec (Z.of_nat (length (r_errors results)))
                (Z.of_nat (length baseline_errors)));
      split; intros G; try discriminate; try lia; reflexivity.
  - intros Hne. apply (regression_gate_logs_warnings _ _ _ _ Hw He). lia.
Qed.

(** The scenarios of the gate. Against a baseline entry with the error E1,
    a current result without errors passes, also with a new warning, one
    with E1 alone passes, and one with E1 and E2 fails; against an entry
    without errors, the current result with E1 alone fails. *)
Lemma C2_gate_fails_iff_errors_increase_witness :
  let baseline :=
    Json.JObj [ ("filename", Json.JStr "/t/a.usd"); ("pass", Json.JBool false);
                ("warnings", Json.JArr []); ("errors", Json.JArr [Json.JStr "E1"]) ] in
  let clean :=
    Json.JObj [ ("filename", Json.JStr "/t/a.usd"); ("pass", Json.JBool true);
                ("warnings", Json.JArr []); ("errors", Json.JArr []) ] in
  fst (compare_to_baseline (MkResult "t/a.usd" true ["W1"] []) [baseline] "/t/a.usd")
  = Return tt
  /\ fst (compare_to_baseline (MkResult "t/a.usd" false [] ["E1"]) [baseline] "/t/a.usd")
     = Return tt
  /\ fst (compare_to_baseline (MkResult "t/a.usd" false [] ["E1"; "E2"]) [baseline] "/t/a.usd")
     = Raise (AssertionError msg_errors_increased)
  /\ fst (compare_to_baseline (MkResult "t/a.usd" false [] ["E1"]) [clean] "/t/a.usd")
     = Raise (AssertionError msg_errors_increased)
  /\ In (LInfo, Msg "Warning count changed: 0 -> 1")
        (snd (compare_to_baseline (MkResult "t/a.usd" true ["W1"] []) [baseline] "/t/a.usd")).
Proof.
  intros baseline clean. split; [|split; [|split; [|split]]].
  - apply (proj1 (proj2 (C2_gate_fails_iff_errors_increase
                           (MkResult "t/a.usd" true ["W1"] []) [baseline] "/t/a.usd"
                           _ [] [Json.JStr "E1"] eq_refl eq_refl eq_refl))).
    cbn. lia.
  - apply (proj1 (proj2 (C2_gate_fails_iff_errors_increase
                           (MkResult "t/a.usd" false [] ["E1"]) [baseline] "/t/a.usd"
                           _ [] [Json.JStr "E1"] eq_refl eq_refl eq_refl))).
    cbn. lia.
  - apply (proj1 (C2_gate_fails_iff_errors_increase
                    (MkResult "t/a.usd" false [] ["E1"; "E2"]) [baseline] "/t/a.usd"
                    _ [] [Json.JStr "E1"] eq_refl eq_refl eq_refl)).
    cbn. lia.
  - apply (proj1 (C2_gate_fails_iff_errors_increase
                    (MkResult "t/a.usd" false [] ["E1"]) [clean] "/t/a.usd"
                    _ [] [] eq_refl eq_refl eq_refl)).
    cbn. lia.
  - apply (proj2 (proj2 (C2_gate_fails_iff_errors_increase
                           (MkResult "t/a.usd" true ["W1"] []) [baseline] "/t/a.usd"
                           _ [] [Json.JStr "E1"] eq_refl eq_refl eq_refl))).
    cbn. lia.
Defined.

(** The lookup finds nothing when every entry has a ['filename'] other
    than the key. *)
Lemma find_baseline_none baseline_results key :
  Forall (fun res => exists members v,
                       res = Json.JObj members
                       /\ Json.dict_get members "filename" = Some v
                       /\ v <> Json.JStr key) baseline_results ->
  find_baseline baseline_results key = Return None.
Proof.
  induction 1 as [|res rest (members & v & -> & Hget & Hne) _ IH]; [reflexivity|].
  cbn [find_baseline subscript_filename]. rewrite Hget.
  destruct v as [| | |s| |]; try exact IH.
  destruct (String.eqb_spec s key) as [->|_]; [contradiction|exact IH].
Qed.

(** The name [run_usdchecker] records: the last three segments of the
    path. *)
Lemma truncated_filename_last_three file init a b c :
  PathLib.segments (PathLib.of_string file) = init ++ [a; b; c] ->
  truncated_filename file = a +:+ "/" +:+ b +:+ "/" +:+ c.
Proof.
  intros Hsegs.
  assert (Hkeep : forall seg, In seg [a; b; c] -> seg <> EmptyString).
  { intros seg Hin Hempty. subst seg.
    assert (Hin' : EmptyString ∈ PathLib.segments (PathLib.of_string file)).
    { rewrite Hsegs. apply elem_of_app. right. apply list_elem_of_In, Hin. }
    unfold PathLib.of_string in Hin'. cbn [PathLib.segments] in Hin'.
    apply list_elem_of_filter in Hin' as [Hk _]. discriminate. }
  unfold truncated_filename, filename_step, PathLib.name, PathLib.parent.
  destruct (PathLib.of_string file) as [root segs]. cbn [PathLib.segments] in *. subst segs.
  cbn [fst snd PathLib.segments PathLib.root].
  replace (init ++ [a; b; c]) with ((init ++ [a; b]) ++ [c])
    by (rewrite <- List.app_assoc; reflexivity).
  rewrite List.removelast_last, List.last_last.
  replace (init ++ [a; b]) with ((init ++ [a]) ++ [b])
    by (rewrite <- List.app_assoc; reflexivity).
  rewrite !List.last_last.
  destruct (String.eqb_spec b EmptyString) as [E|_];
    [exfalso; apply (Hkeep b); [right; left; reflexivity|exact E]|].
  cbn [negb fst snd PathLib.segments].
  rewrite List.removelast_last, List.last_last.
  destruct (String.eqb_spec a EmptyString) as [E|_];
    [exfalso; apply (Hkeep a); [left; reflexivity|exact E]|].
  reflexivity.
Qed.

(** No piece of a split starts with the separator. *)
Lemma split_pieces sep s piece :
  In piece (PyStr.split s sep) -> PyStr.startswith piece (String sep EmptyString) = false.
Proof.
  revert piece. induction s as [|c r IH]; intros piece Hin.
  - destruct Hin as [<-|[]]. reflexivity.
  - cbn [PyStr.split] in Hin. destruct (Ascii.eqb c sep) eqn:E.
    + destruct Hin as [<-|Hin]; [reflexivity|apply IH, Hin].
    + destruct (PyStr.split r sep) as [|h t] eqn:Hs.
      * destruct Hin as [<-|[]]. rewrite startswith_cons, Ascii.eqb_sym, E. reflexivity.
      * destruct Hin as [<-|Hin]; [|apply IH; right; exact Hin].
        rewrite startswith_cons, Ascii.eqb_sym, E. reflexivity.
Qed.

Lemma segments_spec file seg :
  In seg (PathLib.segments (PathLib.of_string file)) ->
  seg <> EmptyString /\ PyStr.startswith seg "/" = false.
Proof.
  unfold PathLib.of_string. cbn [PathLib.segments]. intros Hin.
  apply list_elem_of_In, list_elem_of_filter in Hin as [Hkeep Hin]. split.
  - intros ->. discriminate.
  - apply (split_pieces "/"%char file), list_elem_of_In, Hin.
Qed.

Lemma join_head sep x rest :
  x <> EmptyString -> PyStr.startswith x "/" = false ->
  PyStr.startswith (PyStr.join sep (x :: rest)) "/" = false.
Proof.
  intros Hne Hx. destruct x as [|c x]; [contradiction|].
  destruct rest as [|y rest]; [exact Hx|].
  rewrite join_cons2, app_cons. rewrite startswith_cons in *. rewrite startswith_nil in *.
  exact Hx.
Qed.

Lemma exists_last_or_nil {A : Type} (l : list A) :
  l = [] \/ exists init x, l = init ++ [x].
Proof. induction l as [|x init _] using rev_ind; [left; reflexivity|right; eauto]. Qed.

(** The name [run_usdchecker] records never starts with a slash. *)
Lemma truncated_filename_relative file :
  PyStr.startswith (truncated_filename file) "/" = false.
Proof.
  unfold truncated_filename, filename_step, PathLib.name, PathLib.parent.
  pose proof (segments_spec file) as Hsegs.
  destruct (PathLib.of_string file) as [root segs]. cbn [PathLib.segments] in *.
  cbn [fst snd PathLib.segments PathLib.root].
  destruct (exists_last_or_nil segs) as [->|(init & c & ->)]; [reflexivity|].
  assert (Hc := Hsegs c ltac:(apply in_or_app; right; left; reflexivity)).
  rewrite List.removelast_last, List.last_last.
  destruct (exists_last_or_nil init) as [->|(init' & b & ->)].
  - cbn. apply (join_head "/" c []); apply Hc.
  - assert (Hb := Hsegs b ltac:(apply in_or_app; left; apply in_or_app; right;
                                 left; reflexivity)).
    rewrite List.last_last. destruct (String.eqb_spec b EmptyString) as [E|_];
      [destruct Hb as [Hb _]; contradiction|].
    cbn [negb fst snd PathLib.segments]. rewrite List.removelast_last.
    destruct (exists_last_or_nil init') as [->|(init'' & a & ->)].
    + cbn. apply (join_head "/" b [c]); apply Hb.
    + assert (Ha := Hsegs a ltac:(apply in_or_app; left; apply in_or_app; left;
                                   apply in_or_app; right; left; reflexivity)).
      rewrite List.last_last. destruct (String.eqb_spec a EmptyString) as [E|_];
        [destruct Ha as [Ha _]; contradiction|].
      cbn [negb snd]. apply (join_head "/" a [b; c]); apply Ha.
Qed.

(** A lookup for an absolute path finds none of the records
    [run_usdchecker] writes. *)
Lemma find_baseline_written_records calls key :
  PyStr.startswith key "/" = true ->
  find_baseline
    (map (fun call => let '(file, stdout_str, stderr_str) := call in
                      result_to_json (diagnose file stdout_str stderr_str)) calls)
    key
  = Return None.
Proof.
  intros Hkey. apply find_baseline_none, Forall_forall. intros res Hres.
  apply list_elem_of_In, in_map_iff in Hres as ([[file out] err] & <- & _).
  eexists _, _. split; [reflexivity|]. split; [reflexivity|].
  intros E. injection E as E. cbn [r_filename diagnose] in E.
  pose proof (truncated_filename_relative file) as Hrel. rewrite E, Hkey in Hrel.
  discriminate.
Qed.

(** C8: the comparison skips, with the notice of a missing baseline and
    without raising, when no entry of the baseline collection is named by
    the key the lookup searches for; that key is the full input path, not
    the ['filename'] of the current record. On the run of the asset
    [cube_path] against the baseline [cube_named_text], whose one entry is
    named by the full input path and holds no error, no entry has the
    ['filename'] of the current record, and yet the comparison does not
    skip: it fails with the assertion on the error counts. *)
Theorem C8_skip_is_keyed_by_input_path :
  let current := diagnose cube_converted_path (fst (cube_usdchecker cube_converted_path))
                   EmptyString in
  (forall results baseline_results input_path,
      Forall (fun res => exists members v,
                           res = Json.JObj members
                           /\ Json.dict_get members "filename" = Some v
                           /\ v <> Json.JStr input_path) baseline_results ->
      compare_to_baseline results baseline_results input_path
      = (Return tt, [(LWarning, Msg ("No baseline found for " +:+ input_path +:+ "."))]))
  /\ r_filename current = "assets/fbx/cube_usdchecked.usd"
  /\ r_errors current = ["Error: invalid prim"]
  /\ load_baseline cube_named_text = Some [cube_named_entry]
  /\ subscript_filename cube_named_entry = Return (Json.JStr cube_path)
  /\ find_baseline [cube_named_entry] (r_filename current) = Return None
  /\ find_baseline [cube_named_entry] cube_path = Return (Some cube_named_entry)
  /\ fst (compare_to_baseline current [cube_named_entry] cube_path)
     = Raise (AssertionError msg_errors_increased)
  /\ fst (fst (test_usd_checker (fun _ => true) cube_usdchecker "Linux" "/repo/test"
                 "fbx" cube_path cube_named_fs))
     = Raise (AssertionError msg_errors_increased).
Proof.
  cbv zeta. split.
  { intros results baseline_results input_path H. unfold compare_to_baseline.
    rewrite (find_baseline_none _ _ H). reflexivity. }
  repeat split; vm_compute; reflexivity.
Qed.

(** C4: the record of a checked file is named by the last three segments
    of its path, joined by slashes. The lookup of the baseline entry does
    not search for that name but for the full input path: it finds none of
    the records [run_usdchecker] writes when that path is absolute, and on
    the run of [cube_run], where the baseline holds an entry of the name
    of the current record, without errors, so that the comparison of the
    counts would fail, the run ends with the notice of a missing
    baseline. *)
Theorem C4_lookup_key_is_full_input_path :
  let current := diagnose cube_converted_path (fst (cube_usdchecker cube_converted_path))
                   EmptyString in
  (forall file stdout_str stderr_str init a b c,
      PathLib.segments (PathLib.of_string file) = init ++ [a; b; c] ->
      r_filename (diagnose file stdout_str stderr_str) = a +:+ "/" +:+ b +:+ "/" +:+ c)
  /\ (forall calls key,
      PyStr.startswith key "/" = true ->
      find_baseline
        (map (fun call => let '(file, stdout_str, stderr_str) := call in
                          result_to_json (diagnose file stdout_str stderr_str)) calls)
        key
      = Return None)
  /\ r_filename current = "assets/fbx/cube_usdchecked.usd"
  /\ r_errors current = ["Error: invalid prim"]
  /\ load_baseline cube_baseline_text = Some [cube_baseline_entry]
  /\ subscript_filename cube_baseline_entry = Return (Json.JStr (r_filename current))
  /\ fst (compare_to_baseline current [cube_baseline_entry] (r_filename current))
     = Raise (AssertionError msg_errors_increased)
  /\ find_baseline [cube_baseline_entry] cube_path = Return None
  /\ fst (fst cube_run) = Return tt
  /\ snd cube_run
     = [(LWarning, Msg ("No baseline found for " +:+ cube_path +:+ "."))].
Proof.
  cbv zeta. split.
  { intros file stdout_str stderr_str init a b c Hsegs.
    apply (truncated_filename_last_three file init a b c Hsegs). }
  split; [exact find_baseline_written_records|].
  repeat split; vm_compute; reflexivity.
Qed.

(** * Further properties *)

(** ** The image comparator *)

Lemma shape_eqb_eq s t : Cv2.shape_eqb s t = true <-> s = t.
Proof.
  destruct s as [[r1 c1] k1], t as [[r2 c2] k2]. cbn [Cv2.shape_eqb].
  rewrite !andb_true_iff, !Nat.eqb_eq. split.
  - intros [[-> ->] ->]. reflexivity.
  - intros E. injection E as -> -> ->. auto.
Qed.

Lemma shape_eqb_sym s t : Cv2.shape_eqb s t = Cv2.shape_eqb t s.
Proof.
  destruct (Cv2.shape_eqb s t) eqn:E1, (Cv2.shape_eqb t s) eqn:E2; try reflexivity.
  - apply shape_eqb_eq in E1. subst. rewrite shape_eqb_refl in E2. discriminate.
  - apply shape_eqb_eq in E2. subst. rewrite shape_eqb_refl in E1. discriminate.
Qed.

Lemma agreeing_sym a b : agreeing a b = agreeing b a.
Proof.
  revert b. induction a as [|x a IH]; intros [|y b]; try reflexivity.
  cbn [agreeing]. rewrite (Z.eqb_sym x y), IH. reflexivity.
Qed.

Lemma agreeing_bounds a b :
  0 <= agreeing a b <= Z.of_nat (length a).
Proof.
  revert b. induction a as [|x a IH]; intros [|y b]; cbn [agreeing length]; try lia.
  specialize (IH b). destruct (x =? y); lia.
Qed.

Lemma total_pixels_shape img1 img2 :
  Cv2.shape img1 = Cv2.shape img2 -> total_pixels img1 = total_pixels img2.
Proof. unfold Cv2.shape, total_pixels. intros E. injection E as -> -> ->. reflexivity. Qed.

(** X1: two decodable images of different shapes compare as not similar,
    whatever the threshold and the content, and nothing is logged. *)
Theorem X1_shape_mismatch_is_false
    (imread : string -> option Cv2.ndarray) (p1 p2 : string)
    (img1 img2 : Cv2.ndarray) (thr : Q) :
  imread p1 = Some img1 -> imread p2 = Some img2 ->
  Cv2.shape img1 <> Cv2.shape img2 ->
  compare_images_with_similarity_threshold imread p1 p2 thr = (Return false, []).
Proof.
  intros H1 H2 Hne. unfold compare_images_with_similarity_threshold, compare_arrays.
  rewrite H1, H2. destruct (Cv2.shape_eqb (Cv2.shape img1) (Cv2.shape img2)) eqn:E;
    [apply shape_eqb_eq in E; contradiction|reflexivity].
Qed.

Lemma X1_shape_mismatch_is_false_witness :
  compare_images_with_similarity_threshold
    (fun path => if String.eqb path "a.jpg" then Some img_pixel
                 else Some (Cv2.MkArray 1 2 3 [0; 0; 0; 0; 0; 0]))
    "a.jpg" "b.jpg" 0
  = (Return false, []).
Proof.
  apply (X1_shape_mismatch_is_false _ "a.jpg" "b.jpg" img_pixel
           (Cv2.MkArray 1 2 3 [0; 0; 0; 0; 0; 0])); [reflexivity|reflexivity|discriminate].
Defined.

(** X2: when the two paths decode to the same array, the ratio is 1 and
    the comparison passes, without a log record, at every threshold up to
    1. *)
Theorem X2_identical_images_pass
    (imread : string -> option Cv2.ndarray) (p1 p2 : string)
    (img : Cv2.ndarray) (thr : Q) :
  imread p1 = Some img -> imread p2 = Some img ->
  Cv2.wf img -> 0 < total_pixels img -> (thr <= 1)%Q ->
  (similarity_ratio img img == 1)%Q
  /\ compare_images_with_similarity_threshold imread p1 p2 thr = (Return true, []).
Proof.
  intros H1 H2 [Hlen _] Htot Hthr.
  assert (Hratio : (similarity_ratio img img == 1)%Q).
  { unfold similarity_ratio, Qeq. rewrite similar_pixels_agreeing, agreeing_refl, Hlen.
    cbn [Qnum Qden]. rewrite Z2Pos.id by exact Htot. unfold total_pixels. lia. }
  split; [exact Hratio|].
  unfold compare_images_with_similarity_threshold, compare_arrays.
  rewrite H1, H2, shape_eqb_refl. cbn [negb].
  destruct (Z.eqb_spec (total_pixels img) 0) as [E|_]; [lia|].
  assert (Hle : Qle_bool thr (similarity_ratio img img) = true).
  { apply Qle_bool_iff. rewrite Hratio. exact Hthr. }
  rewrite Hle. reflexivity.
Qed.

Lemma X2_identical_images_pass_witness :
  compare_images_with_similarity_threshold (fun _ => Some img_pixel) "a.jpg" "b.jpg" 1
  = (Return true, []).
Proof.
  apply (X2_identical_images_pass (fun _ => Some img_pixel) "a.jpg" "b.jpg" img_pixel 1
           eq_refl eq_refl img_pixel_wf eq_refl).
  apply Qle_refl.
Defined.

(** X3: for decoded images of one shape, the similarity ratio lies between
    0 and 1. *)
Theorem X3_ratio_between_zero_and_one (img1 img2 : Cv2.ndarray) :
  Cv2.wf img1 -> Cv2.wf img2 -> Cv2.shape img1 = Cv2.shape img2 ->
  0 < total_pixels img1 ->
  (0 <= similarity_ratio img1 img2)%Q /\ (similarity_ratio img1 img2 <= 1)%Q.
Proof.
  intros [Hlen _] _ _ Htot.
  pose proof (agreeing_bounds (Cv2.data img1) (Cv2.data img2)) as Hb.
  unfold similarity_ratio, Qle. rewrite similar_pixels_agreeing. cbn [Qnum Qden].
  rewrite Z2Pos.id by exact Htot. rewrite Hlen in Hb. unfold total_pixels in *. lia.
Qed.

Lemma X3_ratio_between_zero_and_one_witness :
  (0 <= similarity_ratio img_black img_one_off)%Q
  /\ (similarity_ratio img_black img_one_off <= 1)%Q.
Proof.
  assert (Hw : forall v, 0 <= v < 256 ->
                 Cv2.wf (Cv2.MkArray 100 100 3 (v :: replicate (100 * 100 * 3 - 1) 0))).
  { intros v Hv. split.
    - cbn [Cv2.data Cv2.rows Cv2.cols Cv2.chans length]. rewrite length_replicate. lia.
    - apply Forall_cons. split; [exact Hv|].
      apply Forall_forall. intros w Hw. apply elem_of_replicate in Hw. lia. }
  apply X3_ratio_between_zero_and_one;
    [apply (Hw 0); lia|apply (Hw 1); lia|reflexivity|reflexivity].
Defined.

(** X4: the comparison is symmetric: exchanging the two paths gives the
    same verdict, the same exception and the same log. *)
Theorem X4_comparison_is_symmetric
    (imread : string -> option Cv2.ndarray) (p1 p2 : string) (thr : Q) :
  compare_images_with_similarity_threshold imread p1 p2 thr
  = compare_images_with_similarity_threshold imread p2 p1 thr.
Proof.
  unfold compare_images_with_similarity_threshold.
  destruct (imread p1) as [img1|], (imread p2) as [img2|]; try reflexivity.
  unfold compare_arrays. rewrite (shape_eqb_sym (Cv2.shape img2)).
  destruct (Cv2.shape_eqb (Cv2.shape img1) (Cv2.shape img2)) eqn:E; [|reflexivity].
  apply shape_eqb_eq in E. cbn [negb].
  rewrite <- (total_pixels_shape _ _ E).
  assert (Hr : similarity_ratio img2 img1 = similarity_ratio img1 img2).
  { unfold similarity_ratio. rewrite !similar_pixels_agreeing, (agreeing_sym (Cv2.data img2)).
    rewrite <- (total_pixels_shape _ _ E). reflexivity. }
  rewrite Hr. reflexivity.
Qed.

(** X5: for decodable images of one shape, lowering the threshold never
    turns a pass into a failure, and an error record is logged exactly
    when the verdict is a failure. *)
Theorem X5_threshold_is_monotone
    (imread : string -> option Cv2.ndarray) (p1 p2 : string)
    (img1 img2 : Cv2.ndarray) (thr thr' : Q) :
  imread p1 = Some img1 -> imread p2 = Some img2 ->
  Cv2.shape img1 = Cv2.shape img2 -> 0 < total_pixels img1 ->
  (thr' <= thr)%Q ->
  (fst (compare_images_with_similarity_threshold imread p1 p2 thr) = Return true ->
   fst (compare_images_with_similarity_threshold imread p1 p2 thr') = Return true)
  /\ (snd (compare_images_with_similarity_threshold imread p1 p2 thr) = []
      <-> fst (compare_images_with_similarity_threshold imread p1 p2 thr) = Return true).
Proof.
  intros H1 H2 Hshape Htot Hle.
  assert (Hcmp : forall t, compare_images_with_similarity_threshold imread p1 p2 t
                           = (Return (Qle_bool t (similarity_ratio img1 img2)),
                              if Qle_bool t (similarity_ratio img1 img2) then []
                              else [(LError, MsgRatio "Images are not similar enough: "
                                               (similarity_ratio img1 img2))])).
  { intros t. unfold compare_images_with_similarity_threshold, compare_arrays.
    rewrite H1, H2, Hshape, shape_eqb_refl. cbn [negb].
    destruct (Z.eqb_spec (total_pixels img1) 0) as [E|_]; [lia|]. reflexivity. }
  rewrite !Hcmp. cbn [fst snd]. split.
  - intros Hpass. injection Hpass as Hpass. apply Qle_bool_iff in Hpass.
    f_equal. apply Qle_bool_iff. apply (Qle_trans _ thr); assumption.
  - destruct (Qle_bool thr (similarity_ratio img1 img2)); split; intros H;
      try reflexivity; discriminate.
Qed.

Lemma X5_threshold_is_monotone_witness :
  fst (compare_images_with_similarity_threshold
         (fun path => if String.eqb path "a.jpg" then Some img_pixel
                      else Some (Cv2.MkArray 1 1 3 [1; 0; 0]))
         "a.jpg" "b.jpg" (1 # 4)) = Return true.
Proof.
  apply (proj1 (X5_threshold_is_monotone
                  (fun path => if String.eqb path "a.jpg" then Some img_pixel
                               else Some (Cv2.MkArray 1 1 3 [1; 0; 0]))
                  "a.jpg" "b.jpg" img_pixel (Cv2.MkArray 1 1 3 [1; 0; 0])
                  (1 # 2) (1 # 4) eq_refl eq_refl eq_refl eq_refl
                  ltac:(vm_compute; discriminate))).
  vm_compute. reflexivity.
Defined.

(** ** The schema-check runner *)

Lemma collected_not_filtered stdout_str stderr_str err :
  In err (collect_errors stdout_str stderr_str) -> ~ In err filter_out_strings.
Proof.
  unfold collect_errors. intros H Hin.
  apply list_elem_of_In, list_elem_of_filter in H as [H _].
  apply elem_spec in Hin. congruence.
Qed.

Lemma filter_ext_in {A : Type} (P Q : A -> Prop)
    `{!forall x, Decision (P x)} `{!forall x, Decision (Q x)} (l : list A) :
  (forall x, In x l -> (P x <-> Q x)) -> filter P l = filter Q l.
Proof.
  induction l as [|x l IH]; intros Hext; [reflexivity|].
  rewrite !filter_cons. rewrite IH by (intros y Hy; apply Hext; right; exact Hy).
  destruct (decide (P x)) as [HP|HP], (decide (Q x)) as [HQ|HQ]; try reflexivity.
  - exfalso. apply HQ, (Hext x); [left; reflexivity|exact HP].
  - exfalso. apply HP, (Hext x); [left; reflexivity|exact HQ].
Qed.

Lemma filter_bool_split {A : Type} (f : A -> bool) (l : list A) :
  (length (filter (fun x => f x = true) l) + length (filter (fun x => f x = false) l)
   = length l)%nat.
Proof.
  induction l as [|x l IH]; [reflexivity|]. rewrite !filter_cons.
  destruct (f x) eqn:E.
  - destruct (decide (true = true)) as [_|N]; [|contradiction].
    destruct (decide (true = false)) as [N|_]; [discriminate|]. cbn [length]. lia.
  - destruct (decide (false = true)) as [N|_]; [discriminate|].
    destruct (decide (false = false)) as [_|N]; [|contradiction]. cbn [length]. lia.
Qed.

(** The warnings are the collected lines in which an ignorable message
    occurs, in their order. *)
Lemma warnings_filter file stdout_str stderr_str :
  r_warnings (diagnose file stdout_str stderr_str)
  = filter (fun err => is_non_ignorable err = false)
           (collect_errors (truncate_stdout stdout_str) stderr_str).
Proof.
  unfold diagnose. cbn [r_warnings].
  set (errors := collect_errors (truncate_stdout stdout_str) stderr_str).
  apply filter_ext_in. intros err Hin.
  rewrite andb_true_iff, !negb_true_iff. split.
  - intros [Hnot _]. destruct (is_non_ignorable err) eqn:E; [|reflexivity].
    assert (PyStr.elem err (filter_non_ignorable errors) = true) as Hel.
    { apply elem_spec, list_elem_of_In, list_elem_of_filter.
      split; [exact E|apply list_elem_of_In, Hin]. }
    congruence.
  - intros Hign. split.
    + destruct (PyStr.elem err (filter_non_ignorable errors)) eqn:E; [|reflexivity].
      apply elem_spec, list_elem_of_In, list_elem_of_filter in E as [E _]. congruence.
    + apply String.eqb_neq.
      apply (collect_errors_not_empty (truncate_stdout stdout_str) stderr_str _ Hin).
Qed.

(** X6: the record passes exactly when its list of errors is empty. *)
Theorem X6_pass_iff_no_errors (file stdout_str stderr_str : string) :
  let r := diagnose file stdout_str stderr_str in
  r_pass r = true <-> r_errors r = [].
Proof.
  cbv zeta. unfold diagnose. cbn [r_pass r_errors].
  set (errors := collect_errors (truncate_stdout stdout_str) stderr_str).
  destruct (filter_non_ignorable errors) as [|err rest] eqn:E.
  - split; reflexivity.
  - split; [|discriminate]. intros Hpass. exfalso.
    assert (Hin : In err errors).
    { apply list_elem_of_In.
      assert (H : err ∈ filter_non_ignorable errors) by (rewrite E; left).
      apply list_elem_of_filter in H as [_ H]. exact H. }
    pose proof (collected_not_filtered _ _ _ Hin) as Hnot.
    cbn [forallb] in Hpass. apply andb_true_iff in Hpass as [Hhead _].
    apply orb_true_iff in Hhead as [H|H]; apply String.eqb_eq in H; subst err;
      apply Hnot; cbn; auto.
Qed.

(** X7: every collected line is reported once: the warnings are the
    collected lines with an ignorable message and the errors the other
    ones, both in the order of the output; no line is in both lists and
    the two lengths add up to the number of collected lines. *)
Theorem X7_warnings_and_errors_partition (file stdout_str stderr_str : string) :
  let r := diagnose file stdout_str stderr_str in
  let lines := collect_errors (truncate_stdout stdout_str) stderr_str in
  r_warnings r = filter (fun err => is_non_ignorable err = false) lines
  /\ r_errors r = filter (fun err => is_non_ignorable err = true) lines
  /\ (length (r_warnings r) + length (r_errors r) = length lines)%nat
  /\ (forall line, ~ (In line (r_warnings r) /\ In line (r_errors r))).
Proof.
  cbv zeta. rewrite warnings_filter. split; [reflexivity|]. split; [reflexivity|]. split.
  - unfold diagnose. cbn [r_errors]. unfold filter_non_ignorable.
    rewrite Nat.add_comm. apply filter_bool_split.
  - intros line [Hw He]. unfold diagnose in He. cbn [r_errors] in He.
    apply list_elem_of_In, list_elem_of_filter in Hw as [Hw _].
    apply list_elem_of_In, list_elem_of_filter in He as [He _]. congruence.
Qed.

Lemma contains_char_cons sep c h :
  PyStr.contains (String sep EmptyString) (String c h)
  = Ascii.eqb sep c || PyStr.contains (String sep EmptyString) h.
Proof.
  rewrite !contains_find_at, find_at_unfold, startswith_cons, startswith_nil.
  destruct (Ascii.eqb sep c); [reflexivity|]. cbn [orb].
  destruct (find_at_offset (String sep EmptyString) h (0 + 1)) as [[H0 H1]|[H0 H1]];
    rewrite H1.
  - rewrite H0. reflexivity.
  - destruct (Z.eqb_spec (0 + 1 + PyStr.find_at (String sep EmptyString) h 0) (-1)); [lia|].
    destruct (Z.eqb_spec (PyStr.find_at (String sep EmptyString) h 0) (-1)); [lia|].
    reflexivity.
Qed.

Lemma contains_char_nil sep : PyStr.contains (String sep EmptyString) EmptyString = false.
Proof. reflexivity. Qed.

(** No piece of a split holds the separator. *)
Lemma split_pieces_clean sep s piece :
  In piece (PyStr.split s sep) -> PyStr.contains (String sep EmptyString) piece = false.
Proof.
  revert piece. induction s as [|c r IH]; intros piece Hin.
  - destruct Hin as [<-|[]]. reflexivity.
  - cbn [PyStr.split] in Hin. destruct (Ascii.eqb c sep) eqn:E.
    + destruct Hin as [<-|Hin]; [reflexivity|apply IH, Hin].
    + destruct (PyStr.split r sep) as [|h t] eqn:Hs.
      * destruct Hin as [<-|[]]. rewrite contains_char_cons, Ascii.eqb_sym, E. reflexivity.
      * destruct Hin as [<-|Hin]; [|apply IH; right; exact Hin].
        rewrite contains_char_cons, Ascii.eqb_sym, E. apply IH. left. reflexivity.
Qed.

(** X8: no line of the warnings or of the errors is empty or one of the
    markers of success and failure, with or without a carriage return, and
    none holds a line feed. *)
Theorem X8_reported_lines_are_clean (file stdout_str stderr_str line : string) :
  let r := diagnose file stdout_str stderr_str in
  In line (r_warnings r) \/ In line (r_errors r) ->
  ~ In line filter_out_strings /\ PyStr.contains PyStr.nl line = false.
Proof.
  cbv zeta. intros H.
  assert (Hin : In line (collect_errors (truncate_stdout stdout_str) stderr_str)).
  { destruct H as [H|H].
    - apply warnings_spec in H as [H _]. exact H.
    - unfold diagnose in H. cbn [r_errors] in H.
      apply list_elem_of_In, list_elem_of_filter in H as [_ H]. apply list_elem_of_In, H. }
  split; [apply (collected_not_filtered _ _ _ Hin)|].
  unfold collect_errors in Hin. apply list_elem_of_In, list_elem_of_filter in Hin as [_ Hin].
  apply (split_pieces_clean PyStr.LF _ _ (proj1 (list_elem_of_In _ _) Hin)).
Qed.

Lemma X8_reported_lines_are_clean_witness :
  ~ In "Error: invalid prim" filter_out_strings
  /\ PyStr.contains PyStr.nl "Error: invalid prim" = false.
Proof.
  apply (X8_reported_lines_are_clean cube_converted_path
           (fst (cube_usdchecker cube_converted_path)) EmptyString "Error: invalid prim").
  right. left. reflexivity.
Defined.

Lemma drop_nonempty n s c t : PyStr.drop n s = String c t -> (n < String.length s)%nat.
Proof.
  revert s. induction n as [|n IH]; intros [|a r] H; cbn [String.length]; try discriminate;
    try lia.
  cbn [PyStr.drop] in H. apply IH in H. lia.
Qed.

Lemma contains_false_find sub s i :
  PyStr.contains sub s = false -> PyStr.find_at sub s i = -1.
Proof.
  rewrite contains_find_at. intros H. apply negb_false_iff, Z.eqb_eq in H.
  destruct (find_at_offset sub s i) as [[_ H1]|[H0 _]]; [exact H1|lia].
Qed.

(** A marker that occurs, with no line feed from it to the end: the text
    is kept whole. *)
Lemma find_no_line_feed marker s n :
  marker <> EmptyString -> first_occurrence marker s n ->
  PyStr.contains PyStr.nl (PyStr.drop n s) = false ->
  PyStr.find s marker 0 = Z.of_nat n /\ PyStr.find s PyStr.nl (Z.of_nat n) = -1.
Proof.
  intros Hmarker Hfirst Hnl. split.
  - rewrite find_zero, (find_at_first _ _ _ _ Hfirst). lia.
  - assert (Hn : (n <= String.length s)%nat).
    { destruct Hfirst as [Hat _]. destruct (PyStr.drop n s) as [|c t] eqn:E.
      - destruct marker; [contradiction|discriminate].
      - apply drop_nonempty in E. lia. }
    rewrite find_from by exact Hn. apply contains_false_find, Hnl.
Qed.

(** X9: the standard output is kept whole when neither marker occurs in
    it, and when a marker is reached but no line feed follows it: a
    "Total time:" without a line feed after it is not replaced by the
    line of "Write layer via Sdf API:". *)
Theorem X9_truncation_keeps_unterminated_output (stdout_str : string) :
  (PyStr.contains marker_total_time stdout_str = false ->
   PyStr.contains marker_write_layer stdout_str = false ->
   truncate_stdout stdout_str = stdout_str)
  /\ (forall n, first_occurrence marker_total_time stdout_str n ->
                PyStr.contains PyStr.nl (PyStr.drop n stdout_str) = false ->
                truncate_stdout stdout_str = stdout_str)
  /\ (forall n, PyStr.contains marker_total_time stdout_str = false ->
                first_occurrence marker_write_layer stdout_str n ->
                PyStr.contains PyStr.nl (PyStr.drop n stdout_str) = false ->
                truncate_stdout stdout_str = stdout_str).
Proof.
  split; [|split].
  - intros Ht Hw. unfold truncate_stdout, PyStr.contains in *.
    apply negb_false_iff in Ht, Hw. rewrite Ht, Hw. reflexivity.
  - intros n Hfirst Hnl.
    destruct (find_no_line_feed marker_total_time stdout_str n ltac:(discriminate)
                Hfirst Hnl) as [Hm Hn].
    unfold truncate_stdout. rewrite Hm.
    destruct (Z.eqb_spec (Z.of_nat n) (-1)) as [E|_]; [lia|]. cbn [negb].
    rewrite Hn. reflexivity.
  - intros n Ht Hfirst Hnl.
    destruct (find_no_line_feed marker_write_layer stdout_str n ltac:(discriminate)
                Hfirst Hnl) as [Hm Hn].
    unfold truncate_stdout. unfold PyStr.contains in Ht. apply negb_false_iff in Ht.
    rewrite Ht. cbn [negb]. rewrite Hm.
    destruct (Z.eqb_spec (Z.of_nat n) (-1)) as [E|_]; [lia|]. cbn [negb].
    rewrite Hn. reflexivity.
Qed.

(** The fallback marker on a line of its own, then "Total time:" on a last
    line without a line feed: nothing is cut. *)
Lemma X9_truncation_keeps_unterminated_output_witness :
  truncate_stdout ("Write layer via Sdf API: 2s" +:+ PyStr.nl +:+ "Total time: 1s")
  = "Write layer via Sdf API: 2s" +:+ PyStr.nl +:+ "Total time: 1s".
Proof.
  apply (proj1 (proj2 (X9_truncation_keeps_unterminated_output
                         ("Write layer via Sdf API: 2s" +:+ PyStr.nl +:+ "Total time: 1s")))
           28%nat).
  - split; [reflexivity|]. intros k Hk.
    do 28 (destruct k as [|k]; [reflexivity|]). lia.
  - reflexivity.
Defined.

(** *** The recorded file name *)

Lemma split_nonempty s sep : PyStr.split s sep <> [].
Proof.
  destruct s as [|c r]; [discriminate|]. cbn [PyStr.split].
  destruct (Ascii.eqb c sep); [discriminate|]. destruct (PyStr.split r sep); discriminate.
Qed.

Lemma split_app_sep x y sep :
  PyStr.split (x +:+ String sep y) sep = PyStr.split x sep ++ PyStr.split y sep.
Proof.
  induction x as [|c x IH].
  - rewrite app_nil_l. cbn [PyStr.split]. rewrite Ascii.eqb_refl. reflexivity.
  - rewrite app_cons. cbn [PyStr.split]. rewrite IH.
    destruct (Ascii.eqb c sep); [reflexivity|].
    pose proof (split_nonempty x sep) as Hne.
    destruct (PyStr.split x sep) as [|h t]; [contradiction|reflexivity].
Qed.

Lemma split_clean x sep :
  PyStr.contains (String sep EmptyString) x = false -> PyStr.split x sep = [x].
Proof.
  induction x as [|c x IH]; [reflexivity|].
  rewrite contains_char_cons. intros H. apply orb_false_iff in H as [Hc Hx].
  cbn [PyStr.split]. rewrite Ascii.eqb_sym, Hc, (IH Hx). reflexivity.
Qed.

Lemma keep_proper_segment x : proper_segment x -> PathLib.keep_segment x = true.
Proof.
  intros (Hne & Hdot & _). unfold PathLib.keep_segment.
  apply andb_true_iff. split; apply negb_true_iff, String.eqb_neq; assumption.
Qed.

(** The segments of a path that ends with three proper components. *)
Lemma segments_under_directory dir a b c :
  proper_segment a -> proper_segment b -> proper_segment c ->
  PathLib.segments (PathLib.of_string (dir +:+ "/" +:+ a +:+ "/" +:+ b +:+ "/" +:+ c))
  = PathLib.segments (PathLib.of_string dir) ++ [a; b; c].
Proof.
  intros Ha Hb Hc. unfold PathLib.of_string. cbn [PathLib.segments].
  change (dir +:+ "/" +:+ a +:+ "/" +:+ b +:+ "/" +:+ c)
    with (dir +:+ String "/" (a +:+ String "/" (b +:+ String "/" c))).
  rewrite !split_app_sep.
  rewrite (split_clean a), (split_clean b), (split_clean c)
    by (first [apply Ha|apply Hb|apply Hc]).
  change ([a] ++ [b] ++ [c]) with [a; b; c].
  rewrite filter_app. f_equal.
  rewrite !filter_cons_True by (apply keep_proper_segment; assumption).
  reflexivity.
Qed.

(** X10: under any directory, the name recorded for a file is made of its
    last three path components: the place of the tree of assets does not
    change it. *)
Theorem X10_filename_ignores_the_directory (dir a b c stdout_str stderr_str : string) :
  proper_segment a -> proper_segment b -> proper_segment c ->
  r_filename (diagnose (dir +:+ "/" +:+ a +:+ "/" +:+ b +:+ "/" +:+ c)
                stdout_str stderr_str)
  = a +:+ "/" +:+ b +:+ "/" +:+ c.
Proof.
  intros Ha Hb Hc. unfold diagnose. cbn [r_filename].
  apply (truncated_filename_last_three _ (PathLib.segments (PathLib.of_string dir))).
  apply segments_under_directory; assumption.
Qed.

Lemma X10_filename_ignores_the_directory_witness :
  r_filename (diagnose ("/home/ci/repo/test" +:+ "/" +:+ "assets" +:+ "/" +:+ "fbx"
                        +:+ "/" +:+ "cube.fbx") EmptyString EmptyString)
  = "assets" +:+ "/" +:+ "fbx" +:+ "/" +:+ "cube.fbx".
Proof.
  apply X10_filename_ignores_the_directory;
    (split; [discriminate|split; [discriminate|reflexivity]]).
Defined.

(** ** The results document *)

(** A text of white space only does not decode. *)
Lemma loads_blank text : Json.skip_ws text = EmptyString -> Json.loads text = None.
Proof.
  intros Hblank. unfold Json.loads. rewrite Hblank.
  destruct (Json.fuel_for text) as [|fuel] eqn:E; [unfold Json.fuel_for in E; lia|].
  reflexivity.
Qed.

Lemma return_eta {A B C : Type} (x : result A * B * C) (a : A) :
  fst (fst x) = Return a -> x = (Return a, snd (fst x), snd x).
Proof. destruct x as [[r b] c]. cbn [fst snd]. intros ->. reflexivity. Qed.

(** X11: when the results document is missing, or holds white space only
    (an empty file, for one), a call that returns has started a fresh
    list: it returns the new record and leaves a document that is the list
    of that record alone, which decodes back to it; the former text is
    lost. *)
Theorem X11_missing_or_blank_document_is_replaced
    (stdout_str stderr_str file results_file : string) (fs fs' : gmap string string)
    (r : DiagnosticResult) :
  (fs !! results_file = None
   \/ exists text, fs !! results_file = Some text /\ Json.skip_ws text = EmptyString) ->
  run_usdchecker stdout_str stderr_str file results_file fs = (Return r, fs') ->
  r = diagnose file stdout_str stderr_str
  /\ fs' = <[results_file := Json.dumps (Json.JArr [result_to_json r])]> fs
  /\ Json.loads (Json.dumps (Json.JArr [result_to_json r]))
     = Some (Json.JArr [result_to_json r]).
Proof.
  intros H Hrun.
  assert (Hexisting : existing_results results_file fs = Json.JArr []).
  { unfold existing_results.
    destruct H as [H|(text & H & Hblank)]; rewrite H; [|rewrite (loads_blank _ Hblank)];
      reflexivity. }
  destruct (run_usdchecker_returns _ _ _ _ _ _ _ Hrun) as (records & He & Hr & Hfs).
  rewrite Hexisting in He. injection He as <-.
  split; [exact Hr|]. split; [exact Hfs|].
  apply loads_dumps. apply (wf_append [] (result_to_json r)); [reflexivity|apply wf_result].
Qed.

(** A results document that an interrupted run left empty. *)
Lemma X11_missing_or_blank_document_is_replaced_witness :
  snd (run_usdchecker "Success!" EmptyString "/a/b/c/one.usd" "results.json"
         {[ "results.json" := EmptyString ]})
  = <[ "results.json" :=
         Json.dumps (Json.JArr [result_to_json
                                  (diagnose "/a/b/c/one.usd" "Success!" EmptyString)]) ]>
      {[ "results.json" := EmptyString ]}.
Proof.
  destruct (X11_missing_or_blank_document_is_replaced
              "Success!" EmptyString "/a/b/c/one.usd" "results.json"
              {[ "results.json" := EmptyString ]}
              (snd (run_usdchecker "Success!" EmptyString "/a/b/c/one.usd" "results.json"
                      {[ "results.json" := EmptyString ]}))
              (diagnose "/a/b/c/one.usd" "Success!" EmptyString)) as (_ & Hfs & _).
  - right. exists EmptyString. split; [apply lookup_singleton_eq|reflexivity].
  - unfold run_usdchecker, existing_results. rewrite lookup_singleton_eq. reflexivity.
  - exact Hfs.
Defined.

(** X12: when the results document decodes to a value that is not a list,
    the call raises [AttributeError] and writes nothing. *)
Theorem X12_document_that_is_no_list_raises
    (stdout_str stderr_str file results_file text : string) (fs : gmap string string)
    (v : Json.value) :
  fs !! results_file = Some text -> Json.loads text = Some v ->
  (forall records, v <> Json.JArr records) ->
  run_usdchecker stdout_str stderr_str file results_file fs = (Raise AttributeError, fs).
Proof.
  intros Hfile Hloads Hv. unfold run_usdchecker, existing_results. rewrite Hfile, Hloads.
  destruct v as [| | | |records|]; try reflexivity. exfalso. apply (Hv records). reflexivity.
Qed.

Lemma X12_document_that_is_no_list_raises_witness :
  run_usdchecker "Success!" EmptyString "/a/b/c/one.usd" "results.json"
    {[ "results.json" := "{}" ]}
  = (Raise AttributeError, {[ "results.json" := "{}" ]}).
Proof.
  apply (X12_document_that_is_no_list_raises "Success!" EmptyString "/a/b/c/one.usd"
           "results.json" "{}" _ (Json.JObj [])).
  - apply lookup_singleton_eq.
  - reflexivity.
  - discriminate.
Defined.

(** ** The baseline comparison *)

(** A document that holds a list as [json.dump] writes it, read one record
    per line. *)
Lemma load_baseline_written x xs : load_baseline (Json.dumps (Json.JArr (x :: xs))) = None.
Proof. unfold Json.dumps. rewrite dump_arr_cons. reflexivity. Qed.

(** The entries before the first match are passed over. *)
Lemma find_baseline_app before rest key :
  Forall (fun res => exists members v,
                       res = Json.JObj members
                       /\ Json.dict_get members "filename" = Some v
                       /\ v <> Json.JStr key) before ->
  find_baseline (before ++ rest) key = find_baseline rest key.
Proof.
  induction 1 as [|res before (members & v & -> & Hget & Hne) _ IH]; [reflexivity|].
  cbn [app find_baseline subscript_filename]. rewrite Hget.
  destruct v as [| | |s| |]; try exact IH.
  destruct (String.eqb_spec s key) as [->|_]; [contradiction|exact IH].
Qed.

(** X13: the lookup of the baseline entry stops at the first entry named
    by the key: the entries after it are not looked at, whatever they are.
    An entry met before any match that is an object without ['filename']
    raises [KeyError], and one that is no object raises [TypeError]. *)
Theorem X13_lookup_stops_at_first_match
    (before rest : list Json.value) (res : Json.value) (key : string) :
  Forall (fun res => exists members v,
                       res = Json.JObj members
                       /\ Json.dict_get members "filename" = Some v
                       /\ v <> Json.JStr key) before ->
  (forall members, res = Json.JObj members ->
                   Json.dict_get members "filename" = Some (Json.JStr key) ->
                   find_baseline (before ++ res :: rest) key = Return (Some res))
  /\ (forall members, res = Json.JObj members ->
                      Json.dict_get members "filename" = None ->
                      find_baseline (before ++ res :: rest) key = Raise (KeyError "filename"))
  /\ ((forall members, res <> Json.JObj members) ->
      find_baseline (before ++ res :: rest) key = Raise TypeError).
Proof.
  intros Hbefore. rewrite (find_baseline_app _ _ _ Hbefore). split; [|split].
  - intros members -> Hget. cbn [find_baseline subscript_filename]. rewrite Hget.
    rewrite String.eqb_refl. reflexivity.
  - intros members -> Hget. cbn [find_baseline subscript_filename]. rewrite Hget.
    reflexivity.
  - intros Hres. destruct res as [| | | | |members]; try reflexivity.
    exfalso. apply (Hres members). reflexivity.
Qed.

Lemma X13_lookup_stops_at_first_match_witness :
  find_baseline [cube_baseline_entry; cube_named_entry; Json.JNull] cube_path
  = Return (Some cube_named_entry).
Proof.
  apply (proj1 (X13_lookup_stops_at_first_match
                  [cube_baseline_entry] [Json.JNull] cube_named_entry cube_path
                  ltac:(apply List.Forall_cons; [|apply List.Forall_nil];
                        eexists _, _; split; [reflexivity|]; split; [reflexivity|];
                        discriminate))
           _ eq_refl eq_refl).
Defined.

Lemma read_lines_nonempty a rest : read_lines (a +:+ String PyStr.LF rest) <> [].
Proof.
  destruct a as [|c a]; [discriminate|]. rewrite app_cons. cbn [read_lines].
  destruct (Ascii.eqb c PyStr.LF); [discriminate|].
  destruct (read_lines (a +:+ String PyStr.LF rest)); discriminate.
Qed.

(** The lines up to a line feed, and the lines after it. *)
Lemma read_lines_app a rest :
  read_lines (a +:+ String PyStr.LF rest) = read_lines (a +:+ PyStr.nl) ++ read_lines rest.
Proof.
  induction a as [|c a IH]; [reflexivity|].
  rewrite !app_cons. cbn [read_lines]. rewrite IH.
  destruct (Ascii.eqb c PyStr.LF); [reflexivity|].
  pose proof (read_lines_nonempty a EmptyString) as Hne. fold PyStr.nl in Hne.
  destruct (read_lines (a +:+ PyStr.nl)) as [|h t]; [contradiction|reflexivity].
Qed.

Lemma loads_lines_undecodable before line rest :
  Json.loads (PyStr.strip line) = None -> loads_lines (before ++ line :: rest) = None.
Proof.
  intros Hline. induction before as [|l before IH]; cbn [app loads_lines].
  - rewrite Hline. reflexivity.
  - rewrite IH. destruct (Json.loads (PyStr.strip l)); reflexivity.
Qed.

(** X14: a baseline document with an empty line, at its start or after
    any line feed (so also one that ends with two line feeds), does not
    decode as a whole: none of its records is read. *)
Theorem X14_empty_line_spoils_the_baseline (a b : string) :
  load_baseline (PyStr.nl +:+ b) = None
  /\ load_baseline (a +:+ PyStr.nl +:+ PyStr.nl +:+ b) = None.
Proof.
  unfold load_baseline. split.
  - apply (loads_lines_undecodable [] PyStr.nl (read_lines b)). reflexivity.
  - change (a +:+ PyStr.nl +:+ PyStr.nl +:+ b)
      with (a +:+ String PyStr.LF (String PyStr.LF b)).
    rewrite read_lines_app.
    apply (loads_lines_undecodable _ PyStr.nl (read_lines b)). reflexivity.
Qed.

(** The lookup and the counts raise no assertion. *)
Lemma find_baseline_raises baseline_results key e :
  find_baseline baseline_results key = Raise e -> e = KeyError "filename" \/ e = TypeError.
Proof.
  induction baseline_results as [|res rest IH]; [discriminate|].
  cbn [find_baseline]. unfold subscript_filename.
  destruct res as [| | | | |members]; try (intros H; injection H as <-; right; reflexivity).
  destruct (Json.dict_get members "filename") as [v|];
    [|intros H; injection H as <-; left; reflexivity].
  destruct v as [| | |s| |]; try exact IH.
  destruct (String.eqb s key); [discriminate|exact IH].
Qed.

Lemma count_of_raises res k e :
  count_of res k = Raise e -> e = TypeError \/ e = AttributeError.
Proof.
  unfold count_of.
  destruct res as [| | | | |members]; try (intros H; injection H as <-; right; reflexivity).
  destruct (Json.dict_get members k) as [v|]; [|discriminate].
  destruct (Json.py_len v); [discriminate|]. intros H; injection H as <-. left. reflexivity.
Qed.

Section CheckerFacts.

Variable stage_open : string -> bool.
Variable usdchecker : string -> string * string.
Variable platform_system : string.
Variable DIRECTORY : string.

Let run := test_usd_checker stage_open usdchecker platform_system DIRECTORY.
Let results_file := output_results_file platform_system DIRECTORY.
Let baseline_file := baseline_results_file platform_system DIRECTORY.

(** The path the lookup searches for, and the record of the converted
    file. *)
Let input_path (plugin_name filename : string) : string :=
  OsPath.join (OsPath.join (ASSET_PATH DIRECTORY) [plugin_name]) [filename].
Let checked (plugin_name filename : string) : DiagnosticResult :=
  let converted_path :=
    OsPath.join (OsPath.join DIRECTORY [OUTPUT_FOLDERNAME; platform_system; plugin_name])
      [fst (OsPath.splitext filename) +:+ "_usdchecked.usd"] in
  diagnose converted_path (fst (usdchecker converted_path)) (snd (usdchecker converted_path)).

(** X15: against a baseline document that holds a list of records as
    [run_usdchecker] writes it, the test of a converted asset returns
    without comparing anything, whatever the validator reports: it adds
    its record to the results document and logs that the baseline is
    invalid JSON. *)
Theorem X15_written_baseline_is_never_compared
    (plugin_name filename : string) (fs : gmap string string)
    (x : Json.value) (xs records : list Json.value) :
  plugin_name <> "sbsar" ->
  stage_open (input_path plugin_name filename) = true ->
  existing_results (results_file plugin_name) fs = Json.JArr records ->
  fs !! baseline_file plugin_name = Some (Json.dumps (Json.JArr (x :: xs))) ->
  run plugin_name filename fs
  = (Return tt,
     <[results_file plugin_name :=
         Json.dumps (Json.JArr (records ++ [result_to_json (checked plugin_name filename)]))]>
       fs,
     [(LError, Msg "Invalid JSON in baseline file.")]).
Proof.
  intros Hplugin Hopen Hexisting Hbaseline. apply String.eqb_neq in Hplugin.
  unfold run, test_usd_checker, checked, input_path, results_file, baseline_file,
    output_results_file, baseline_results_file in *.
  rewrite Hplugin. cbv zeta. rewrite Hopen.
  destruct (usdchecker _) as [stdout_str stderr_str]. cbn [fst snd].
  unfold run_usdchecker. rewrite Hexisting.
  match goal with
  | |- context [<[?k := ?v]> fs !! ?b] =>
      destruct (decide (k = b)) as [E|E];
      [rewrite <- E, lookup_insert_eq|rewrite (lookup_insert_ne _ _ _ _ E), Hbaseline]
  end.
  - destruct records as [|y records]; cbn [app]; rewrite load_baseline_written; reflexivity.
  - rewrite load_baseline_written. reflexivity.
Qed.

(** X16: without a baseline document the test of a converted asset raises
    [FileNotFoundError], which the handler of the decoding errors does not
    catch; its record is in the results document by then. *)
Theorem X16_missing_baseline_document_raises
    (plugin_name filename : string) (fs : gmap string string)
    (records : list Json.value) :
  plugin_name <> "sbsar" ->
  stage_open (input_path plugin_name filename) = true ->
  existing_results (results_file plugin_name) fs = Json.JArr records ->
  fs !! baseline_file plugin_name = None ->
  baseline_file plugin_name <> results_file plugin_name ->
  run plugin_name filename fs
  = (Raise (FileNotFoundError (baseline_file plugin_name)),
     <[results_file plugin_name :=
         Json.dumps (Json.JArr (records ++ [result_to_json (checked plugin_name filename)]))]>
       fs,
     []).
Proof.
  intros Hplugin Hopen Hexisting Hbaseline Hne. apply String.eqb_neq in Hplugin.
  unfold run, test_usd_checker, checked, input_path, results_file, baseline_file,
    output_results_file, baseline_results_file in *.
  rewrite Hplugin. cbv zeta. rewrite Hopen.
  destruct (usdchecker _) as [stdout_str stderr_str]. cbn [fst snd].
  unfold run_usdchecker. rewrite Hexisting.
  rewrite lookup_insert_ne by congruence. rewrite Hbaseline. reflexivity.
Qed.

(** X17: the test of a converted asset fails with an assertion only when
    the baseline document, read one record per line, holds an entry whose
    ['filename'] is the full input path, and the current record has more
    errors than that entry. *)
Theorem X17_assertion_needs_entry_named_by_input_path
    (plugin_name filename message : string) (fs fs' : gmap string string)
    (logs : list log_entry) :
  run plugin_name filename fs = (Raise (AssertionError message), fs', logs) ->
  message = msg_errors_increased
  /\ exists text baseline_results entry baseline_error_count,
       fs' !! baseline_file plugin_name = Some text
       /\ load_baseline text = Some baseline_results
       /\ find_baseline baseline_results (input_path plugin_name filename)
          = Return (Some entry)
       /\ count_of entry "errors" = Return baseline_error_count
       /\ baseline_error_count < Z.of_nat (length (r_errors (checked plugin_name filename))).
Proof.
  unfold run, test_usd_checker, checked, input_path, results_file, baseline_file,
    output_results_file, baseline_results_file.
  destruct (String.eqb plugin_name "sbsar"); [discriminate|]. cbv zeta.
  destruct (stage_open _); [|discriminate].
  destruct (usdchecker _) as [stdout_str stderr_str]. cbn [fst snd].
  unfold run_usdchecker.
  destruct (existing_results _ fs) as [| | | |records|]; try discriminate.
  destruct (_ !! _) as [text|] eqn:Htext; [|discriminate].
  destruct (load_baseline text) as [baseline_results|] eqn:Hload; [|discriminate].
  unfold compare_to_baseline.
  destruct (find_baseline baseline_results _) as [[entry|]|e] eqn:Hfind;
    [|discriminate|destruct (find_baseline_raises _ _ _ Hfind) as [-> | ->]; discriminate].
  unfold regression_gate.
  destruct (count_of entry "warnings") as [bw|e] eqn:Hw;
    [|destruct (count_of_raises _ _ _ Hw) as [-> | ->]; discriminate].
  destruct (count_of entry "errors") as [be|e] eqn:He;
    [|destruct (count_of_raises _ _ _ He) as [-> | ->]; discriminate].
  match goal with |- context [?cur <=? be] => destruct (Z.leb_spec cur be) as [Hle|Hlt] end;
    [discriminate|].
  intros H. injection H as <- <- <-. split; [reflexivity|].
  exists text, baseline_results, entry, be. auto.
Qed.

End CheckerFacts.

Lemma X15_written_baseline_is_never_compared_witness :
  fst (fst (test_usd_checker (fun _ => true) cube_usdchecker "Linux" "/repo/test"
              "fbx" cube_path cube_written_fs)) = Return tt
  /\ snd (test_usd_checker (fun _ => true) cube_usdchecker "Linux" "/repo/test"
            "fbx" cube_path cube_written_fs)
     = [(LError, Msg "Invalid JSON in baseline file.")].
Proof.
  rewrite (X15_written_baseline_is_never_compared (fun _ => true) cube_usdchecker
             "Linux" "/repo/test" "fbx" cube_path cube_written_fs cube_named_entry [] []).
  - split; reflexivity.
  - discriminate.
  - reflexivity.
  - vm_compute. reflexivity.
  - vm_compute. reflexivity.
Defined.

Lemma X16_missing_baseline_document_raises_witness :
  fst (fst (test_usd_checker (fun _ => true) cube_usdchecker "Linux" "/repo/test"
              "fbx" cube_path ∅))
  = Raise (FileNotFoundError cube_baseline_file).
Proof.
  rewrite (X16_missing_baseline_document_raises (fun _ => true) cube_usdchecker
             "Linux" "/repo/test" "fbx" cube_path ∅ []).
  - vm_compute. reflexivity.
  - discriminate.
  - reflexivity.
  - vm_compute. reflexivity.
  - vm_compute. reflexivity.
  - vm_compute. discriminate.
Defined.

(** A baseline of one record per line, whose entry is named by the path of
    the asset and holds no error, while the validator reports one. *)
Lemma X17_assertion_needs_entry_named_by_input_path_witness :
  exists text baseline_results,
    cube_named_fs !! cube_baseline_file = Some text
    /\ load_baseline text = Some baseline_results
    /\ find_baseline baseline_results cube_path = Return (Some cube_named_entry).
Proof.
  assert (Hrun : test_usd_checker (fun _ => true) cube_usdchecker "Linux" "/repo/test"
                   "fbx" cube_path cube_named_fs
                 = (Raise (AssertionError msg_errors_increased),
                    snd (fst (test_usd_checker (fun _ => true) cube_usdchecker "Linux"
                                "/repo/test" "fbx" cube_path cube_named_fs)),
                    snd (test_usd_checker (fun _ => true) cube_usdchecker "Linux"
                           "/repo/test" "fbx" cube_path cube_named_fs))).
  { assert (Hfst : fst (fst (test_usd_checker (fun _ => true) cube_usdchecker "Linux"
                                "/repo/test" "fbx" cube_path cube_named_fs))
                   = Raise (AssertionError msg_errors_increased))
      by (vm_compute; reflexivity).
    rewrite <- Hfst. apply triple_eta. }
  destruct (X17_assertion_needs_entry_named_by_input_path _ _ _ _ _ _ _ _ _ _ Hrun)
    as (_ & text & baseline_results & entry & be & Htext & Hload & Hfind & _).
  exists text, baseline_results.
  assert (Htext' : cube_named_fs !! cube_baseline_file = Some text).
  { rewrite <- Htext. vm_compute. reflexivity. }
  split; [exact Htext'|]. split; [exact Hload|].
  assert (E : text = cube_named_text).
  { unfold cube_named_fs in Htext'. rewrite lookup_singleton_eq in Htext'. congruence. }
  subst text. vm_compute in Hload. injection Hload as <-. reflexivity.
Defined.

(** ** The conversion pipeline and the rendering test *)

Lemma compare_arrays_shape_mismatch img1 img2 thr :
  Cv2.shape img1 <> Cv2.shape img2 -> compare_arrays img1 img2 thr = (Return false, []).
Proof.
  intros Hne. unfold compare_arrays.
  destruct (Cv2.shape_eqb (Cv2.shape img1) (Cv2.shape img2)) eqn:E; [|reflexivity].
  apply shape_eqb_eq in E. contradiction.
Qed.

Lemma compare_arrays_raises img1 img2 thr e :
  fst (compare_arrays img1 img2 thr) = Raise e -> e = ZeroDivisionError.
Proof.
  unfold compare_arrays.
  destruct (negb _); [discriminate|]. destruct (total_pixels img1 =? 0); [|discriminate].
  intros H. injection H as <-. reflexivity.
Qed.

Lemma total_pixels_nonneg img : 0 <= total_pixels img.
Proof. unfold total_pixels. nia. Qed.

(** A decoded array compared with itself is not found different. *)
Lemma compare_arrays_same_verdict img :
  Cv2.wf img -> fst (compare_arrays img img default_similarity_threshold) <> Return false.
Proof.
  intros Hwf. destruct (Z.eq_dec (total_pixels img) 0) as [E|E].
  - unfold compare_arrays. rewrite shape_eqb_refl. cbn [negb].
    rewrite (proj2 (Z.eqb_eq _ _) E). discriminate.
  - pose proof (total_pixels_nonneg img).
    rewrite compare_arrays_same by (try assumption; lia). discriminate.
Qed.

Lemma converted_is_no_error f :
  negb (String.eqb ("Converted: " +:+ f) EmptyString)
  && PyStr.startswith ("Converted: " +:+ f) "Error" = false.
Proof. reflexivity. Qed.

Lemma basic_error_is_error f :
  negb (String.eqb ("Error with basic converted file: " +:+ f) EmptyString)
  && PyStr.startswith ("Error with basic converted file: " +:+ f) "Error" = true.
Proof. reflexivity. Qed.

Section RenderingFacts.

Variable World : Type.
Variable makedirs : string -> World -> World.
Variable usdrecord : string -> string -> World -> World.
Variable stage_open : string -> World -> bool.
Variable stage_export : string -> string -> World -> World.
Variable imread : World -> string -> option Cv2.ndarray.
Variable relpath : string -> string -> string.
Variable platform_system : string.
Variable DIRECTORY : string.

Let run := process_file World makedirs usdrecord stage_open stage_export imread
             relpath platform_system DIRECTORY.
Let baseline_of := basic_baseline_path relpath platform_system DIRECTORY.
Let output_of := basic_output_path relpath platform_system DIRECTORY.
Let roundtrip_of := roundtrip_output_path relpath platform_system DIRECTORY.
Let test_rendering :=
  test_asset_rendering World makedirs usdrecord stage_open stage_export imread
    relpath platform_system DIRECTORY.

Lemma compare_in_reads w p q res ev :
  compare_in World imread w p q = (res, ev) ->
  imreads ev = [p; q] /\ render_outputs ev = [].
Proof.
  unfold compare_in.
  destruct (compare_images_with_similarity_threshold _ _ _ _) as [r logs].
  intros H. injection H as <- <-. split.
  - change (p :: q :: imreads (map EvLog logs) = [p; q]). rewrite imreads_logs. reflexivity.
  - change (render_outputs (map EvLog logs) = []). apply render_outputs_logs.
Qed.

Lemma compare_in_verdict w p q res ev :
  compare_in World imread w p q = (res, ev) ->
  match imread w p, imread w q with
  | Some img1, Some img2 => res = fst (compare_arrays img1 img2 default_similarity_threshold)
  | _, _ => res = Raise (ValueError msg_not_loaded)
  end.
Proof.
  unfold compare_in, compare_images_with_similarity_threshold.
  destruct (imread w p) as [img1|]; [destruct (imread w q) as [img2|]|].
  - destruct (compare_arrays img1 img2 _) as [r logs]. intros H. injection H as <- <-.
    reflexivity.
  - intros H. injection H as <- <-. reflexivity.
  - intros H. injection H as <- <-. reflexivity.
Qed.

Lemma compare_in_raises w p q e ev :
  compare_in World imread w p q = (Raise e, ev) ->
  e = ValueError msg_not_loaded \/ e = ZeroDivisionError.
Proof.
  intros H. apply compare_in_verdict in H.
  destruct (imread w p) as [img1|]; [destruct (imread w q) as [img2|]|].
  - right. symmetry in H. apply (compare_arrays_raises _ _ _ _ H).
  - left. congruence.
  - left. congruence.
Qed.

(** X18: a run in generation mode that returns has compared nothing: it
    has read no image, and it reports the file as converted (or, for the
    round trip of sbsar, as skipped), never as an error. *)
Theorem X18_generation_compares_no_image
    (plugin_name test_file test_type ret : string) (w w' : World) (trace : list event) :
  run plugin_name test_file true test_type w = (Return ret, w', trace) ->
  imreads trace = []
  /\ (ret = "Converted: " +:+ test_file
      \/ ret = "Skipped: SBSAR rountrip is not supported.").
Proof.
  unfold run, process_file. cbn [negb].
  destruct (String.eqb test_type "basic").
  - unfold render. intros H. injection H as <- _ <-. split; [reflexivity|left; reflexivity].
  - destruct (String.eqb test_type "roundtrip");
      [|intros H; injection H as <- _ <-; split; [reflexivity|left; reflexivity]].
    destruct (String.eqb plugin_name "sbsar");
      [intros H; injection H as <- _ <-; split; [reflexivity|right; reflexivity]|].
    destruct (OsPath.splitext (OsPath.basename test_file)) as [file_name file_extension].
    unfold convert, render. destruct (stage_open _ _); intros H; injection H as <- _ <-;
      (split; [reflexivity|left; reflexivity]).
Qed.

(** What a basic run in verify mode returns, from the verdict of the
    comparison. *)
Lemma basic_run plugin_name test_file w res w' trace :
  run plugin_name test_file false "basic" w = (res, w', trace) ->
  exists verdict ev,
    compare_in World imread w' (baseline_of plugin_name test_file)
      (output_of plugin_name test_file) = (verdict, ev)
    /\ res = match verdict with
             | Raise e => Raise e
             | Return false => Return ("Error with basic converted file: " +:+ test_file)
             | Return true => Return ("Converted: " +:+ test_file)
             end
    /\ imreads trace = [baseline_of plugin_name test_file; output_of plugin_name test_file]
    /\ render_outputs trace = [output_of plugin_name test_file].
Proof.
  unfold run, baseline_of, output_of, process_file, basic_baseline_path, basic_output_path.
  cbn [String.eqb Ascii.eqb Bool.eqb negb]. unfold render.
  set (folder := OsPath.join _ [relpath _ _]).
  set (out := OsPath.join folder _).
  set (base := OsPath.join _ [relpath _ _; _]).
  destruct (compare_in World imread (usdrecord test_file out (makedirs folder w)) base out)
    as [verdict ev] eqn:Hcmp.
  destruct (compare_in_reads _ _ _ _ _ Hcmp) as [Hreads Houts].
  assert (Htrace :
    imreads ([EvMakedirs folder]
             ++ [EvLog (LInfo, Msg ("Rendering: " +:+ test_file +:+ " To: " +:+ out));
                 EvSystem test_file out] ++ ev) = [base; out]
    /\ render_outputs ([EvMakedirs folder]
             ++ [EvLog (LInfo, Msg ("Rendering: " +:+ test_file +:+ " To: " +:+ out));
                 EvSystem test_file out] ++ ev) = [out]).
  { unfold imreads, render_outputs in *. rewrite !omap_app, Hreads, Houts.
    split; reflexivity. }
  destruct verdict as [[]|e]; intros H; injection H as <- <- <-;
    (eexists _, _; split; [exact Hcmp|]; split; [reflexivity|exact Htrace]).
Qed.

(** X19: in verify mode the basic run renders the asset and compares the
    baseline image with that rendering: it raises [ValueError] when one of
    the two does not decode, reports an error when their shapes differ,
    and reports the file as converted when both decode to one array. *)
Theorem X19_basic_run_compares_with_the_baseline
    (plugin_name test_file : string) (w w' : World)
    (res : result string) (trace : list event) :
  run plugin_name test_file false "basic" w = (res, w', trace) ->
  let baseline_path := baseline_of plugin_name test_file in
  let output_path := output_of plugin_name test_file in
  imreads trace = [baseline_path; output_path]
  /\ render_outputs trace = [output_path]
  /\ (imread w' baseline_path = None \/ imread w' output_path = None ->
      res = Raise (ValueError msg_not_loaded))
  /\ (forall img1 img2,
        imread w' baseline_path = Some img1 -> imread w' output_path = Some img2 ->
        Cv2.shape img1 <> Cv2.shape img2 ->
        res = Return ("Error with basic converted file: " +:+ test_file))
  /\ (forall img,
        imread w' baseline_path = Some img -> imread w' output_path = Some img ->
        Cv2.wf img -> 0 < total_pixels img ->
        res = Return ("Converted: " +:+ test_file)).
Proof.
  intros Hrun baseline_path output_path.
  destruct (basic_run _ _ _ _ _ _ Hrun) as (verdict & ev & Hcmp & -> & Hreads & Houts).
  apply compare_in_verdict in Hcmp. fold baseline_path output_path in Hcmp.
  split; [exact Hreads|]. split; [exact Houts|]. split; [|split].
  - intros [Hnone|Hnone]; rewrite Hnone in Hcmp.
    + rewrite Hcmp. reflexivity.
    + destruct (imread w' baseline_path); rewrite Hcmp; reflexivity.
  - intros img1 img2 H1 H2 Hshape. rewrite H1, H2 in Hcmp.
    rewrite (compare_arrays_shape_mismatch _ _ _ Hshape) in Hcmp. rewrite Hcmp. reflexivity.
  - intros img H1 H2 Hwf Htot. rewrite H1, H2 in Hcmp.
    rewrite (compare_arrays_same _ Hwf Htot) in Hcmp. rewrite Hcmp. reflexivity.
Qed.

Lemma basic_run_result plugin_name test_file w res w' trace :
  run plugin_name test_file false "basic" w = (res, w', trace) ->
  res = Return ("Converted: " +:+ test_file)
  \/ res = Return ("Error with basic converted file: " +:+ test_file)
  \/ res = Raise (ValueError msg_not_loaded) \/ res = Raise ZeroDivisionError.
Proof.
  intros Hrun.
  destruct (basic_run _ _ _ _ _ _ Hrun) as (verdict & ev & Hcmp & -> & _).
  destruct verdict as [[]|e]; [left; reflexivity|right; left; reflexivity|].
  destruct (compare_in_raises _ _ _ _ _ Hcmp) as [-> | ->];
    [right; right; left|right; right; right]; reflexivity.
Qed.

(** The round trip in verify mode never reports an error when what it
    decodes is an array of the size of its shape. *)
Lemma roundtrip_run_result plugin_name test_file w res w' trace :
  run plugin_name test_file false "roundtrip" w = (res, w', trace) ->
  (forall img, imread w' (roundtrip_of plugin_name test_file) = Some img -> Cv2.wf img) ->
  res = Return ("Converted: " +:+ test_file)
  \/ res = Return "Skipped: SBSAR rountrip is not supported."
  \/ res = Raise (ValueError msg_not_loaded) \/ res = Raise ZeroDivisionError.
Proof.
  unfold run, roundtrip_of, process_file, roundtrip_output_path.
  cbn [String.eqb Ascii.eqb Bool.eqb negb].
  destruct (String.eqb plugin_name "sbsar").
  { intros H _. injection H as <- _ _. right. left. reflexivity. }
  destruct (OsPath.splitext (OsPath.basename test_file)) as [file_name file_extension].
  cbn [fst]. unfold render.
  set (folder := OsPath.join _ [relpath _ _]).
  set (out := OsPath.join folder [file_name +:+ CONVERTED_SUFFIX +:+ RENDER_OUTPUT_FORMAT]).
  set (conv := OsPath.join folder [file_name +:+ CONVERTED_SUFFIX +:+ file_extension]).
  destruct (convert World stage_open stage_export test_file conv (makedirs folder w))
    as [[ok w0] ev1].
  destruct (compare_in World imread (usdrecord conv out w0) out out) as [verdict ev3] eqn:Hcmp.
  destruct verdict as [[]|e]; intros H Hwf; injection H as <- <- _.
  - left. reflexivity.
  - exfalso. apply compare_in_verdict in Hcmp.
    destruct (imread (usdrecord conv out w0) out) as [img|] eqn:Himg; [|discriminate].
    symmetry in Hcmp. apply (compare_arrays_same_verdict img (Hwf img eq_refl) Hcmp).
  - destruct (compare_in_raises _ _ _ _ _ Hcmp) as [-> | ->];
      [right; right; left|right; right; right]; reflexivity.
Qed.

(** One round of the rendering test, from what the run returns. *)
Lemma check_rendering_run test_type plugin_name filename w :
  check_rendering World makedirs usdrecord stage_open stage_export imread
    relpath platform_system DIRECTORY test_type plugin_name filename w
  = let '(res, w1, ev) := run plugin_name filename false test_type w in
    (match res with
     | Raise e => Raise e
     | Return ret =>
         if negb (String.eqb ret EmptyString) && PyStr.startswith ret "Error"
         then Raise (AssertionError (mismatch_message test_type filename ret))
         else Return tt
     end, w1, ev).
Proof.
  unfold check_rendering, run.
  destruct (process_file _ _ _ _ _ _ _ _ _ _ _ _ _ _) as [[[ret|e] w1] ev]; [|reflexivity].
  destruct (negb _ && _); reflexivity.
Qed.

(** X20: the rendering test can fail with an assertion for the basic
    comparison only: the round trip, which compares its rendering with
    itself, raises no assertion when that rendering decodes to an array of
    the size of its shape. *)
Theorem X20_only_the_basic_comparison_fails_the_test
    (plugin_name filename message : string) (w w' : World) (trace : list event) :
  test_rendering plugin_name filename w = (Raise (AssertionError message), w', trace) ->
  (forall img, imread w' (roundtrip_of plugin_name filename) = Some img -> Cv2.wf img) ->
  message = mismatch_message "basic" filename
              ("Error with basic converted file: " +:+ filename).
Proof.
  unfold test_rendering, test_asset_rendering. cbn [for_each].
  rewrite !check_rendering_run.
  destruct (run plugin_name filename false "basic" w) as [[r1 w1] ev1] eqn:Hbasic.
  destruct (basic_run_result _ _ _ _ _ _ Hbasic) as [-> | [-> | [-> | ->]]];
    try (intros H; discriminate H).
  - rewrite converted_is_no_error, check_rendering_run.
    destruct (run plugin_name filename false "roundtrip" w1) as [[r2 w2] ev2] eqn:Hround.
    destruct r2 as [ret|e].
    + destruct (negb _ && _) eqn:Herr; [|intros H; discriminate H].
      intros H Hwf. injection H as _ <- _.
      destruct (roundtrip_run_result _ _ _ _ _ _ Hround Hwf) as [E | [E | [E | E]]];
        try discriminate E; injection E as ->; discriminate Herr.
    + intros H Hwf. injection H as -> <- _.
      destruct (roundtrip_run_result _ _ _ _ _ _ Hround Hwf) as [E | [E | [E | E]]];
        discriminate E.
  - rewrite basic_error_is_error. intros H _. injection H as <- _ _. reflexivity.
Qed.

End RenderingFacts.

Lemma X18_generation_compares_no_image_witness :
  let run := disk_process_file "fbx" cube_path true "roundtrip" ∅ in
  imreads (snd run) = [] /\ fst (fst run) = Return ("Converted: " +:+ cube_path).
Proof.
  intros run.
  assert (Hfst : fst (fst run) = Return ("Converted: " +:+ cube_path))
    by (vm_compute; reflexivity).
  split; [|exact Hfst].
  pose proof (X18_generation_compares_no_image
                (gmap string Cv2.ndarray) (fun _ w => w) disk_usdrecord
                (fun _ _ => true) (fun _ _ w => w) disk_imread (fun _ _ => ".")
                "Linux" "/repo/test" "fbx" cube_path "roundtrip"
                ("Converted: " +:+ cube_path) ∅ (snd (fst run)) (snd run)) as Hgen.
  pose proof (return_eta run _ Hfst) as Hrun.
  specialize (Hgen Hrun). exact (proj1 Hgen).
Defined.

(** A baseline image of two pixels, and a rendering of one. *)
Lemma X19_basic_run_compares_with_the_baseline_witness :
  fst (fst (disk_process_file "fbx" cube_path false "basic" disk_other_baseline))
  = Return ("Error with basic converted file: " +:+ cube_path)
  /\ fst (fst (disk_process_file "fbx" cube_path false "basic" ∅))
     = Raise (ValueError msg_not_loaded).
Proof.
  split.
  - destruct (X19_basic_run_compares_with_the_baseline
                (gmap string Cv2.ndarray) (fun _ w => w) disk_usdrecord
                (fun _ _ => true) (fun _ _ w => w) disk_imread (fun _ _ => ".")
                "Linux" "/repo/test" "fbx" cube_path disk_other_baseline _ _ _
                (triple_eta (disk_process_file "fbx" cube_path false "basic"
                               disk_other_baseline)))
      as (_ & _ & _ & Hshape & _).
    apply (Hshape img_two_pixels img_pixel); [vm_compute; reflexivity..|discriminate].
  - destruct (X19_basic_run_compares_with_the_baseline
                (gmap string Cv2.ndarray) (fun _ w => w) disk_usdrecord
                (fun _ _ => true) (fun _ _ w => w) disk_imread (fun _ _ => ".")
                "Linux" "/repo/test" "fbx" cube_path ∅ _ _ _
                (triple_eta (disk_process_file "fbx" cube_path false "basic" ∅)))
      as (_ & _ & Hnone & _).
    apply Hnone. left. vm_compute. reflexivity.
Defined.

Lemma X20_only_the_basic_comparison_fails_the_test_witness :
  exists message,
    fst (fst (disk_test_asset_rendering "fbx" cube_path disk_other_baseline))
    = Raise (AssertionError message)
    /\ message = mismatch_message "basic" cube_path
                   ("Error with basic converted file: " +:+ cube_path).
Proof.
  assert (Hfst : fst (fst (disk_test_asset_rendering "fbx" cube_path disk_other_baseline))
                 = Raise (AssertionError
                            (mismatch_message "basic" cube_path
                               ("Error with basic converted file: " +:+ cube_path))))
    by (vm_compute; reflexivity).
  eexists. split; [exact Hfst|].
  assert (Hrun : disk_test_asset_rendering "fbx" cube_path disk_other_baseline
                 = (Raise (AssertionError
                             (mismatch_message "basic" cube_path
                                ("Error with basic converted file: " +:+ cube_path))),
                    snd (fst (disk_test_asset_rendering "fbx" cube_path disk_other_baseline)),
                    snd (disk_test_asset_rendering "fbx" cube_path disk_other_baseline))).
  { rewrite <- Hfst. apply triple_eta. }
  apply (X20_only_the_basic_comparison_fails_the_test _ _ _ _ _ _ _ _ _ _ _ _ _ _ _ Hrun).
  intros img Himg. vm_compute in Himg. discriminate Himg.
Defined.

(** ** The loops over the assets *)

Lemma remove_if_exists_delete {A : Type} path (fs : gmap string A) :
  remove_if_exists path fs = delete path fs.
Proof.
  unfold remove_if_exists. destruct (fs !! path) eqn:E; [reflexivity|].
  symmetry. apply delete_id, E.
Qed.

Lemma wf_records_app a b :
  Json.wf (Json.JArr a) = true -> Json.wf (Json.JArr b) = true ->
  Json.wf (Json.JArr (a ++ b)) = true.
Proof.
  intros Ha Hb. change (forallb Json.wf (a ++ b) = true).
  rewrite forallb_app. change (forallb Json.wf a = true) in Ha.
  change (forallb Json.wf b = true) in Hb. rewrite Ha, Hb. reflexivity.
Qed.

Lemma existing_with_document results_file records fs :
  Json.wf (Json.JArr records) = true ->
  existing_results results_file (with_document results_file records fs) = Json.JArr records.
Proof.
  intros Hwf. unfold existing_results, with_document. destruct records as [|x records].
  - rewrite lookup_delete_eq. reflexivity.
  - rewrite lookup_insert_eq, (loads_dumps _ Hwf). reflexivity.
Qed.

Lemma append_with_document results_file records x fs :
  <[results_file := Json.dumps (Json.JArr (records ++ [x]))]>
    (with_document results_file records fs)
  = with_document results_file (records ++ [x]) fs.
Proof.
  unfold with_document. destruct records as [|y records]; cbn [app].
  - apply insert_delete_eq.
  - apply insert_insert_eq.
Qed.

(** What the text files hold once a document is rewritten. *)
Lemma with_document_lookup results_file records fs :
  (forall path, path <> results_file ->
                with_document results_file records fs !! path = fs !! path)
  /\ match records with
     | [] => with_document results_file records fs !! results_file = None
     | _ => with_document results_file records fs !! results_file
            = Some (Json.dumps (Json.JArr records))
     end.
Proof.
  unfold with_document. split.
  - intros path Hpath. destruct records.
    + apply lookup_delete_ne. congruence.
    + apply lookup_insert_ne. congruence.
  - destruct records; [apply lookup_delete_eq|apply lookup_insert_eq].
Qed.

Lemma selected_paths_cons entry walked extensions :
  selected_paths (entry :: walked) extensions
  = selected_paths [entry] extensions ++ selected_paths walked extensions.
Proof. unfold selected_paths. cbn [flat_map]. rewrite List.app_nil_r. reflexivity. Qed.

Section GenerationFacts.

Variable World : Type.
Variable makedirs : string -> World -> World.
Variable usdrecord : string -> string -> World -> World.
Variable stage_open : string -> World -> bool.
Variable stage_export : string -> string -> World -> World.
Variable imread : World -> string -> option Cv2.ndarray.
Variable relpath : string -> string -> string.
Variable platform_system : string.
Variable DIRECTORY : string.
Variable usdchecker : string -> string * string.
Variable walk : string -> list (string * list string).

Let run := process_file World makedirs usdrecord stage_open stage_export imread
             relpath platform_system DIRECTORY.
Let asset := generate_asset World makedirs usdrecord stage_open stage_export imread
               relpath platform_system DIRECTORY usdchecker.
Let family := generate_plugin World makedirs usdrecord stage_open stage_export imread
                relpath platform_system DIRECTORY usdchecker walk.
Let records_of := generated_records usdchecker.

(** With tools that answer, a run of the generation returns, and it reads
    no image. *)
Lemma generation_run plugin_name test_file test_type w :
  exists ret w' ev,
    run plugin_name test_file true test_type w = (Return ret, w', ev) /\ imreads ev = [].
Proof.
  unfold run, process_file. cbn [negb].
  destruct (String.eqb test_type "basic").
  - unfold render. eexists _, _, _. split; reflexivity.
  - destruct (String.eqb test_type "roundtrip"); [|eexists _, _, _; split; reflexivity].
    destruct (String.eqb plugin_name "sbsar"); [eexists _, _, _; split; reflexivity|].
    destruct (OsPath.splitext (OsPath.basename test_file)) as [file_name file_extension].
    unfold convert, render. destruct (stage_open _ _); eexists _, _, _; split; reflexivity.
Qed.

Lemma wf_generated plugin_name paths :
  Json.wf (Json.JArr (records_of plugin_name paths)) = true.
Proof.
  unfold records_of, generated_records. destruct (String.eqb plugin_name "sbsar");
    [reflexivity|].
  induction paths as [|path paths IH]; [reflexivity|].
  change (Json.wf (result_to_json (diagnose path (fst (usdchecker path))
                                     (snd (usdchecker path))))
          && Json.wf (Json.JArr (map (fun path => result_to_json
                                        (diagnose path (fst (usdchecker path))
                                           (snd (usdchecker path)))) paths)) = true).
  rewrite wf_result, IH. reflexivity.
Qed.

Lemma generated_app plugin_name a b :
  records_of plugin_name (a ++ b) = records_of plugin_name a ++ records_of plugin_name b.
Proof.
  unfold records_of, generated_records. destruct (String.eqb plugin_name "sbsar");
    [reflexivity|apply List.map_app].
Qed.

(** One asset of the generation: its record is added to the document. *)
Lemma generate_asset_document plugin_name results_file path w records fs :
  Json.wf (Json.JArr records) = true ->
  exists w' ev,
    asset plugin_name results_file path (w, with_document results_file records fs)
    = (Return tt,
       (w', with_document results_file (records ++ records_of plugin_name [path]) fs), ev)
    /\ imreads ev = [].
Proof.
  intros Hwf. unfold asset, generate_asset.
  destruct (generation_run plugin_name path "basic" w) as (ret1 & w1 & ev1 & Hr1 & He1).
  unfold run in Hr1. rewrite Hr1.
  destruct (generation_run plugin_name path "roundtrip" w1) as (ret2 & w2 & ev2 & Hr2 & He2).
  unfold run in Hr2. rewrite Hr2.
  assert (Hev : imreads (ev1 ++ ev2) = []).
  { unfold imreads in *. rewrite omap_app, He1, He2. reflexivity. }
  unfold records_of, generated_records.
  destruct (String.eqb plugin_name "sbsar"); cbn [negb].
  - rewrite List.app_nil_r. exists w2, (ev1 ++ ev2). split; [reflexivity|exact Hev].
  - cbn [map]. destruct (usdchecker path) as [stdout_str stderr_str]. cbn [fst snd].
    unfold run_usdchecker. rewrite (existing_with_document _ _ _ Hwf).
    rewrite append_with_document. exists w2, (ev1 ++ ev2). split; [reflexivity|exact Hev].
Qed.

(** The files of one directory. *)
Lemma generate_files plugin_name results_file extensions root files fs :
  forall w records,
    Json.wf (Json.JArr records) = true ->
    exists w' ev,
      for_each (fun file st =>
                  if has_extension file extensions
                  then asset plugin_name results_file (OsPath.join root [file]) st
                  else (Return tt, st, []))
        files (w, with_document results_file records fs)
      = (Return tt,
         (w', with_document results_file
                (records ++ records_of plugin_name
                              (selected_paths [(root, files)] extensions)) fs), ev)
      /\ imreads ev = [].
Proof.
  unfold selected_paths. cbn [flat_map fst snd]. rewrite List.app_nil_r.
  induction files as [|file files IH]; intros w records Hwf.
  - exists w, []. cbn [for_each]. rewrite filter_nil. cbn [map].
    unfold records_of, generated_records.
    destruct (String.eqb plugin_name "sbsar"); cbn [map]; rewrite List.app_nil_r;
      split; reflexivity.
  - cbn [for_each]. destruct (has_extension file extensions) eqn:Hext.
    + rewrite filter_cons_True by exact Hext. cbn [map].
      destruct (generate_asset_document plugin_name results_file (OsPath.join root [file])
                  w records fs Hwf) as (w1 & ev1 & -> & He1).
      destruct (IH w1 (records ++ records_of plugin_name [OsPath.join root [file]]))
        as (w2 & ev2 & -> & He2).
      { apply wf_records_app; [exact Hwf|apply wf_generated]. }
      exists w2, (ev1 ++ ev2). split.
      * rewrite <- List.app_assoc, <- generated_app. reflexivity.
      * unfold imreads in *. rewrite omap_app, He1, He2. reflexivity.
    + rewrite filter_cons_False by (rewrite Hext; discriminate).
      destruct (IH w records Hwf) as (w2 & ev2 & -> & He2).
      exists w2, ([] ++ ev2). split; [reflexivity|exact He2].
Qed.

(** The directories of a walk. *)
Lemma generate_walk plugin_name results_file extensions walked fs :
  forall w records,
    Json.wf (Json.JArr records) = true ->
    exists w' ev,
      for_each_file (fun root file st =>
                       if has_extension file extensions
                       then asset plugin_name results_file (OsPath.join root [file]) st
                       else (Return tt, st, []))
        walked (w, with_document results_file records fs)
      = (Return tt,
         (w', with_document results_file
                (records ++ records_of plugin_name (selected_paths walked extensions)) fs),
         ev)
      /\ imreads ev = [].
Proof.
  unfold for_each_file. induction walked as [|[root files] walked IH]; intros w records Hwf.
  - exists w, []. cbn [for_each]. unfold selected_paths. cbn [flat_map].
    unfold records_of, generated_records.
    destruct (String.eqb plugin_name "sbsar"); cbn [map]; rewrite List.app_nil_r;
      split; reflexivity.
  - cbn [for_each fst snd].
    destruct (generate_files plugin_name results_file extensions root files fs w records Hwf)
      as (w1 & ev1 & -> & He1).
    destruct (IH w1 (records ++ records_of plugin_name
                                  (selected_paths [(root, files)] extensions)))
      as (w2 & ev2 & -> & He2).
    { apply wf_records_app; [exact Hwf|apply wf_generated]. }
    exists w2, (ev1 ++ ev2). split.
    + rewrite <- List.app_assoc, <- generated_app, <- selected_paths_cons. reflexivity.
    + unfold imreads in *. rewrite omap_app, He1, He2. reflexivity.
Qed.

(** One family of the generation: its document is rewritten from the
    records of the selected files. *)
Lemma generate_plugin_document override_file_filter plugin_name extensions w fs :
  exists w' trace,
    family override_file_filter (plugin_name, extensions) (w, fs)
    = (Return tt,
       (w', with_document (baseline_results_file platform_system DIRECTORY plugin_name)
              (records_of plugin_name
                 (selected_paths (walk (OsPath.join (ASSET_PATH DIRECTORY) [plugin_name]))
                    (overridden override_file_filter extensions))) fs),
       trace)
    /\ imreads trace = [].
Proof.
  unfold family, generate_plugin. cbv zeta. cbn [fst snd].
  rewrite remove_if_exists_delete.
  apply (generate_walk plugin_name _ _ _ fs w [] eq_refl).
Qed.

(** X21: a generation of a family that returns has read no image and has
    rewritten the baseline document of the family from scratch: the
    document decodes to the records of the selected assets, in the order of
    the walk, whatever it held before, and there is no document when no
    asset is selected or the family is sbsar; no other text file has
    changed. *)
Theorem X21_generation_rewrites_the_baseline_document
    (override_file_filter : option (list string)) (plugin_name : string)
    (extensions : list string) (w : World) (fs : gmap string string)
    (st' : World * gmap string string) (trace : list event) :
  let results_file := baseline_results_file platform_system DIRECTORY plugin_name in
  let records :=
    records_of plugin_name
      (selected_paths (walk (OsPath.join (ASSET_PATH DIRECTORY) [plugin_name]))
         (overridden override_file_filter extensions)) in
  family override_file_filter (plugin_name, extensions) (w, fs) = (Return tt, st', trace) ->
  imreads trace = []
  /\ (forall path, path <> results_file -> snd st' !! path = fs !! path)
  /\ match records with
     | [] => snd st' !! results_file = None
     | _ => exists text, snd st' !! results_file = Some text
                         /\ Json.loads text = Some (Json.JArr records)
     end.
Proof.
  intros results_file records Hrun.
  destruct (generate_plugin_document override_file_filter plugin_name extensions w fs)
    as (w1 & trace1 & Hrun1 & Hreads).
  fold results_file records in Hrun1.
  rewrite Hrun1 in Hrun. injection Hrun as <- <-. cbn [snd].
  split; [exact Hreads|].
  destruct (with_document_lookup results_file records fs) as [Hother Hdoc].
  split; [exact Hother|].
  pose proof (wf_generated plugin_name
                (selected_paths (walk (OsPath.join (ASSET_PATH DIRECTORY) [plugin_name]))
                   (overridden override_file_filter extensions))) as Hwf.
  fold records in Hwf. destruct records as [|x records']; [exact Hdoc|].
  eexists. split; [exact Hdoc|]. apply loads_dumps, Hwf.
Qed.

(** The text files after the families of a list. *)
Lemma generate_families_documents override_file_filter
    (families : list (string * list string)) w fs :
  exists w' trace,
    for_each (family override_file_filter) families (w, fs)
    = (Return tt,
       (w', fold_left
              (fun fs entry =>
                 with_document (baseline_results_file platform_system DIRECTORY (fst entry))
                   (records_of (fst entry)
                      (selected_paths
                         (walk (OsPath.join (ASSET_PATH DIRECTORY) [fst entry]))
                         (overridden override_file_filter (snd entry)))) fs)
              families fs),
       trace).
Proof.
  revert w fs. induction families as [|[plugin_name extensions] families IH]; intros w fs.
  - exists w, []. reflexivity.
  - cbn [for_each fold_left fst snd].
    destruct (generate_plugin_document override_file_filter plugin_name extensions w fs)
      as (w1 & trace1 & -> & _).
    destruct (IH w1 (with_document
                       (baseline_results_file platform_system DIRECTORY plugin_name)
                       (records_of plugin_name
                          (selected_paths
                             (walk (OsPath.join (ASSET_PATH DIRECTORY) [plugin_name]))
                             (overridden override_file_filter extensions))) fs))
      as (w2 & trace2 & ->).
    exists w2, (trace1 ++ trace2). reflexivity.
Qed.

(** Rewritten documents hide what the text files held at their paths. *)
Lemma rewritten_documents_agree {B : Type} (key : B -> string)
    (records : B -> list Json.value) (l : list B) (fs1 fs2 : gmap string string)
    (path : string) :
  fs1 !! path = fs2 !! path \/ (exists x, In x l /\ key x = path) ->
  fold_left (fun fs x => with_document (key x) (records x) fs) l fs1 !! path
  = fold_left (fun fs x => with_document (key x) (records x) fs) l fs2 !! path.
Proof.
  revert fs1 fs2. induction l as [|x l IH]; intros fs1 fs2 H.
  - destruct H as [H|(x & [] & _)]. exact H.
  - cbn [fold_left]. apply IH.
    destruct (with_document_lookup (key x) (records x) fs1) as [Hother1 Hdoc1].
    destruct (with_document_lookup (key x) (records x) fs2) as [Hother2 Hdoc2].
    destruct (String.eqb_spec path (key x)) as [->|Hne].
    + left. destruct (records x); rewrite Hdoc1, Hdoc2; reflexivity.
    + destruct H as [H|(y & [<-|Hin] & Hy)].
      * left. rewrite (Hother1 _ Hne), (Hother2 _ Hne). exact H.
      * symmetry in Hy. contradiction.
      * right. exists y. split; assumption.
Qed.

(** Two runs over the families of a list, from text files that agree
    outside the documents of those families. *)
Lemma generations_agree override_file_filter (families : list (string * list string))
    w fs1 fs2 st1 st2 trace1 trace2 :
  (forall path,
      (forall plugin_name extensions,
          In (plugin_name, extensions) families ->
          path <> baseline_results_file platform_system DIRECTORY plugin_name) ->
      fs1 !! path = fs2 !! path) ->
  for_each (family override_file_filter) families (w, fs1) = (Return tt, st1, trace1) ->
  for_each (family override_file_filter) families (w, fs2) = (Return tt, st2, trace2) ->
  snd st1 = snd st2.
Proof.
  intros Hagree Hrun1 Hrun2.
  destruct (generate_families_documents override_file_filter families w fs1)
    as (w1 & t1 & E1).
  destruct (generate_families_documents override_file_filter families w fs2)
    as (w2 & t2 & E2).
  rewrite E1 in Hrun1. rewrite E2 in Hrun2.
  injection Hrun1 as <- _. injection Hrun2 as <- _. cbn [snd].
  apply map_eq. intros path.
  apply (rewritten_documents_agree
           (fun entry : string * list string =>
              baseline_results_file platform_system DIRECTORY (fst entry))).
  destruct (existsb (fun entry : string * list string =>
                       String.eqb (baseline_results_file platform_system DIRECTORY
                                     (fst entry)) path) families) eqn:Hex.
  - right. apply existsb_exists in Hex as (entry & Hin & E).
    exists entry. split; [exact Hin|apply String.eqb_eq, E].
  - left. apply Hagree. intros plugin_name extensions Hin ->.
    assert (Htrue : existsb (fun entry : string * list string =>
                               String.eqb (baseline_results_file platform_system DIRECTORY
                                             (fst entry))
                                 (baseline_results_file platform_system DIRECTORY
                                    plugin_name)) families = true).
    { apply existsb_exists. exists (plugin_name, extensions). split; [exact Hin|].
      apply String.eqb_refl. }
    congruence.
Qed.

(** X22: what the generation of the baselines leaves in the text files
    does not depend on the baseline documents it found: two generations
    that return, from the same world and from text files that differ in
    those documents only, leave the same text files. *)
Theorem X22_generation_forgets_the_former_documents
    (override_file_filter : option (list string)) (w : World)
    (fs1 fs2 : gmap string string) (st1 st2 : World * gmap string string)
    (trace1 trace2 : list event) :
  (forall path,
      (forall plugin_name extensions,
          In (plugin_name, extensions) file_formats ->
          path <> baseline_results_file platform_system DIRECTORY plugin_name) ->
      fs1 !! path = fs2 !! path) ->
  generate_baseline_function World makedirs usdrecord stage_open stage_export imread
    relpath platform_system DIRECTORY usdchecker walk override_file_filter (w, fs1)
  = (Return tt, st1, trace1) ->
  generate_baseline_function World makedirs usdrecord stage_open stage_export imread
    relpath platform_system DIRECTORY usdchecker walk override_file_filter (w, fs2)
  = (Return tt, st2, trace2) ->
  snd st1 = snd st2.
Proof.
  intros Hagree Hrun1 Hrun2.
  apply (generations_agree override_file_filter file_formats w fs1 fs2 st1 st2
           trace1 trace2 Hagree Hrun1 Hrun2).
Qed.

End GenerationFacts.

Lemma X21_generation_rewrites_the_baseline_document_witness :
  let run := disk_generate_plugin None ("fbx", [".fbx"]) (∅, stale_fs) in
  exists text,
    snd (snd (fst run)) !! cube_baseline_file = Some text
    /\ Json.loads text
       = Some (Json.JArr [result_to_json
                            (diagnose cube_path (fst (cube_usdchecker cube_path))
                               (snd (cube_usdchecker cube_path)))]).
Proof.
  intros run.
  assert (Hfst : fst (fst run) = Return tt) by (vm_compute; reflexivity).
  pose proof (return_eta run _ Hfst) as Hrun.
  pose proof (X21_generation_rewrites_the_baseline_document
                (gmap string Cv2.ndarray) (fun _ w => w) disk_usdrecord
                (fun _ _ => true) (fun _ _ w => w) disk_imread (fun _ _ => ".")
                "Linux" "/repo/test" cube_usdchecker cube_walk
                None "fbx" [".fbx"] ∅ stale_fs (snd (fst run)) (snd run)) as Hgen.
  cbv zeta in Hgen. specialize (Hgen Hrun). destruct Hgen as (_ & _ & Hdoc).
  exact Hdoc.
Defined.

Lemma X22_generation_forgets_the_former_documents_witness :
  snd (snd (fst (disk_generate_baseline_function None (∅, ∅))))
  = snd (snd (fst (disk_generate_baseline_function None (∅, stale_fs)))).
Proof.
  set (run1 := disk_generate_baseline_function None (∅, ∅)).
  set (run2 := disk_generate_baseline_function None (∅, stale_fs)).
  assert (Hfst1 : fst (fst run1) = Return tt) by (vm_compute; reflexivity).
  assert (Hfst2 : fst (fst run2) = Return tt) by (vm_compute; reflexivity).
  pose proof (return_eta run1 _ Hfst1) as Hrun1.
  pose proof (return_eta run2 _ Hfst2) as Hrun2.
  pose proof (X22_generation_forgets_the_former_documents
                (gmap string Cv2.ndarray) (fun _ w => w) disk_usdrecord
                (fun _ _ => true) (fun _ _ w => w) disk_imread (fun _ _ => ".")
                "Linux" "/repo/test" cube_usdchecker cube_walk
                None ∅ ∅ stale_fs (snd (fst run1)) (snd (fst run2))
                (snd run1) (snd run2)) as Hgen.
  assert (Hagree : forall path : string,
             (forall plugin_name extensions,
                 In (plugin_name, extensions) file_formats ->
                 path <> baseline_results_file "Linux" "/repo/test" plugin_name) ->
             (∅ : gmap string string) !! path = stale_fs !! path).
  { intros path Hpath. unfold stale_fs. rewrite lookup_empty. symmetry.
    apply lookup_singleton_ne. intros E.
    apply (Hpath "fbx" [".fbx"]); [left; reflexivity|]. rewrite <- E. reflexivity. }
  exact (Hgen Hagree Hrun1 Hrun2).
Defined.

(** *** The collection of the tests *)

Lemma has_extension_spec file extensions :
  has_extension file extensions = true
  <-> exists ext, In ext extensions /\ endswith file ext = true.
Proof. unfold has_extension. apply existsb_exists. Qed.

Lemma in_selected_paths path walked extensions :
  In path (selected_paths walked extensions)
  <-> exists root files file,
        In (root, files) walked /\ In file files
        /\ path = OsPath.join root [file] /\ has_extension file extensions = true.
Proof.
  unfold selected_paths. rewrite in_flat_map. split.
  - intros ([root files] & Hentry & Hin). cbn [fst snd] in Hin.
    apply in_map_iff in Hin as (file & <- & Hfile).
    apply list_elem_of_In, list_elem_of_filter in Hfile as [Hext Hfile].
    exists root, files, file. repeat split; try assumption. apply list_elem_of_In, Hfile.
  - intros (root & files & file & Hentry & Hfile & -> & Hext).
    exists (root, files). split; [exact Hentry|]. cbn [fst snd].
    apply in_map_iff. exists file. split; [reflexivity|].
    apply list_elem_of_In, list_elem_of_filter. split; [exact Hext|apply list_elem_of_In, Hfile].
Qed.

(** The extensions of a family that the option leaves. *)
Lemma in_select_extensions ext file_filter extensions :
  In ext (select_extensions file_filter extensions)
  <-> In ext extensions
      /\ forall text, file_filter = Some text -> text <> EmptyString ->
                      PyStr.contains ext text = true.
Proof.
  unfold select_extensions. destruct file_filter as [text|].
  - destruct (String.eqb_spec text EmptyString) as [->|Hne].
    + split; [intros Hin; split; [exact Hin|]|intros [Hin _]; exact Hin].
      intros text E Htext. injection E as <-. contradiction.
    + rewrite <- list_elem_of_In, list_elem_of_filter, list_elem_of_In. split.
      * intros [Hc Hin]. split; [exact Hin|]. intros text' E _. injection E as <-. exact Hc.
      * intros [Hin Hc]. split; [apply (Hc text eq_refl Hne)|exact Hin].
  - split; [intros Hin; split; [exact Hin|]|intros [Hin _]; exact Hin]. discriminate.
Qed.

(** The state of a fold of deletions. *)
Lemma lookup_fold_delete {A B : Type} (key : B -> string) (l : list B)
    (fs : gmap string A) (path : string) :
  fold_left (fun fs x => delete (key x) fs) l fs !! path
  = if existsb (fun x => String.eqb (key x) path) l then None else fs !! path.
Proof.
  revert fs. induction l as [|x l IH]; intros fs; [reflexivity|].
  cbn [fold_left existsb]. rewrite IH.
  destruct (String.eqb_spec (key x) path) as [->|Hne]; cbn [orb].
  - rewrite lookup_delete_eq. destruct (existsb _ l); reflexivity.
  - rewrite lookup_delete_ne by exact Hne. reflexivity.
Qed.

Section CollectionFacts.

Variable platform_system : string.
Variable DIRECTORY : string.
Variable walk : string -> list (string * list string).

Let collect := pytest_generate_tests platform_system DIRECTORY walk.
Let results_file := output_results_file platform_system DIRECTORY.

(** The loop over the families, from any state. *)
Lemma collect_fold file_filter (families : list (string * list string)) tests
    (fs : gmap string string) :
  fold_left
    (fun acc entry =>
       let '(plugin_name, extensions) := entry in
       let extensions := select_extensions file_filter extensions in
       (fst acc ++ plugin_tests DIRECTORY walk plugin_name extensions,
        remove_if_exists (results_file plugin_name) (snd acc)))
    families (tests, fs)
  = (tests ++ flat_map (fun entry =>
                          plugin_tests DIRECTORY walk (fst entry)
                            (select_extensions file_filter (snd entry))) families,
     fold_left (fun fs entry => delete (results_file (fst entry)) fs) families fs).
Proof.
  revert tests fs. induction families as [|[plugin_name extensions] families IH];
    intros tests fs.
  - cbn [fold_left flat_map]. rewrite List.app_nil_r. reflexivity.
  - cbn [fold_left flat_map fst snd]. rewrite IH, remove_if_exists_delete, List.app_assoc.
    reflexivity.
Qed.

Lemma collect_families file_filter (fs : gmap string string) :
  collect file_filter fs
  = (flat_map (fun entry =>
                 plugin_tests DIRECTORY walk (fst entry)
                   (select_extensions file_filter (snd entry))) file_formats,
     fold_left (fun fs entry => delete (results_file (fst entry)) fs) file_formats fs).
Proof. apply (collect_fold file_filter file_formats [] fs). Qed.

(** X23: the collected tests are the walked files of the folder of each
    family whose name ends with an extension of that family, and with one
    that occurs in the text of the option when that text is given and not
    empty: no file is tested under a family whose extensions it does not
    end with, and no such file is left out. *)
Theorem X23_collected_tests_end_with_an_extension_of_their_family
    (file_filter : option string) (fs : gmap string string) (plugin_name path : string) :
  In (plugin_name, path) (fst (collect file_filter fs))
  <-> exists extensions root files file ext,
        In (plugin_name, extensions) file_formats
        /\ In (root, files) (walk (OsPath.join (ASSET_PATH DIRECTORY) [plugin_name]))
        /\ In file files
        /\ path = OsPath.join root [file]
        /\ In ext extensions
        /\ endswith file ext = true
        /\ (forall text, file_filter = Some text -> text <> EmptyString ->
                         PyStr.contains ext text = true).
Proof.
  rewrite collect_families. cbn [fst].
  rewrite in_flat_map. split.
  - intros ([plugin extensions] & Hfamily & Hin). cbn [fst snd] in Hin.
    unfold plugin_tests in Hin. apply in_map_iff in Hin as (p & E & Hin).
    injection E as <- <-.
    apply in_selected_paths in Hin as (root & files & file & Hentry & Hfile & -> & Hext).
    apply has_extension_spec in Hext as (ext & Hsel & Hends).
    apply in_select_extensions in Hsel as [Hin Hfilter].
    exists extensions, root, files, file, ext. repeat split; assumption.
  - intros (extensions & root & files & file & ext
            & Hfamily & Hentry & Hfile & -> & Hin & Hends & Hfilter).
    exists (plugin_name, extensions). split; [exact Hfamily|]. cbn [fst snd].
    unfold plugin_tests. apply in_map_iff. eexists. split; [reflexivity|].
    apply in_selected_paths. exists root, files, file. repeat split; try assumption.
    apply has_extension_spec. exists ext. split; [|exact Hends].
    apply in_select_extensions. split; assumption.
Qed.

(** X24: the collection removes the results document of every family from
    the output folder, so that the records of a former session are not
    kept; it changes no other text file. *)
Theorem X24_collection_removes_the_former_results
    (file_filter : option string) (fs : gmap string string) :
  (forall plugin_name extensions,
      In (plugin_name, extensions) file_formats ->
      snd (collect file_filter fs) !! results_file plugin_name = None)
  /\ (forall path,
        (forall plugin_name extensions,
            In (plugin_name, extensions) file_formats -> path <> results_file plugin_name) ->
        snd (collect file_filter fs) !! path = fs !! path).
Proof.
  rewrite collect_families. cbn [snd].
  split.
  - intros plugin_name extensions Hin.
    rewrite (lookup_fold_delete (fun entry => results_file (fst entry))).
    assert (Hex : existsb (fun entry : string * list string =>
                             String.eqb (results_file (fst entry)) (results_file plugin_name))
                    file_formats = true).
    { apply existsb_exists. exists (plugin_name, extensions). split; [exact Hin|].
      apply String.eqb_refl. }
    rewrite Hex. reflexivity.
  - intros path Hpath.
    rewrite (lookup_fold_delete (fun entry => results_file (fst entry))).
    destruct (existsb _ file_formats) eqn:Hex; [|reflexivity].
    apply existsb_exists in Hex as ([plugin_name extensions] & Hin & E).
    apply String.eqb_eq in E. cbn [fst] in E. exfalso.
    apply (Hpath plugin_name extensions Hin). symmetry. exact E.
Qed.

End CollectionFacts.

(** *** The clean-up *)

Lemma for_each_app {A S : Type} (body : A -> S -> result unit * S * list event)
    (l1 l2 : list A) (s : S) :
  for_each body (l1 ++ l2) s
  = match for_each body l1 s with
    | (Raise e, s1, ev) => (Raise e, s1, ev)
    | (Return _, s1, ev) =>
        let '(r, s2, ev') := for_each body l2 s1 in (r, s2, ev ++ ev')
    end.
Proof.
  revert s. induction l1 as [|x l1 IH]; intros s.
  - cbn [app for_each]. destruct (for_each body l2 s) as [[r s2] ev']. reflexivity.
  - cbn [app for_each]. destruct (body x s) as [[[u|e] s1] ev]; [|reflexivity].
    rewrite IH. destruct (for_each body l1 s1) as [[[u1|e1] s2] ev1]; [|reflexivity].
    destruct (for_each body l2 s2) as [[r s3] ev2]. rewrite List.app_assoc. reflexivity.
Qed.

(** The clean-up is the removal of the paths of [removed_paths], in their
    order. *)
Lemma cleanup_removes {A : Type} walked extensions (fs : gmap string A) :
  cleanup walked extensions fs = for_each os_remove (removed_paths walked extensions) fs.
Proof.
  unfold cleanup, for_each_file, removed_paths. revert fs.
  induction walked as [|[root files] walked IH]; intros fs; [reflexivity|].
  cbn [for_each flat_map fst snd]. rewrite for_each_app.
  assert (Hfiles : forall fs : gmap string A,
    for_each (fun file fs => if negb (has_extension file extensions)
                             then os_remove (OsPath.join root [file]) fs
                             else (Return tt, fs, [])) files fs
    = for_each os_remove
        (map (fun file => OsPath.join root [file])
             (filter (fun file => has_extension file extensions = false) files)) fs).
  { clear IH. induction files as [|file files IHf]; intros fs0; [reflexivity|].
    cbn [for_each]. destruct (has_extension file extensions) eqn:Hext; cbn [negb].
    - rewrite filter_cons_False by (rewrite Hext; discriminate). rewrite IHf.
      destruct (for_each os_remove _ fs0) as [[r s2] ev']. reflexivity.
    - rewrite filter_cons_True by exact Hext. cbn [map for_each].
      destruct (os_remove (OsPath.join root [file]) fs0) as [[[u|e] s1] ev]; [|reflexivity].
      rewrite IHf. reflexivity. }
  rewrite Hfiles. destruct (for_each os_remove _ fs) as [[[u|e] s1] ev]; [|reflexivity].
  rewrite IH. reflexivity.
Qed.

Lemma in_removed_paths path walked extensions :
  In path (removed_paths walked extensions)
  <-> exists root files file,
        In (root, files) walked /\ In file files
        /\ path = OsPath.join root [file] /\ has_extension file extensions = false.
Proof.
  unfold removed_paths. rewrite in_flat_map. split.
  - intros ([root files] & Hentry & Hin). cbn [fst snd] in Hin.
    apply in_map_iff in Hin as (file & <- & Hfile).
    apply list_elem_of_In, list_elem_of_filter in Hfile as [Hext Hfile].
    exists root, files, file. repeat split; try assumption. apply list_elem_of_In, Hfile.
  - intros (root & files & file & Hentry & Hfile & -> & Hext).
    exists (root, files). split; [exact Hentry|]. cbn [fst snd].
    apply in_map_iff. exists file. split; [reflexivity|].
    apply list_elem_of_In, list_elem_of_filter. split; [exact Hext|apply list_elem_of_In, Hfile].
Qed.

(** A removal of paths leaves the other paths as they are, also when it
    raises. *)
Lemma remove_all_others {A : Type} paths (fs : gmap string A) path :
  ~ In path paths ->
  snd (fst (for_each os_remove paths fs)) !! path = fs !! path.
Proof.
  revert fs. induction paths as [|p paths IH]; intros fs Hnot; [reflexivity|].
  cbn [for_each]. unfold os_remove at 1. destruct (fs !! p) eqn:Hp; [|reflexivity].
  specialize (IH (delete p fs) ltac:(intros Hin; apply Hnot; right; exact Hin)).
  destruct (for_each os_remove paths (delete p fs)) as [[r s2] ev']. cbn [fst snd] in *.
  rewrite IH. apply lookup_delete_ne. intros ->. apply Hnot. left. reflexivity.
Qed.

(** A removal of distinct paths that exist returns, and none of them is
    left. *)
Lemma remove_all_returns {A : Type} paths (fs : gmap string A) :
  List.NoDup paths -> (forall p, In p paths -> fs !! p <> None) ->
  exists fs', for_each os_remove paths fs = (Return tt, fs', [])
              /\ forall p, In p paths -> fs' !! p = None.
Proof.
  revert fs. induction paths as [|p paths IH]; intros fs Hnodup Hexist.
  - exists fs. split; [reflexivity|]. intros p [].
  - apply List.NoDup_cons_iff in Hnodup as [Hnotin Hnodup].
    cbn [for_each]. unfold os_remove at 1.
    destruct (fs !! p) eqn:Hp; [|exfalso; apply (Hexist p); [left; reflexivity|exact Hp]].
    destruct (IH (delete p fs) Hnodup) as (fs' & Hrun & Hgone).
    { intros q Hq. rewrite lookup_delete_ne by (intros ->; contradiction).
      apply Hexist. right. exact Hq. }
    rewrite Hrun. exists fs'. split; [reflexivity|].
    intros q [<-|Hq]; [|apply Hgone, Hq].
    pose proof (remove_all_others paths (delete p fs) p Hnotin) as Hsame.
    rewrite Hrun in Hsame. cbn [fst snd] in Hsame. rewrite Hsame. apply lookup_delete_eq.
Qed.

(** X25: the clean-up leaves every path as it is, apart from the walked
    files whose name ends with none of the extensions to keep; that holds
    also when it stops on an exception. *)
Theorem X25_cleanup_touches_listed_files_only {A : Type}
    (walked : list (string * list string)) (extensions : list string)
    (fs : gmap string A) (path : string) :
  (forall root files file,
      In (root, files) walked -> In file files ->
      has_extension file extensions = false -> path <> OsPath.join root [file]) ->
  snd (fst (cleanup walked extensions fs)) !! path = fs !! path.
Proof.
  intros Hpath. rewrite cleanup_removes. apply remove_all_others.
  intros Hin. apply in_removed_paths in Hin as (root & files & file & He & Hf & E & Hext).
  apply (Hpath root files file He Hf Hext E).
Qed.

(** X26: when the files to remove exist and their paths are distinct, the
    clean-up returns normally and none of them is left; a file to remove
    that does not exist makes it raise. *)
Theorem X26_cleanup_removes_the_other_files {A : Type}
    (walked : list (string * list string)) (extensions : list string)
    (fs : gmap string A) :
  List.NoDup (removed_paths walked extensions) ->
  (forall root files file,
      In (root, files) walked -> In file files ->
      has_extension file extensions = false -> fs !! OsPath.join root [file] <> None) ->
  exists fs',
    cleanup walked extensions fs = (Return tt, fs', [])
    /\ forall root files file,
         In (root, files) walked -> In file files ->
         has_extension file extensions = false -> fs' !! OsPath.join root [file] = None.
Proof.
  intros Hnodup Hexist. rewrite cleanup_removes.
  destruct (remove_all_returns (removed_paths walked extensions) fs Hnodup)
    as (fs' & Hrun & Hgone).
  { intros p Hp. apply in_removed_paths in Hp as (root & files & file & He & Hf & -> & Hext).
    apply (Hexist root files file He Hf Hext). }
  exists fs'. split; [exact Hrun|].
  intros root files file He Hf Hext. apply Hgone, in_removed_paths.
  exists root, files, file. auto.
Qed.

Lemma X25_cleanup_touches_listed_files_only_witness :
  snd (fst (cleanup baseline_walked [".jpg"; ".json"] baseline_disk))
    !! "/repo/test/baseline/cube.jpg"
  = Some "image".
Proof.
  rewrite (X25_cleanup_touches_listed_files_only baseline_walked [".jpg"; ".json"]
             baseline_disk "/repo/test/baseline/cube.jpg").
  - vm_compute. reflexivity.
  - intros root files file [E|[]] Hfile Hext. injection E as <- <-.
    destruct Hfile as [<-|[<-|[<-|[]]]]; vm_compute in Hext; try discriminate Hext.
    vm_compute. discriminate.
Defined.

Lemma X26_cleanup_removes_the_other_files_witness :
  exists fs',
    cleanup baseline_walked [".jpg"; ".json"] baseline_disk = (Return tt, fs', [])
    /\ fs' !! "/repo/test/baseline/cube_roundtrip.usd" = None.
Proof.
  destruct (X26_cleanup_removes_the_other_files baseline_walked [".jpg"; ".json"]
              baseline_disk) as (fs' & Hrun & Hgone).
  - vm_compute. apply List.NoDup_cons; [intros []|apply List.NoDup_nil].
  - intros root files file [E|[]] Hfile Hext. injection E as <- <-.
    destruct Hfile as [<-|[<-|[<-|[]]]]; vm_compute in Hext; try discriminate Hext.
    vm_compute. discriminate.
  - exists fs'. split; [exact Hrun|].
    apply (Hgone "/repo/test/baseline"
             ["cube.jpg"; "cube_roundtrip.usd"; "usd_checker_results.json"]
             "cube_roundtrip.usd"); [left; reflexivity|right; left; reflexivity|].
    vm_compute. reflexivity.
Defined.
